(** * DomainGuard: alert dispatcher and auto-action engine

    A shallow embedding of the event-driven core of the repository:
    - [src/services/alerts/alertService.js]  (class [AlertService]),
    - [src/database/models/alert.js]         (rule-store queries),
    - [services/autoActionsService.js]       (class [AutoActionsService]),
    and of the code around it:
    - [src/contracts/contractMonitor.js]     (the event objects it emits),
    - [src/database/models/user.js]          ([updateUser], [checkUserLimits]),
    - [services/subscriptionService.js]      (tiers and their benefits),
    - the [auto_actions] table of the schema and the methods that write it.

    Calls to the logger have no effect on the modelled state and are left
    out.  Every collaborator (database, chain client, registered
    listeners) may answer or throw; its behaviour is a field of the
    environment record of the service.

    JavaScript values are modelled as follows.
    - numbers: [jsnum], the binary64 values, with addition and
      multiplication rounded as the machine rounds them ([NaN] is what
      [parseFloat] yields on a malformed price);
    - strings: [string];
    - regular expressions: the fragment of [Regex]; what the pattern
      lookup of the rule store answers outside it is a field of the
      environment;
    - [Map] objects keyed by strings: [gmap string _];
    - the [Set] of processed event ids: a duplicate-free list in insertion
      order (the eviction code depends on that order);
    - [async] methods: functions in the state-and-exception monad [Eff];
      an [await] on a collaborator (database, chain, listeners) reads the
      collaborator's answer from an environment record. *)

From Stdlib Require Import ZArith Ascii String.
From Stdlib Require Floats Uint63.
From stdpp Require Import base decidable option list strings pretty gmap.

Local Open Scope string_scope.
Local Open Scope list_scope.

(** ** JavaScript values and completions *)

Module Js.

(** A JavaScript number: a binary64 value.  A finite value is an integer
    ([Num z]) or an odd multiple of a negative power of two ([Frac n k]
    is [n / 2^k]); the sign of zero is not tracked, as no operation used
    here observes it.  The operations below return values of binary64;
    the comparisons are exact on every value of the type. *)
Inductive jsnum : Type :=
| Num (z : Z)
| Frac (n : Z) (k : positive)
| Infinity (negative : bool)
| NaN.

(** The number of trailing zero bits of [m <> 0]. *)
Definition trailing_zeros (m : Z) : Z := Z.log2 (Z.land m (- m)).

(** The number [m * 2^q], in lowest terms. *)
Definition dyadic (m q : Z) : jsnum :=
  if (m =? 0)%Z then Num 0
  else if (0 <=? q)%Z then Num (m * 2 ^ q)
  else
    let t := Z.min (trailing_zeros m) (- q) in
    if (- q - t =? 0)%Z then Num (m / 2 ^ t)
    else Frac (m / 2 ^ t) (Z.to_pos (- q - t)).

(** [a / 2^sh] rounded to the nearest integer, a tie to the even one. *)
Definition round_half_even (a sh : Z) : Z :=
  let q := (a / 2 ^ sh)%Z in
  let r := (a mod 2 ^ sh)%Z in
  let half := (2 ^ (sh - 1))%Z in
  if (half <? r)%Z || ((r =? half)%Z && Z.odd q) then (q + 1)%Z else q.

(** The binary64 value nearest to [n / 2^k] (round to nearest, ties to
    even): 53 significant bits, the last place no finer than [2^-1074],
    and [Infinity] from [2^1024] on. *)
Definition binary64 (n k : Z) : jsnum :=
  if (n =? 0)%Z then Num 0
  else
    let a := Z.abs n in
    let q := Z.max (Z.log2 a - k - 52) (-1074) in
    let sh := (k + q)%Z in
    let m := if (sh <=? 0)%Z then (a * 2 ^ (- sh))%Z else round_half_even a sh in
    if (0 <=? q)%Z && (2 ^ 1024 <=? m * 2 ^ q)%Z then Infinity (n <? 0)%Z
    else dyadic (Z.sgn n * m) q.

(** [a + b] *)
Definition num_add (a b : jsnum) : jsnum :=
  match a, b with
  | NaN, _ | _, NaN => NaN
  | Infinity s, Infinity t => if Bool.eqb s t then Infinity s else NaN
  | Infinity s, _ | _, Infinity s => Infinity s
  | Num x, Num y => binary64 (x + y) 0
  | Num x, Frac n k => binary64 (x * 2 ^ Zpos k + n) (Zpos k)
  | Frac n k, Num y => binary64 (n + y * 2 ^ Zpos k) (Zpos k)
  | Frac n k, Frac m j =>
      binary64 (n * 2 ^ Zpos j + m * 2 ^ Zpos k) (Zpos k + Zpos j)
  end.

Definition is_zero (a : jsnum) : bool :=
  match a with
  | Num z => (z =? 0)%Z
  | Frac n _ => (n =? 0)%Z
  | _ => false
  end.

Definition is_negative (a : jsnum) : bool :=
  match a with
  | Num z => (z <? 0)%Z
  | Frac n _ => (n <? 0)%Z
  | Infinity s => s
  | NaN => false
  end.

(** [a * b] *)
Definition num_mul (a b : jsnum) : jsnum :=
  match a, b with
  | NaN, _ | _, NaN => NaN
  | Infinity s, c | c, Infinity s =>
      if is_zero c then NaN else Infinity (xorb s (is_negative c))
  | Num x, Num y => binary64 (x * y) 0
  | Num x, Frac n k => binary64 (x * n) (Zpos k)
  | Frac n k, Num y => binary64 (n * y) (Zpos k)
  | Frac n k, Frac m j => binary64 (n * m) (Zpos k + Zpos j)
  end.

(** [a <= b] and [a < b]: comparisons involving [NaN] are false. *)
Definition num_le (a b : jsnum) : bool :=
  match a, b with
  | NaN, _ | _, NaN => false
  | Num x, Num y => (x <=? y)%Z
  | Num x, Frac n k => (x * 2 ^ Zpos k <=? n)%Z
  | Frac n k, Num y => (n <=? y * 2 ^ Zpos k)%Z
  | Frac n k, Frac m j => (n * 2 ^ Zpos j <=? m * 2 ^ Zpos k)%Z
  | Infinity s, Infinity t => s || negb t
  | Infinity s, _ => s
  | _, Infinity t => negb t
  end.

Definition num_lt (a b : jsnum) : bool :=
  match a, b with
  | NaN, _ | _, NaN => false
  | Num x, Num y => (x <? y)%Z
  | Num x, Frac n k => (x * 2 ^ Zpos k <? n)%Z
  | Frac n k, Num y => (n <? y * 2 ^ Zpos k)%Z
  | Frac n k, Frac m j => (n * 2 ^ Zpos j <? m * 2 ^ Zpos k)%Z
  | Infinity s, Infinity t => s && negb t
  | Infinity s, _ => s
  | _, Infinity t => negb t
  end.

Definition num_gt (a b : jsnum) : bool := num_lt b a.

(** Truthiness of a number: [0] and [NaN] are falsy. *)
Definition num_truthy (a : jsnum) : bool :=
  match a with
  | NaN => false
  | a => negb (is_zero a)
  end.

(** Truthiness of an optional string property ([undefined] and the empty
    string are falsy). *)
Definition opt_str_truthy (o : option string) : bool :=
  match o with Some s => negb (String.eqb s "") | None => false end.

(** [bound && p(bound)] for an optional numeric bound. *)
Definition bound_and (bound : option jsnum) (p : jsnum -> bool) : bool :=
  match bound with
  | Some b => num_truthy b && p b
  | None => false
  end.

(** [a || d] on numbers. *)
Definition num_or (o : option jsnum) (d : jsnum) : jsnum :=
  match o with
  | Some n => if num_truthy n then n else d
  | None => d
  end.

(** Thrown values. [External] stands for an error raised by a collaborator
    (database, chain client, event listener); [Unmodelled] is raised by the
    model where the source leaves the modelled fragment of JavaScript. *)
Inductive exn : Type :=
| JsError (msg : string)
| TypeError (msg : string)
| ReferenceError (msg : string)
| SyntaxError (msg : string)
| External (msg : string)
| Unmodelled (what : string).

(** [error.message] *)
Definition message (e : exn) : string :=
  match e with
  | JsError m | TypeError m | ReferenceError m | SyntaxError m
  | External m | Unmodelled m => m
  end.

Inductive result (A : Type) : Type :=
| Ok (a : A)
| Throw (e : exn).
Global Arguments Ok {A} a.
Global Arguments Throw {A} e.

(** The monad of a method body: it threads the service's mutable state
    and completes normally or abruptly (a throw). *)
Definition Eff (S A : Type) : Type := S -> result A * S.

Section Monad.
Context {S : Type}.

Definition ret {A} (a : A) : Eff S A := fun s => (Ok a, s).

Definition bind {A B} (m : Eff S A) (k : A -> Eff S B) : Eff S B :=
  fun s =>
    match m s with
    | (Ok a, s') => k a s'
    | (Throw e, s') => (Throw e, s')
    end.

Definition throw {A} (e : exn) : Eff S A := fun s => (Throw e, s).

(** Lifting of a pure computation that may throw, and of a
    collaborator's answer. *)
Definition lift {A} (r : result A) : Eff S A := fun s => (r, s).

Definition gets {A} (f : S -> A) : Eff S A := fun s => (Ok (f s), s).

Definition modify (f : S -> S) : Eff S unit := fun s => (Ok tt, f s).

(** [try { m } catch (error) { h error }] *)
Definition try_catch {A} (m : Eff S A) (h : exn -> Eff S A) : Eff S A :=
  fun s =>
    match m s with
    | (Ok a, s') => (Ok a, s')
    | (Throw e, s') => h e s'
    end.

(** [try { m } catch (error) { h error } finally { f }]: the finally
    block runs on every path; when it throws, its exception replaces
    the completion of the try/catch part. *)
Definition try_catch_finally {A} (m : Eff S A) (h : exn -> Eff S A)
    (f : Eff S unit) : Eff S A :=
  fun s =>
    let (r, s') := try_catch m h s in
    match f s' with
    | (Ok _, s'') => (r, s'')
    | (Throw e, s'') => (Throw e, s'')
    end.

(** [for (const x of l) { body x }]: a throw leaves the loop. *)
Fixpoint for_of {A} (l : list A) (body : A -> Eff S unit) : Eff S unit :=
  match l with
  | [] => ret tt
  | x :: l' => bind (body x) (fun _ => for_of l' body)
  end.

(** [l.some(p)] for a predicate that may throw. *)
Fixpoint some {A} (p : A -> result bool) (l : list A) : result bool :=
  match l with
  | [] => Ok false
  | x :: l' =>
      match p x with
      | Ok true => Ok true
      | Ok false => some p l'
      | Throw e => Throw e
      end
  end.
End Monad.

(** A computation that completes normally from every state. *)
Definition total {S} (m : Eff S unit) : Prop := forall s, (m s).1 = Ok tt.

End Js.

Export Js.

(** ** The number model against the machine

    The kernel's floating-point numbers are the machine's binary64; the
    operations of [jsnum] are compared with them on the pairs of
    [samples]. *)

Module Binary64Check.

(** The number a machine double holds; both zeros are [Num 0]. *)
Definition of_float (f : PrimFloat.float) : jsnum :=
  match FloatOps.Prim2SF f with
  | SpecFloat.S754_zero _ => Num 0
  | SpecFloat.S754_infinity s => Infinity s
  | SpecFloat.S754_nan => NaN
  | SpecFloat.S754_finite s m e => dyadic (if s then Z.neg m else Z.pos m) e
  end.

(** The double nearest to [m * 2^e], negated on demand, for [0 <= m < 2^63]. *)
Definition double (negative : bool) (m e : Z) : PrimFloat.float :=
  let f := FloatOps.Z.ldexp (PrimFloat.of_uint63 (Uint63.of_Z m)) e in
  if negative then PrimFloat.opp f else f.

Definition same (a b : jsnum) : bool :=
  match a, b with
  | Num x, Num y => (x =? y)%Z
  | Frac n k, Frac m j => (n =? m)%Z && Pos.eqb k j
  | Infinity s, Infinity t => Bool.eqb s t
  | NaN, NaN => true
  | _, _ => false
  end.

(** Sum, product, comparisons and truthiness of a pair of doubles, on
    the machine and in the model. *)
Definition agrees (p : PrimFloat.float * PrimFloat.float) : bool :=
  let a := of_float p.1 in
  let b := of_float p.2 in
  same (num_add a b) (of_float (PrimFloat.add p.1 p.2))
  && same (num_mul a b) (of_float (PrimFloat.mul p.1 p.2))
  && Bool.eqb (num_lt a b) (PrimFloat.ltb p.1 p.2)
  && Bool.eqb (num_le a b) (PrimFloat.leb p.1 p.2)
  && Bool.eqb (num_truthy a)
       (negb (PrimFloat.eqb p.1 PrimFloat.zero) && PrimFloat.eqb p.1 p.1).

(** Zero, one, a price of the scenarios, 0.1, 0.2 and 0.3, the integers
    around [2^53], the smallest and the largest doubles, the infinities
    and [NaN]. *)
Definition landmarks : list PrimFloat.float :=
  [ PrimFloat.zero; double false 1 0; double true 1 0; double false 45 0;
    double false 3602879701896397 (-55); double false 3602879701896397 (-54);
    double false 5404319552844595 (-54);
    double false 1 53; double false 9007199254740991 0;
    double false 1 (-1074); double false 9007199254740991 971;
    double true 9007199254740991 971;
    PrimFloat.infinity; PrimFloat.neg_infinity; PrimFloat.nan ].

(** A linear congruential generator for the other pairs. *)
Definition next (x : Z) : Z :=
  ((x * 6364136223846793005 + 1442695040888963407) mod 2 ^ 64)%Z.

Definition draw (r spread : Z) : PrimFloat.float :=
  double (Z.odd (r / 2 ^ 62)) (r mod 2 ^ 53)
    ((r / 2 ^ 53) mod (2 * spread + 1) - spread).

Fixpoint draws (n : nat) (x spread : Z) : list (PrimFloat.float * PrimFloat.float) :=
  match n with
  | O => []
  | S n' =>
      let x1 := next x in
      let x2 := next x1 in
      (draw x1 spread, draw x2 spread) :: draws n' x2 spread
  end.

Definition samples : list (PrimFloat.float * PrimFloat.float) :=
  (a ← landmarks; (fun b => (a, b)) <$> landmarks)
  ++ draws 40 12345 1 ++ draws 40 999 60 ++ draws 40 4242 600
  ++ draws 40 77 1100.

End Binary64Check.

Declare Scope eff_scope.
Delimit Scope eff_scope with eff.
Notation "x <- m ;; k" := (bind m (fun x => k))
  (at level 100, m at next level, right associativity) : eff_scope.
Notation "m ;; k" := (bind m (fun _ => k))
  (at level 100, right associativity) : eff_scope.

(** ** Regular expressions: the fragment of [RegExp] the services build

    The sources handed to [new RegExp] consist of the characters of a
    stored pattern, with [.*] or [.] substituted for the wildcards and, in
    one matcher, [^] and [$] around them.  The model covers literal
    characters, [.], the quantifier [*] on a single character, and the two
    anchors, always with the [i] flag.  A source that uses any other
    metacharacter is outside the model: [RegExp] raises [Unmodelled].
    A string is matched byte by byte; for ASCII text a byte is a code
    unit of the JavaScript string. *)

Module Regex.

Inductive atom : Type :=
| Lit (c : ascii)
| AnyChar.

Inductive term : Type :=
| One (a : atom)
| Star (a : atom)
| Bol
| Eol.

Definition regex : Type := list term.

(** ASCII case folding, the effect of the [i] flag on the characters of a
    domain name. *)
Definition lower (c : ascii) : ascii :=
  let n := nat_of_ascii c in
  if (65 <=? n)%nat && (n <=? 90)%nat then ascii_of_nat (n + 32) else c.

Definition is_line_terminator (c : ascii) : bool :=
  Ascii.eqb c "010" || Ascii.eqb c "013".

(** A character that is one byte here and one code unit of the
    JavaScript string. *)
Definition is_ascii (c : ascii) : bool := (nat_of_ascii c <? 128)%nat.

Definition ascii_only (s : string) : bool :=
  forallb is_ascii (list_ascii_of_string s).

Definition atom_matches (a : atom) (c : ascii) : bool :=
  match a with
  | Lit d => Ascii.eqb (lower d) (lower c)
  | AnyChar => negb (is_line_terminator c)
  end.

Fixpoint star_from (a : atom) (k : nat -> list ascii -> bool)
    (pos : nat) (s : list ascii) : bool :=
  k pos s ||
  match s with
  | [] => false
  | c :: s' => atom_matches a c && star_from a k (S pos) s'
  end.

(** Does [r] match a prefix of [s], where [s] starts at offset [pos] of
    the input? *)
Fixpoint match_here (r : regex) (pos : nat) (s : list ascii) : bool :=
  match r with
  | [] => true
  | One a :: r' =>
      match s with
      | c :: s' => atom_matches a c && match_here r' (S pos) s'
      | [] => false
      end
  | Star a :: r' => star_from a (match_here r') pos s
  | Bol :: r' => (pos =? 0)%nat && match_here r' pos s
  | Eol :: r' =>
      match s with
      | [] => match_here r' pos s
      | _ :: _ => false
      end
  end.

Fixpoint search (r : regex) (pos : nat) (s : list ascii) : bool :=
  match_here r pos s ||
  match s with
  | [] => false
  | _ :: s' => search r (S pos) s'
  end.

(** [regex.test(s)]: is there a match anywhere in [s]? *)
Definition test (r : regex) (s : string) : bool :=
  search r 0 (list_ascii_of_string s).

Definition is_unmodelled_meta (c : ascii) : bool :=
  existsb (Ascii.eqb c)
    (list_ascii_of_string "\+?()[]{}|").

Fixpoint parse (acc : list term) (cs : list ascii) : result regex :=
  match cs with
  | [] => Ok (rev acc)
  | c :: cs' =>
      if Ascii.eqb c "*" then
        match acc with
        | One a :: acc' => parse (Star a :: acc') cs'
        | _ => Throw (SyntaxError "Invalid regular expression: Nothing to repeat")
        end
      else if Ascii.eqb c "." then parse (One AnyChar :: acc) cs'
      else if Ascii.eqb c "^" then parse (Bol :: acc) cs'
      else if Ascii.eqb c "$" then parse (Eol :: acc) cs'
      else if is_unmodelled_meta c then
        Throw (Unmodelled "regular expression syntax")
      else parse (One (Lit c) :: acc) cs'
  end.

(** [new RegExp(source, 'i')] *)
Definition RegExp (source : string) : result regex :=
  parse [] (list_ascii_of_string source).

(** [s.replace(/c/g, by)] for a single character [c]. *)
Fixpoint replace_all_chars (c : ascii) (by_ : list ascii) (s : list ascii)
    : list ascii :=
  match s with
  | [] => []
  | d :: s' =>
      (if Ascii.eqb d c then by_ else [d]) ++ replace_all_chars c by_ s'
  end.

Definition replace_all (c : ascii) (by_ : string) (s : string) : string :=
  string_of_list_ascii
    (replace_all_chars c (list_ascii_of_string by_) (list_ascii_of_string s)).

End Regex.

(** ** Patterns without metacharacters *)

Module Patterns.

(** A character that stands for itself in both pattern languages: no
    wildcard ([*], [%], [_]) and no metacharacter of [RegExp] other than
    the dot. *)
Definition is_plain (c : ascii) : bool :=
  negb (existsb (Ascii.eqb c) (list_ascii_of_string "*^$\+?()[]{}|%_")).

Definition plain (s : string) : bool :=
  forallb is_plain (list_ascii_of_string s).


(** What [RegExp] makes of a plain character. *)
Definition atom_of (c : ascii) : Regex.atom :=
  if Ascii.eqb c "." then Regex.AnyChar else Regex.Lit c.

End Patterns.

(** ** Records shared by both services *)

(** A row of the [users] table ([database/models/user.js]). *)
Record User : Type := {
  user_id : Z;
  subscriptionTier : string;
  isActive : bool;
  monthlySpendLimit : option jsnum;
  walletAddress : option string
}.

Record BlockData : Type := {
  blockNumber : Z;
  transactionHash : string
}.

(** The event objects emitted by the contract monitor
    ([domainExpiry], [domainSale], [domainAuction]).  [price] is the number
    that [parseFloat(event.price)] yields. *)
Record Event : Type := {
  ev_type : string;
  domain : string;
  owner : option string;
  seller : option string;
  daysUntilExpiry : jsnum;
  urgency : option string;
  price : jsnum;
  blockData : option BlockData
}.

(** The user row a lookup produced, if it produced one. *)
Definition found (r : result (option User)) : option User :=
  match r with
  | Ok (Some u) => Some u
  | _ => None
  end.

(** Did the call complete normally? *)
Definition succeeded {A} (r : result A) : bool :=
  match r with
  | Ok _ => true
  | Throw _ => false
  end.

(** [s.toLowerCase()] on ASCII strings. *)
Definition toLowerCase (s : string) : string :=
  string_of_list_ascii (map Regex.lower (list_ascii_of_string s)).

(** A value of [urgencyLevels[u] || 0]: a level of the table, or one of
    the members every object inherits from [Object.prototype], given by
    the text it turns into when it is compared. *)
Inductive level : Type :=
| Level (n : Z)
| Inherited (text : string).

(** The inherited members: [__proto__] is an object, the others are
    built-in functions. *)
Definition inherited_text (key : string) : option string :=
  if String.eqb key "__proto__" then Some "[object Object]"
  else if String.eqb key "constructor"
  then Some "function Object() { [native code] }"
  else if bool_decide
            (key ∈ ["toString"; "toLocaleString"; "valueOf"; "hasOwnProperty";
                    "isPrototypeOf"; "propertyIsEnumerable";
                    "__defineGetter__"; "__defineSetter__";
                    "__lookupGetter__"; "__lookupSetter__"])
  then Some ("function " +:+ key +:+ "() { [native code] }")
  else None.

(** [urgencyLevels[u] || 0] with
    [urgencyLevels = { low: 0, medium: 1, high: 2, critical: 3 }]. *)
Definition urgencyLevel (u : option string) : level :=
  match u with
  | Some s =>
      if String.eqb s "low" then Level 0
      else if String.eqb s "medium" then Level 1
      else if String.eqb s "high" then Level 2
      else if String.eqb s "critical" then Level 3
      else match inherited_text s with
           | Some text => Inherited text
           | None => Level 0
           end
  | None => Level 0
  end.

(** [a < b] on two such values.  Two levels compare as numbers.  An
    inherited member against a level is an object against a number: its
    text is no numeral and the comparison is false.  Two inherited
    members compare by their texts. *)
Definition level_lt (a b : level) : bool :=
  match a, b with
  | Level x, Level y => (x <? y)%Z
  | Inherited s, Inherited t => String.ltb s t
  | _, _ => false
  end.

(** The test both condition matchers apply to one entry of
    [conditions.domainPatterns]:
    [new RegExp(pattern.replace(/\*/g, '.*'), 'i').test(event.domain)]. *)
Definition domainPattern_test (event_domain pattern : string) : result bool :=
  match Regex.RegExp (Regex.replace_all "*" ".*" pattern) with
  | Ok regex => Ok (Regex.test regex event_domain)
  | Throw e => Throw e
  end.

(** ** The auto-action engine ([AutoActionsService]) *)

Module AutoActions.

(** [JSON.parse(action.conditions)] *)
Record Conditions : Type := {
  daysBeforeExpiry : option jsnum;
  minUrgency : option string;
  renewalDuration : option jsnum;
  maxPrice : option jsnum;
  minPrice : option jsnum;
  domainPatterns : option (list string);
  targetDomains : option (list string);
  excludeSellers : option (list string)
}.

(** A row of [auto_actions]. *)
Record Action : Type := {
  id : Z;
  userId : Z;
  conditions : Conditions;
  maxAmount : jsnum
}.

(** A value of [this.activeActions]. *)
Record ActiveAction : Type := {
  startTime : Z;
  aa_action : Action;
  aa_event : Event
}.

(** A row of [auto_action_logs]. *)
Record ActionLog : Type := {
  log_actionId : Z;
  log_userId : Z;
  log_domain : string;
  log_amount : jsnum;
  log_transactionHash : option string;
  log_status : string;
  log_errorMessage : option string
}.

(** A row of [transaction_logs]. *)
Record TransactionLog : Type := {
  tl_userId : Z;
  tl_amount : jsnum
}.

(** What [domainService.renewDomain] / [buyDomain] return. *)
Record TxReceipt : Type := {
  receipt_hash : string;
  gasUsed : string
}.

Inductive Signer : Type :=
| WalletSigner (address : string).

(** Events emitted by the service. *)
Inductive Emitted : Type :=
| autoActionExecuted (kind : string) (uid : Z) (dom : string) (hash : string)
    (amount : option jsnum)
| autoActionFailed (kind : string) (uid : Z) (dom : string) (error : string).

(** The mutable state the service reads and writes: its two [Map]s, the
    database tables it appends to, and the events it has emitted. *)
Record State : Type := {
  activeActions : gmap string ActiveAction;
  monthlySpending : gmap string jsnum;
  auto_action_logs : list ActionLog;
  transaction_logs : list TransactionLog;
  executionCount : gmap Z nat;
  emitted : list Emitted
}.

(** The collaborators, as seen during one call:
    - [now]: [Date.now()];
    - [currentMonth]: [new Date().toISOString().substring(0, 7)];
    - [db_user]: [database.get('SELECT * FROM users WHERE id = ?')];
    - [db_auto_actions]: the [SELECT] of [getAutoActions], conditions parsed;
    - [db_run]: does a write to the named table succeed?
    - [chain_renewDomain], [chain_buyDomain]: the transaction submitter
      ([domainService]);
    - [listeners]: the listeners registered on the service; [emit] throws
      when one of them throws. *)
Record Env : Type := {
  now : Z;
  currentMonth : string;
  db_user : Z -> result (option User);
  db_auto_actions : string -> option string -> result (list Action);
  db_run : string -> result unit;
  chain_renewDomain : string -> jsnum -> Signer -> result TxReceipt;
  chain_buyDomain : string -> Signer -> result TxReceipt;
  listeners : Emitted -> result unit
}.

Definition set_activeActions (f : gmap string ActiveAction -> gmap string ActiveAction)
    (s : State) : State :=
  {| activeActions := f (activeActions s);
     monthlySpending := monthlySpending s;
     auto_action_logs := auto_action_logs s;
     transaction_logs := transaction_logs s;
     executionCount := executionCount s;
     emitted := emitted s |}.

Definition set_monthlySpending (f : gmap string jsnum -> gmap string jsnum)
    (s : State) : State :=
  {| activeActions := activeActions s;
     monthlySpending := f (monthlySpending s);
     auto_action_logs := auto_action_logs s;
     transaction_logs := transaction_logs s;
     executionCount := executionCount s;
     emitted := emitted s |}.

Definition set_auto_action_logs (f : list ActionLog -> list ActionLog)
    (s : State) : State :=
  {| activeActions := activeActions s;
     monthlySpending := monthlySpending s;
     auto_action_logs := f (auto_action_logs s);
     transaction_logs := transaction_logs s;
     executionCount := executionCount s;
     emitted := emitted s |}.

Definition set_transaction_logs (f : list TransactionLog -> list TransactionLog)
    (s : State) : State :=
  {| activeActions := activeActions s;
     monthlySpending := monthlySpending s;
     auto_action_logs := auto_action_logs s;
     transaction_logs := f (transaction_logs s);
     executionCount := executionCount s;
     emitted := emitted s |}.

Definition set_executionCount (f : gmap Z nat -> gmap Z nat) (s : State) : State :=
  {| activeActions := activeActions s;
     monthlySpending := monthlySpending s;
     auto_action_logs := auto_action_logs s;
     transaction_logs := transaction_logs s;
     executionCount := f (executionCount s);
     emitted := emitted s |}.

Definition set_emitted (f : list Emitted -> list Emitted) (s : State) : State :=
  {| activeActions := activeActions s;
     monthlySpending := monthlySpending s;
     auto_action_logs := auto_action_logs s;
     transaction_logs := transaction_logs s;
     executionCount := executionCount s;
     emitted := f (emitted s) |}.

(** *** Condition matchers (pure) *)

Definition shouldExecuteAutoRenewal (conditions : Conditions) (event : Event) : bool :=
  if bound_and (daysBeforeExpiry conditions) (num_gt (daysUntilExpiry event))
  then false
  else if opt_str_truthy (minUrgency conditions)
          && level_lt (urgencyLevel (urgency event)) (urgencyLevel (minUrgency conditions))
  then false
  else true.

(** [conditions.excludeSellers.includes(event.seller?.toLowerCase())] *)
Definition seller_excluded (sellers : list string) (event : Event) : bool :=
  match seller event with
  | Some a => bool_decide (toLowerCase a ∈ sellers)
  | None => false
  end.

Definition shouldExecuteAutoPurchase (action : Action) (event : Event) : result bool :=
  let conditions := conditions action in
  let priceNum := price event in
  if num_gt priceNum (maxAmount action) then Ok false
  else if bound_and (maxPrice conditions) (num_gt priceNum) then Ok false
  else if bound_and (minPrice conditions) (num_lt priceNum) then Ok false
  else
    match
      match domainPatterns conditions with
      | Some patterns => some (domainPattern_test (domain event)) patterns
      | None => Ok true
      end
    with
    | Throw e => Throw e
    | Ok false => Ok false
    | Ok true =>
        if match targetDomains conditions with
           | Some targets => negb (bool_decide (domain event ∈ targets))
           | None => false
           end
        then Ok false
        else if match excludeSellers conditions with
                | Some sellers => seller_excluded sellers event
                | None => false
                end
        then Ok false
        else Ok true
    end.

(** [const monthlyLimit = user.monthlySpendLimit || 200] *)
Definition monthlyLimit (u : User) : jsnum :=
  num_or (monthlySpendLimit u) (Num 200).

Section Service.
Variable env : Env.

Local Open Scope eff_scope.

(** [getUserById] of [database/models/user.js]: the row or [undefined];
    a database error is logged and rethrown. *)
Definition getUserById (uid : Z) : Eff State (option User) :=
  lift (db_user env uid).

(** [this.emit(name, payload)] *)
Definition emit (ev : Emitted) : Eff State unit :=
  modify (set_emitted (fun l => l ++ [ev]));;
  lift (listeners env ev).

(** [`${userId}_${currentMonth}`] *)
Definition spendingKey (userId : Z) : string :=
  pretty userId +:+ "_" +:+ currentMonth env.

Definition currentSpending (userId : Z) (s : State) : jsnum :=
  num_or (monthlySpending s !! spendingKey userId) (Num 0).

Definition checkSpendingLimits (userId : Z) (amount : jsnum) : Eff State bool :=
  try_catch
    (user <- getUserById userId;;
     match user with
     | None =>
         throw (TypeError "Cannot read properties of undefined (reading 'monthlySpendLimit')")
     | Some u =>
         spent <- gets (currentSpending userId);;
         ret (num_le (num_add spent amount) (monthlyLimit u))
     end)
    (fun _ => ret false).

Definition trackSpending (userId : Z) (amount : jsnum) : Eff State unit :=
  try_catch
    (spent <- gets (currentSpending userId);;
     modify (set_monthlySpending (<[spendingKey userId := num_add spent amount]>));;
     lift (db_run env "transaction_logs");;
     modify (set_transaction_logs
               (fun l => l ++ [{| tl_userId := userId; tl_amount := amount |}])))
    (fun _ => ret tt).

(** The body of [getUserSigner] in the repository: it throws on every
    call. *)
Definition getUserSigner (user : option User) : Eff State Signer :=
  throw (JsError "Wallet integration not implemented - requires user signature").

Definition getAutoActions (type : string) (domain : option string)
    : Eff State (list Action) :=
  try_catch (lift (db_auto_actions env type domain)) (fun _ => ret []).

Definition logAutoAction (row : ActionLog) : Eff State unit :=
  try_catch
    (lift (db_run env "auto_action_logs");;
     modify (set_auto_action_logs (fun l => l ++ [row])))
    (fun _ => ret tt).

Definition updateActionExecutionCount (actionId : Z) : Eff State unit :=
  try_catch
    (lift (db_run env "auto_actions");;
     modify (set_executionCount (alter S actionId)))
    (fun _ => ret tt).

Definition failedLog (action : Action) (event : Event) (error : exn) : ActionLog :=
  {| log_actionId := id action;
     log_userId := userId action;
     log_domain := domain event;
     log_amount := Num 0;
     log_transactionHash := None;
     log_status := "failed";
     log_errorMessage := Some (message error) |}.

Definition successLog (action : Action) (event : Event) (amount : jsnum)
    (receipt : TxReceipt) : ActionLog :=
  {| log_actionId := id action;
     log_userId := userId action;
     log_domain := domain event;
     log_amount := amount;
     log_transactionHash := Some (receipt_hash receipt);
     log_status := "success";
     log_errorMessage := None |}.

(** [`renewal_${action.id}_${event.domain}`] and its purchase twin *)
Definition renewalKey (action : Action) (event : Event) : string :=
  "renewal_" +:+ pretty (id action) +:+ "_" +:+ domain event.

Definition purchaseKey (action : Action) (event : Event) : string :=
  "purchase_" +:+ pretty (id action) +:+ "_" +:+ domain event.

(** The synchronous head of both [execute] methods: the [has] test and
    the [set] run without an intervening [await].  It returns [true]
    when the caller took the lock. *)
Definition acquire (actionKey : string) (action : Action) (event : Event)
    : Eff State bool :=
  held <- gets (fun s => bool_decide (is_Some (activeActions s !! actionKey)));;
  if held then ret false
  else
    modify (set_activeActions
              (<[actionKey := {| startTime := now env;
                                 aa_action := action;
                                 aa_event := event |}]>));;
    ret true.

(** The [finally] block of both [execute] methods reads [actionKey],
    a [const] declared inside the [try] block and therefore out of
    scope here: evaluating the argument of [delete] throws, and
    [delete] is never called. *)
Definition release_in_finally : Eff State unit :=
  throw (ReferenceError "actionKey is not defined").

Definition renewal_steps (action : Action) (event : Event) : Eff State unit :=
  within <- checkSpendingLimits (userId action) (maxAmount action);;
  if negb within then throw (JsError "Monthly spending limit exceeded")
  else
    user <- getUserById (userId action);;
    signer <- getUserSigner user;;
    let renewalDuration := num_or (renewalDuration (conditions action)) (Num 365) in
    receipt <- lift (chain_renewDomain env (domain event)
                       (num_mul renewalDuration (Num (24 * 60 * 60))) signer);;
    trackSpending (userId action) (maxAmount action);;
    logAutoAction (successLog action event (maxAmount action) receipt);;
    updateActionExecutionCount (id action);;
    emit (autoActionExecuted "renewal" (userId action) (domain event)
            (receipt_hash receipt) None).

Definition renewal_failed (action : Action) (event : Event) (error : exn)
    : Eff State unit :=
  logAutoAction (failedLog action event error);;
  emit (autoActionFailed "renewal" (userId action) (domain event) (message error)).

(** What remains of [executeAutoRenewal] once its synchronous head has
    run: the awaited steps when the lock was taken, the early [return]
    otherwise, then the [catch] and [finally] blocks. *)
Definition renewal_resume (action : Action) (event : Event) (took : bool)
    : Eff State unit :=
  try_catch_finally
    (if took then renewal_steps action event else ret tt)
    (renewal_failed action event)
    release_in_finally.

Definition executeAutoRenewal (action : Action) (event : Event) : Eff State unit :=
  try_catch_finally
    (took <- acquire (renewalKey action event) action event;;
     if took then renewal_steps action event else ret tt)
    (renewal_failed action event)
    release_in_finally.

Definition purchase_steps (action : Action) (event : Event) : Eff State unit :=
  let purchaseAmount := price event in
  within <- checkSpendingLimits (userId action) purchaseAmount;;
  if negb within then throw (JsError "Monthly spending limit exceeded")
  else
    user <- getUserById (userId action);;
    signer <- getUserSigner user;;
    receipt <- lift (chain_buyDomain env (domain event) signer);;
    trackSpending (userId action) purchaseAmount;;
    logAutoAction (successLog action event purchaseAmount receipt);;
    updateActionExecutionCount (id action);;
    emit (autoActionExecuted "purchase" (userId action) (domain event)
            (receipt_hash receipt) (Some purchaseAmount)).

Definition purchase_failed (action : Action) (event : Event) (error : exn)
    : Eff State unit :=
  logAutoAction (failedLog action event error);;
  emit (autoActionFailed "purchase" (userId action) (domain event) (message error)).

Definition purchase_resume (action : Action) (event : Event) (took : bool)
    : Eff State unit :=
  try_catch_finally
    (if took then purchase_steps action event else ret tt)
    (purchase_failed action event)
    release_in_finally.

Definition executeAutoPurchase (action : Action) (event : Event) : Eff State unit :=
  try_catch_finally
    (took <- acquire (purchaseKey action event) action event;;
     if took then purchase_steps action event else ret tt)
    (purchase_failed action event)
    release_in_finally.

Definition is_premium (user : option User) : bool :=
  match user with
  | Some u => String.eqb (subscriptionTier u) "premium"
  | None => false
  end.

(** [user.walletAddress?.toLowerCase() !== owner?.toLowerCase()] *)
Definition owns_domain (user : option User) (event : Event) : bool :=
  bool_decide
    (toLowerCase <$> (user ≫= walletAddress) = toLowerCase <$> owner event).

(** The bodies of the three [for (const action of autoActions)] loops,
    each wrapped in its own [try]/[catch]. *)
Definition renewal_rule (event : Event) (action : Action) : Eff State unit :=
  try_catch
    (user <- getUserById (userId action);;
     if negb (is_premium user) then ret tt
     else if negb (owns_domain user event) then ret tt
     else if shouldExecuteAutoRenewal (conditions action) event
          then executeAutoRenewal action event
          else ret tt)
    (fun _ => ret tt).

Definition checkAutoRenewal (event : Event) : Eff State unit :=
  try_catch
    (autoActions <- getAutoActions "renew" (Some (domain event));;
     for_of autoActions (renewal_rule event))
    (fun _ => ret tt).

Definition purchase_rule (event : Event) (action : Action) : Eff State unit :=
  try_catch
    (user <- getUserById (userId action);;
     if negb (is_premium user) then ret tt
     else
       go <- lift (shouldExecuteAutoPurchase action event);;
       if go then executeAutoPurchase action event else ret tt)
    (fun _ => ret tt).

Definition checkAutoPurchase (event : Event) : Eff State unit :=
  try_catch
    (if negb (String.eqb (ev_type event) "listing") then ret tt
     else
       autoActions <- getAutoActions "buy" None;;
       for_of autoActions (purchase_rule event))
    (fun _ => ret tt).

(** The class defines neither [shouldExecuteAutoBid] nor
    [executeAutoBid]: calling the missing method throws. *)
Definition shouldExecuteAutoBid (action : Action) (event : Event) : Eff State bool :=
  throw (TypeError "this.shouldExecuteAutoBid is not a function").

Definition executeAutoBid (action : Action) (event : Event) : Eff State unit :=
  throw (TypeError "this.executeAutoBid is not a function").

Definition bid_rule (event : Event) (action : Action) : Eff State unit :=
  try_catch
    (user <- getUserById (userId action);;
     if negb (is_premium user) then ret tt
     else
       go <- shouldExecuteAutoBid action event;;
       if go then executeAutoBid action event else ret tt)
    (fun _ => ret tt).

Definition checkAutoBid (event : Event) : Eff State unit :=
  try_catch
    (autoActions <- getAutoActions "bid" None;;
     for_of autoActions (bid_rule event))
    (fun _ => ret tt).

(** Scheduled jobs. *)
Definition resetMonthlyLimits : Eff State unit :=
  modify (set_monthlySpending (fun _ => ∅)).

Definition cleanupStaleActions : Eff State unit :=
  let staleThreshold := (now env - 60 * 60 * 1000)%Z in
  modify (set_activeActions
            (filter (fun kv : string * ActiveAction =>
                       (staleThreshold <= startTime kv.2)%Z))).
End Service.

End AutoActions.

(** ** The alert dispatcher ([AlertService]) and its rule-store queries *)

Module Alerts.

(** [JSON.parse(alert.conditions)] *)
Record Conditions : Type := {
  daysThreshold : option jsnum;
  minUrgency : option string;
  maxPrice : option jsnum;
  minPrice : option jsnum;
  saleTypes : option (list string);
  domainPatterns : option (list string)
}.

(** A row of the [alerts] table, without its [triggerCount] and
    [lastTriggered] columns, which the state holds. *)
Record Alert : Type := {
  id : Z;
  userId : Z;
  type : string;
  alert_domain : option string;
  domainPattern : option string;
  conditions : Conditions;
  platform : string;
  alert_isActive : bool
}.

(** The argument of [sendAlert]. *)
Record AlertData : Type := {
  ad_type : string;
  ad_alertId : Z;
  ad_userId : Z;
  ad_domain : string;
  ad_urgency : option string;
  ad_platform : string;
  ad_data : Event
}.

(** The payload of the ['alert'] event handed to the listeners (the bots);
    the formatted message and the buttons, both computed from [alertData]
    alone, are left out. *)
Record Emission : Type := {
  em_alert : AlertData;
  em_user : User
}.

(** A row of [alert_logs]. *)
Record AlertLog : Type := {
  al_alertId : Z;
  al_userId : Z;
  al_eventType : string;
  al_status : string;
  al_platform : string
}.

(** The mutable state the dispatcher reads and writes:
    [this.processedEvents] (oldest first), the alerts handed to the
    listeners, the rows of [alert_logs], and the [triggerCount] and
    [lastTriggered] columns of [alerts] by rule id ([lastTriggered] is
    [NULL] until the first update). *)
Record State : Type := {
  processedEvents : list string;
  emitted : list Emission;
  alert_logs : list AlertLog;
  triggerCount : gmap Z nat;
  lastTriggered : gmap Z (option Z)
}.

(** The collaborators, as seen during one call:
    - [alerts_table]: the rows of [alerts];
    - [db_all]: does the [SELECT] issued by the named query function
      succeed?
    - [db_user]: [database.get('SELECT * FROM users WHERE id = ?')];
    - [db_insert_alert_log]: the [INSERT] of [logAlert];
    - [db_update_trigger]: the [UPDATE] of [incrementTriggerCount];
    - [current_timestamp]: the store's [CURRENT_TIMESTAMP];
    - [listeners]: the bots listening for ['alert']; [emit] throws when one
      of them throws;
    - [regexp_beyond source domain]: what
      [try { new RegExp(source, 'i').test(domain) } catch { false }] yields
      for a source or a domain outside the fragment [Regex] models. *)
Record Env : Type := {
  alerts_table : list Alert;
  regexp_beyond : string -> string -> bool;
  db_all : string -> result unit;
  db_user : Z -> result (option User);
  db_insert_alert_log : AlertLog -> result unit;
  db_update_trigger : Z -> result unit;
  current_timestamp : Z;
  listeners : Emission -> result unit
}.

Definition set_processedEvents (f : list string -> list string) (s : State) : State :=
  {| processedEvents := f (processedEvents s);
     emitted := emitted s;
     alert_logs := alert_logs s;
     triggerCount := triggerCount s;
     lastTriggered := lastTriggered s |}.

Definition set_emitted (f : list Emission -> list Emission) (s : State) : State :=
  {| processedEvents := processedEvents s;
     emitted := f (emitted s);
     alert_logs := alert_logs s;
     triggerCount := triggerCount s;
     lastTriggered := lastTriggered s |}.

Definition set_alert_logs (f : list AlertLog -> list AlertLog) (s : State) : State :=
  {| processedEvents := processedEvents s;
     emitted := emitted s;
     alert_logs := f (alert_logs s);
     triggerCount := triggerCount s;
     lastTriggered := lastTriggered s |}.

Definition set_triggerCount (f : gmap Z nat -> gmap Z nat) (s : State) : State :=
  {| processedEvents := processedEvents s;
     emitted := emitted s;
     alert_logs := alert_logs s;
     triggerCount := f (triggerCount s);
     lastTriggered := lastTriggered s |}.

Definition set_lastTriggered (f : gmap Z (option Z) -> gmap Z (option Z)) (s : State)
    : State :=
  {| processedEvents := processedEvents s;
     emitted := emitted s;
     alert_logs := alert_logs s;
     triggerCount := triggerCount s;
     lastTriggered := f (lastTriggered s) |}.

(** *** Condition matchers *)

Definition shouldTriggerExpiryAlert (alert : Alert) (event : Event) : bool :=
  let conditions := conditions alert in
  if bound_and (daysThreshold conditions) (num_gt (daysUntilExpiry event)) then false
  else if opt_str_truthy (minUrgency conditions)
          && level_lt (urgencyLevel (urgency event)) (urgencyLevel (minUrgency conditions))
  then false
  else true.

Definition shouldTriggerSaleAlert (alert : Alert) (event : Event) : result bool :=
  let conditions := conditions alert in
  if bound_and (maxPrice conditions) (num_gt (price event)) then Ok false
  else if bound_and (minPrice conditions) (num_lt (price event)) then Ok false
  else if match saleTypes conditions with
          | Some types => negb (bool_decide (ev_type event ∈ types))
          | None => false
          end
  then Ok false
  else
    match domainPatterns conditions with
    | Some patterns => some (domainPattern_test (domain event)) patterns
    | None => Ok true
    end.

(** The client-side filter of [getAlertsByPattern]: the stored pattern is
    read as an SQL [LIKE] pattern ([%] and [_]), anchored, case-insensitive;
    a pattern that does not compile is logged and does not match.  The
    answer is computed for sources within the modelled fragment of
    [RegExp] applied to ASCII domains, where a byte is a code unit.
    Beyond it one answer is kept, that of a pattern without wildcard or
    metacharacter tested on its own text, which matches whatever its
    characters are; every other answer is [beyond]'s. *)
Definition pattern_filter (beyond : string -> string -> bool) (domain : string)
    (alert : Alert) : bool :=
  match domainPattern alert with
  | None => false
  | Some p =>
      if String.eqb p "" then false
      else
        let pattern := Regex.replace_all "_" "." (Regex.replace_all "%" ".*" p) in
        let source := "^" +:+ pattern +:+ "$" in
        if negb (Regex.ascii_only source && Regex.ascii_only domain)
        then Patterns.plain p && String.eqb p domain || beyond source domain
        else
          match Regex.RegExp source with
          | Ok regex => Regex.test regex domain
          | Throw (Unmodelled _) => beyond source domain
          | Throw _ => false
          end
  end.

(** [freeTier && urgency !== 'critical'] decides the daily batch. *)
Definition checkAlertFrequency (user : User) (alertData : AlertData) : bool :=
  if String.eqb (subscriptionTier user) "free"
     && negb (bool_decide (ad_urgency alertData = Some "critical"))
  then false
  else true.

Section Service.
Variable env : Env.

Local Open Scope eff_scope.

(** [WHERE isActive = 1 AND (domain = ? OR domainPattern = ?) AND type = ?] *)
Definition rows_by_domain (domain type_ : string) : list Alert :=
  filter (fun a : Alert =>
            alert_isActive a = true
            /\ (alert_domain a = Some domain \/ domainPattern a = Some domain)
            /\ type a = type_)
         (alerts_table env).

Definition getAlertsByDomain (domain type_ : string) : Eff State (list Alert) :=
  lift (db_all env "getAlertsByDomain");;
  ret (rows_by_domain domain type_).

(** [WHERE isActive = 1 AND domainPattern IS NOT NULL AND type = ?],
    then the client-side filter. *)
Definition rows_by_pattern (domain type_ : string) : list Alert :=
  filter (fun a : Alert => pattern_filter (regexp_beyond env) domain a = true)
    (filter (fun a : Alert =>
               alert_isActive a = true
               /\ is_Some (domainPattern a)
               /\ type a = type_)
            (alerts_table env)).

Definition getAlertsByPattern (domain type_ : string) : Eff State (list Alert) :=
  lift (db_all env "getAlertsByPattern");;
  ret (rows_by_pattern domain type_).

(** [allAlerts = [...directAlerts, ...patternAlerts]] *)
Definition allAlerts (domain type_ : string) : list Alert :=
  rows_by_domain domain type_ ++ rows_by_pattern domain type_.

Definition getUserById (uid : Z) : Eff State (option User) :=
  lift (db_user env uid).

(** [logAlert] of [database/models/alert.js] (imported as [logAlertToDb]) *)
Definition logAlertToDb (row : AlertLog) : Eff State unit :=
  lift (db_insert_alert_log env row);;
  modify (set_alert_logs (fun l => l ++ [row])).

(** [UPDATE alerts SET triggerCount = triggerCount + 1,
    lastTriggered = CURRENT_TIMESTAMP WHERE id = ?] *)
Definition incrementTriggerCount (alertId : Z) : Eff State unit :=
  lift (db_update_trigger env alertId);;
  modify (set_triggerCount (alter S alertId));;
  modify (set_lastTriggered (alter (fun _ => Some (current_timestamp env)) alertId)).

Definition emit (payload : Emission) : Eff State unit :=
  modify (set_emitted (fun l => l ++ [payload]));;
  lift (listeners env payload).

Definition deliveryLog (alertData : AlertData) (status : string) : AlertLog :=
  {| al_alertId := ad_alertId alertData;
     al_userId := ad_userId alertData;
     al_eventType := ad_type alertData;
     al_status := status;
     al_platform := ad_platform alertData |}.

Definition sendAlert (alertData : AlertData) : Eff State unit :=
  try_catch
    (user <- getUserById (ad_userId alertData);;
     match user with
     | None => ret tt
     | Some u =>
         if negb (isActive u) then ret tt
         else if negb (checkAlertFrequency u alertData) then ret tt
         else
           emit {| em_alert := alertData; em_user := u |};;
           logAlertToDb (deliveryLog alertData "sent")
     end)
    (fun _ =>
       try_catch (logAlertToDb (deliveryLog alertData "failed"))
                 (fun _ => ret tt)).

(** The object literals passed to [sendAlert]; only the expiry one
    carries an [urgency]. *)
Definition expiryAlertData (alert : Alert) (event : Event) : AlertData :=
  {| ad_type := "expiry";
     ad_alertId := id alert;
     ad_userId := userId alert;
     ad_domain := domain event;
     ad_urgency := urgency event;
     ad_platform := platform alert;
     ad_data := event |}.

Definition saleAlertData (alert : Alert) (event : Event) : AlertData :=
  {| ad_type := "sale";
     ad_alertId := id alert;
     ad_userId := userId alert;
     ad_domain := domain event;
     ad_urgency := None;
     ad_platform := platform alert;
     ad_data := event |}.

(** [event.blockData.transactionHash]; a missing [blockData] is a
    [TypeError]. *)
Definition transactionHashOf (event : Event) : Eff State string :=
  match blockData event with
  | Some bd => ret (transactionHash bd)
  | None =>
      throw (TypeError "Cannot read properties of undefined (reading 'transactionHash')")
  end.

(** [this.processedEvents.add(eventId)] *)
Definition add_processed (eventId : string) (l : list string) : list string :=
  if bool_decide (eventId ∈ l) then l else l ++ [eventId].

(** [if (size > 1000) entries.slice(0, -900).forEach(delete)] *)
Definition evict_old (l : list string) : list string :=
  if (1000 <? length l)%nat then drop (length l - 900) l else l.

Definition expiry_rule (event : Event) (alert : Alert) : Eff State unit :=
  try_catch
    (if shouldTriggerExpiryAlert alert event then
       sendAlert (expiryAlertData alert event);;
       incrementTriggerCount (id alert)
     else ret tt)
    (fun _ => ret tt).

Definition processExpiryEvent (event : Event) : Eff State unit :=
  try_catch
    (hash <- transactionHashOf event;;
     let eventId := hash +:+ "-expiry" in
     seen <- gets (fun s => bool_decide (eventId ∈ processedEvents s));;
     if seen then ret tt
     else
       directAlerts <- getAlertsByDomain (domain event) "expiry";;
       patternAlerts <- getAlertsByPattern (domain event) "expiry";;
       for_of (directAlerts ++ patternAlerts) (expiry_rule event);;
       modify (set_processedEvents (add_processed eventId));;
       modify (set_processedEvents evict_old))
    (fun _ => ret tt).

Definition sale_rule (event : Event) (alert : Alert) : Eff State unit :=
  try_catch
    (go <- lift (shouldTriggerSaleAlert alert event);;
     if go then
       sendAlert (saleAlertData alert event);;
       incrementTriggerCount (id alert)
     else ret tt)
    (fun _ => ret tt).

Definition processSaleEvent (event : Event) : Eff State unit :=
  try_catch
    (hash <- transactionHashOf event;;
     let eventId := hash +:+ "-sale-" +:+ ev_type event in
     seen <- gets (fun s => bool_decide (eventId ∈ processedEvents s));;
     if seen then ret tt
     else
       directAlerts <- getAlertsByDomain (domain event) "sale";;
       patternAlerts <- getAlertsByPattern (domain event) "sale";;
       for_of (directAlerts ++ patternAlerts) (sale_rule event);;
       modify (set_processedEvents (add_processed eventId)))
    (fun _ => ret tt).
End Service.

(** The state a rule leaves once its condition has passed: [sendAlert]
    has returned and the counter update was attempted. *)
Definition after_trigger (env : Env) (alertData : AlertData) (aid : Z) (s : State)
    : State :=
  let s' := (sendAlert env alertData s).2 in
  match db_update_trigger env aid with
  | Ok _ =>
      set_lastTriggered (alter (fun _ => Some (current_timestamp env)) aid)
        (set_triggerCount (alter S aid) s')
  | Throw _ => s'
  end.

(** How many times the listeners were handed an alert of rule [aid]. *)
Definition dispatched (aid : Z) (s : State) : nat :=
  length (filter (fun em : Emission => ad_alertId (em_alert em) = aid) (emitted s)).

(** How many times rule [aid] is listed in [l]. *)
Definition listed (aid : Z) (l : list Alert) : nat :=
  length (filter (fun a : Alert => id a = aid) l).

(** How many entries of [l] are rows of rule [aid] for which [fires]
    holds and whose counter update the store accepts. *)
Definition counted (env : Env) (fires : Alert -> bool) (aid : Z) (l : list Alert)
    : nat :=
  length (filter (fun a : Alert =>
                    id a = aid /\ fires a = true
                    /\ succeeded (db_update_trigger env (id a)) = true) l).

End Alerts.

(** ** Concrete inputs: the scenarios of the specification *)

Module Scenario.

Definition listing (dom : string) (amount : Z) : Event :=
  {| ev_type := "listing";
     domain := dom;
     owner := None;
     seller := Some "0xSeller";
     daysUntilExpiry := NaN;
     urgency := None;
     price := Num amount;
     blockData := Some {| blockNumber := 100; transactionHash := "0xfeed" |} |}.

Definition expiring (dom : string) (days : Z) (level : string) : Event :=
  {| ev_type := "expiry";
     domain := dom;
     owner := Some "0xOwner";
     seller := None;
     daysUntilExpiry := Num days;
     urgency := Some level;
     price := NaN;
     blockData := Some {| blockNumber := 200; transactionHash := "0xbeef" |} |}.

Definition user_of_tier (uid : Z) (tier : string) : User :=
  {| user_id := uid;
     subscriptionTier := tier;
     isActive := true;
     monthlySpendLimit := Some (Num 200);
     walletAddress := Some "0xOwner" |}.

(** The auto-buy rule of the end-to-end scenario, owned by user 7. *)
Definition buy_conditions : AutoActions.Conditions :=
  {| AutoActions.daysBeforeExpiry := None;
     AutoActions.minUrgency := None;
     AutoActions.renewalDuration := None;
     AutoActions.maxPrice := Some (Num 50);
     AutoActions.minPrice := None;
     AutoActions.domainPatterns := Some ["*.ape"];
     AutoActions.targetDomains := None;
     AutoActions.excludeSellers := None |}.

Definition buy_rule (cap : Z) : AutoActions.Action :=
  {| AutoActions.id := 1;
     AutoActions.userId := 7;
     AutoActions.conditions := buy_conditions;
     AutoActions.maxAmount := Num cap |}.

Definition renew_conditions : AutoActions.Conditions :=
  {| AutoActions.daysBeforeExpiry := Some (Num 7);
     AutoActions.minUrgency := None;
     AutoActions.renewalDuration := None;
     AutoActions.maxPrice := None;
     AutoActions.minPrice := None;
     AutoActions.domainPatterns := None;
     AutoActions.targetDomains := Some ["web3.ape"];
     AutoActions.excludeSellers := None |}.

Definition renew_rule : AutoActions.Action :=
  {| AutoActions.id := 2;
     AutoActions.userId := 7;
     AutoActions.conditions := renew_conditions;
     AutoActions.maxAmount := Num 20 |}.

(** Every collaborator of the auto-action engine answers; user 7 is on
    the premium tier with the default monthly limit of 200. *)
Definition engine_env : AutoActions.Env :=
  {| AutoActions.now := 1700000000000;
     AutoActions.currentMonth := "2026-11";
     AutoActions.db_user :=
       fun uid => if (uid =? 7)%Z then Ok (Some (user_of_tier 7 "premium")) else Ok None;
     AutoActions.db_auto_actions :=
       fun kind _ =>
         if String.eqb kind "buy" then Ok [buy_rule 50]
         else if String.eqb kind "renew" then Ok [renew_rule]
         else Ok [];
     AutoActions.db_run := fun _ => Ok tt;
     AutoActions.chain_renewDomain :=
       fun _ _ _ => Ok {| AutoActions.receipt_hash := "0xrenewed"; AutoActions.gasUsed := "21000" |};
     AutoActions.chain_buyDomain :=
       fun _ _ => Ok {| AutoActions.receipt_hash := "0xbought"; AutoActions.gasUsed := "21000" |};
     AutoActions.listeners := fun _ => Ok tt |}.

(** The same engine with a database whose user lookup fails. *)
Definition engine_env_db_down : AutoActions.Env :=
  {| AutoActions.now := 1700000000000;
     AutoActions.currentMonth := "2026-11";
     AutoActions.db_user := fun _ => Throw (External "SQLITE_BUSY");
     AutoActions.db_auto_actions := fun _ _ => Ok [buy_rule 50];
     AutoActions.db_run := fun _ => Ok tt;
     AutoActions.chain_renewDomain :=
       fun _ _ _ => Ok {| AutoActions.receipt_hash := "0xrenewed"; AutoActions.gasUsed := "21000" |};
     AutoActions.chain_buyDomain :=
       fun _ _ => Ok {| AutoActions.receipt_hash := "0xbought"; AutoActions.gasUsed := "21000" |};
     AutoActions.listeners := fun _ => Ok tt |}.

(** Engine state with [committed] already spent by user 7 this month. *)
Definition engine_state (committed : option Z) : AutoActions.State :=
  {| AutoActions.activeActions := ∅;
     AutoActions.monthlySpending :=
       match committed with
       | Some c => {[ "7_2026-11" := Num c ]}
       | None => ∅
       end;
     AutoActions.auto_action_logs := [];
     AutoActions.transaction_logs := [];
     AutoActions.executionCount := {[ 1%Z := 0%nat; 2%Z := 0%nat ]};
     AutoActions.emitted := [] |}.

(** Alert rules. *)
Definition within_days (n : Z) : Alerts.Conditions :=
  {| Alerts.daysThreshold := Some (Num n);
     Alerts.minUrgency := None;
     Alerts.maxPrice := None;
     Alerts.minPrice := None;
     Alerts.saleTypes := None;
     Alerts.domainPatterns := None |}.

Definition expiry_alert (aid uid : Z) (dom pat : option string) : Alerts.Alert :=
  {| Alerts.id := aid;
     Alerts.userId := uid;
     Alerts.type := "expiry";
     Alerts.alert_domain := dom;
     Alerts.domainPattern := pat;
     Alerts.conditions := within_days 7;
     Alerts.platform := "telegram";
     Alerts.alert_isActive := true |}.

(** A dispatcher environment over a given rule table and owner tier in
    which every collaborator answers. *)
Definition dispatcher_env (table : list Alerts.Alert) (tier : string) : Alerts.Env :=
  {| Alerts.alerts_table := table;
     Alerts.regexp_beyond := fun _ _ => false;
     Alerts.db_all := fun _ => Ok tt;
     Alerts.db_user := fun uid => Ok (Some (user_of_tier uid tier));
     Alerts.db_insert_alert_log := fun _ => Ok tt;
     Alerts.db_update_trigger := fun _ => Ok tt;
     Alerts.current_timestamp := 1700000000;
     Alerts.listeners := fun _ => Ok tt |}.

(** The same, with a rule store that is unreachable. *)
Definition dispatcher_env_store_down (table : list Alerts.Alert) : Alerts.Env :=
  {| Alerts.alerts_table := table;
     Alerts.regexp_beyond := fun _ _ => false;
     Alerts.db_all := fun _ => Throw (External "SQLITE_CANTOPEN");
     Alerts.db_user := fun uid => Ok (Some (user_of_tier uid "basic"));
     Alerts.db_insert_alert_log := fun _ => Ok tt;
     Alerts.db_update_trigger := fun _ => Ok tt;
     Alerts.current_timestamp := 1700000000;
     Alerts.listeners := fun _ => Ok tt |}.

(** The same, with bots that throw on every alert. *)
Definition dispatcher_env_bots_down (table : list Alerts.Alert) (tier : string)
    : Alerts.Env :=
  {| Alerts.alerts_table := table;
     Alerts.regexp_beyond := fun _ _ => false;
     Alerts.db_all := fun _ => Ok tt;
     Alerts.db_user := fun uid => Ok (Some (user_of_tier uid tier));
     Alerts.db_insert_alert_log := fun _ => Ok tt;
     Alerts.db_update_trigger := fun _ => Ok tt;
     Alerts.current_timestamp := 1700000000;
     Alerts.listeners := fun _ => Throw (External "ETELEGRAM: 502 Bad Gateway") |}.

(** A listing whose [price] member is missing or does not parse. *)
Definition unpriced_listing (dom : string) : Event :=
  {| ev_type := "listing";
     domain := dom;
     owner := None;
     seller := Some "0xSeller";
     daysUntilExpiry := NaN;
     urgency := None;
     price := NaN;
     blockData := Some {| blockNumber := 100; transactionHash := "0xfeed" |} |}.

(** A listing by a given seller. *)
Definition listing_by (sel : string) (dom : string) (amount : Z) : Event :=
  {| ev_type := "listing";
     domain := dom;
     owner := None;
     seller := Some sel;
     daysUntilExpiry := NaN;
     urgency := None;
     price := Num amount;
     blockData := Some {| blockNumber := 100; transactionHash := "0xfeed" |} |}.

(** The engine of [engine_env] as seen at another time, whose user 7
    is on the given tier. *)
Definition engine_env_at (t : Z) (tier : string) : AutoActions.Env :=
  {| AutoActions.now := t;
     AutoActions.currentMonth := "2026-11";
     AutoActions.db_user :=
       fun uid => if (uid =? 7)%Z then Ok (Some (user_of_tier 7 tier)) else Ok None;
     AutoActions.db_auto_actions :=
       fun kind _ =>
         if String.eqb kind "buy" then Ok [buy_rule 50]
         else if String.eqb kind "renew" then Ok [renew_rule]
         else Ok [];
     AutoActions.db_run := fun _ => Ok tt;
     AutoActions.chain_renewDomain :=
       fun _ _ _ => Ok {| AutoActions.receipt_hash := "0xrenewed"; AutoActions.gasUsed := "21000" |};
     AutoActions.chain_buyDomain :=
       fun _ _ => Ok {| AutoActions.receipt_hash := "0xbought"; AutoActions.gasUsed := "21000" |};
     AutoActions.listeners := fun _ => Ok tt |}.

(** A dispatcher whose dedup window holds the given ids, oldest first. *)
Definition dispatcher_state_seen (window : list string) : Alerts.State :=
  {| Alerts.processedEvents := window;
     Alerts.emitted := [];
     Alerts.alert_logs := [];
     Alerts.triggerCount := ∅;
     Alerts.lastTriggered := ∅ |}.

(** The ids ["n"], ["n+1"], ... of [k] earlier events. *)
Definition earlier_ids (n k : nat) : list string :=
  (fun i : nat => pretty i) <$> seq n k.

(** A sale rule for one domain with the given price ceiling. *)
Definition sale_alert (aid uid : Z) (dom : string) (ceiling : option jsnum)
    : Alerts.Alert :=
  {| Alerts.id := aid;
     Alerts.userId := uid;
     Alerts.type := "sale";
     Alerts.alert_domain := Some dom;
     Alerts.domainPattern := None;
     Alerts.conditions :=
       {| Alerts.daysThreshold := None;
          Alerts.minUrgency := None;
          Alerts.maxPrice := ceiling;
          Alerts.minPrice := None;
          Alerts.saleTypes := None;
          Alerts.domainPatterns := None |};
     Alerts.platform := "telegram";
     Alerts.alert_isActive := true |}.

Definition dispatcher_state (counts : gmap Z nat) : Alerts.State :=
  {| Alerts.processedEvents := [];
     Alerts.emitted := [];
     Alerts.alert_logs := [];
     Alerts.triggerCount := counts;
     Alerts.lastTriggered := (fun _ => None) <$> counts |}.

End Scenario.

(** ** The contract monitor's event objects ([contractMonitor.js]) *)

Module Monitor.
Local Open Scope Z_scope.

(** [Math.ceil(a / b)] for integers [a] and [b > 0]. *)
Definition ceil_div (a b : Z) : Z := - ((- a) / b).

(** [Math.ceil((Number(expiryTime) - now) / 86400)], where [now] is
    [Math.floor(Date.now() / 1000)]: both arguments are whole seconds. *)
Definition daysLeft (expiryTime now : Z) : Z :=
  ceil_div (expiryTime - now) 86400.

(** [d <= 1 ? 'critical' : d <= 3 ? 'high' : 'medium'] *)
Definition urgencyOf (daysUntilExpiry : Z) : string :=
  if daysUntilExpiry <=? 1 then "critical"
  else if daysUntilExpiry <=? 3 then "high"
  else "medium".

(** The object [handleDomainExpiring] emits as ['domainExpiry']. *)
Definition handleDomainExpiring (own dom : string) (expiryTime now : Z)
    (bd : BlockData) : Event :=
  {| ev_type := "expiry";
     domain := dom;
     owner := Some own;
     seller := None;
     daysUntilExpiry := Num (daysLeft expiryTime now);
     urgency := Some (urgencyOf (daysLeft expiryTime now));
     price := NaN;
     blockData := Some bd |}.

(** The object [handleDomainPriceChanged] emits as ['domainSale']: it
    carries [oldPrice] and [newPrice] and no [price] member, so
    [parseFloat(event.price)] is [NaN]. *)
Definition handleDomainPriceChanged (sel dom : string) (bd : BlockData) : Event :=
  {| ev_type := "priceChange";
     domain := dom;
     owner := None;
     seller := Some sel;
     daysUntilExpiry := NaN;
     urgency := None;
     price := NaN;
     blockData := Some bd |}.

End Monitor.

(** ** Transfer rules ([AlertService.shouldTriggerTransferAlert]) *)

Module Transfers.

(** The two members of [alert.conditions] a transfer rule reads. *)
Record TransferConditions : Type := {
  onlyUserInvolved : bool;
  direction : option string
}.

(** The two addresses of a ['domainTransfer'] event. *)
Record Transfer : Type := {
  tr_from : string;
  tr_to : string
}.

(** [user] is [alert.user]: the member is read from the rule row, and is
    [undefined] when the row carries none (the rows [getAlertsByDomain]
    and [getAlertsByPattern] return are the columns of [alerts], which
    include no user). *)
Definition shouldTriggerTransferAlert (conditions : TransferConditions)
    (user : option User) (event : Transfer) : bool :=
  let wallet := user ≫= walletAddress in
  if onlyUserInvolved conditions
     && match wallet with
        | Some w =>
            negb (String.eqb w "")
            && negb (String.eqb (toLowerCase (tr_from event)) (toLowerCase w))
            && negb (String.eqb (toLowerCase (tr_to event)) (toLowerCase w))
        | None => false
        end
  then false
  else if opt_str_truthy (direction conditions) then
    if bool_decide (direction conditions = Some "incoming")
       && negb (bool_decide (Some (toLowerCase (tr_to event)) = toLowerCase <$> wallet))
    then false
    else if bool_decide (direction conditions = Some "outgoing")
            && negb (bool_decide (Some (toLowerCase (tr_from event))
                                  = toLowerCase <$> wallet))
    then false
    else true
  else true.

End Transfers.

(** ** The dispatcher's scheduled jobs *)

Module AlertJobs.
Import Alerts.

(** What [generateDailySummary] returns. *)
Record DailySummary : Type := {
  hasContent : bool;
  summary_message : string
}.

Section Jobs.
Variable env : Env.

Local Open Scope eff_scope.

(** [checkDomainExpiry]: its body is [return null]. *)
Definition checkDomainExpiry (dom : string) : Eff State (option Event) :=
  ret None.

(** The body of the loop of [checkExpiringDomains]. *)
Definition sweep_rule (alert : Alert) : Eff State unit :=
  try_catch
    (match alert_domain alert with
     | Some dom =>
         if String.eqb dom "" then ret tt
         else
           domainInfo <- checkDomainExpiry dom;;
           match domainInfo with
           | Some info =>
               if shouldTriggerExpiryAlert alert info then
                 sendAlert env
                   {| ad_type := "expiry";
                      ad_alertId := id alert;
                      ad_userId := userId alert;
                      ad_domain := dom;
                      ad_urgency := urgency info;
                      ad_platform := platform alert;
                      ad_data := info |}
               else ret tt
           | None => ret tt
           end
     | None => ret tt
     end)
    (fun _ => ret tt).

(** [active_alerts] is the answer of [getActiveAlerts('expiry')]. *)
Definition checkExpiringDomains (active_alerts : result (list Alert))
    : Eff State unit :=
  try_catch
    (alerts <- lift active_alerts;;
     for_of alerts sweep_rule)
    (fun _ => ret tt).

(** The helper at the end of [alertService.js]: its body is [return []]. *)
Definition getUsersByTier (tier : string) : Eff State (list User) :=
  ret [].

Definition generateDailySummary (uid : Z) : Eff State DailySummary :=
  ret {| hasContent := false; summary_message := "" |}.

(** [payload] builds the object literal handed to [emit]. *)
Definition sendDailySummaries (payload : User -> DailySummary -> Emission)
    : Eff State unit :=
  try_catch
    (freeUsers <- getUsersByTier "free";;
     for_of freeUsers
       (fun user =>
          try_catch
            (summary <- generateDailySummary (user_id user);;
             if hasContent summary then emit env (payload user summary)
             else ret tt)
            (fun _ => ret tt)))
    (fun _ => ret tt).
End Jobs.

End AlertJobs.

(** ** Subscription tiers ([SubscriptionService], [checkUserLimits]) *)

Module Tiers.
Local Open Scope Z_scope.

(** [this.tierNames = { 0: 'free', 1: 'basic', 2: 'premium' }], the
    values the [users] table admits for [subscriptionTier]. *)
Definition tierNames : list string := ["free"; "basic"; "premium"].

Record Benefits : Type := {
  alerts : Z;
  platforms : list string;
  frequency : string;
  autoActions : bool;
  support : string
}.

(** [benefits[tier] || benefits.free], for tiers that are not names of
    members every object inherits. *)
Definition getTierBenefits (tier : string) : Benefits :=
  if String.eqb tier "basic" then
    {| alerts := 20; platforms := ["telegram"; "twitter"; "web"];
       frequency := "realtime"; autoActions := false; support := "email" |}
  else if String.eqb tier "premium" then
    {| alerts := 999999; platforms := ["telegram"; "twitter"; "web"];
       frequency := "realtime"; autoActions := true; support := "24/7" |}
  else
    {| alerts := 5; platforms := ["telegram"; "twitter"];
       frequency := "daily"; autoActions := false; support := "community" |}.

Record Limits : Type := {
  lim_alerts : Z;
  lim_domains : Z;
  lim_autoActions : Z
}.

(** [limits[user.subscriptionTier] || limits.free] *)
Definition limitsOf (tier : string) : Limits :=
  if String.eqb tier "basic" then
    {| lim_alerts := 20; lim_domains := 20; lim_autoActions := 0 |}
  else if String.eqb tier "premium" then
    {| lim_alerts := 999999; lim_domains := 999999; lim_autoActions := 999999 |}
  else {| lim_alerts := 5; lim_domains := 5; lim_autoActions := 0 |}.

Record Usage : Type := {
  current : Z;
  limit : Z;
  available : Z
}.

Record UserLimits : Type := {
  ul_tier : string;
  ul_alerts : Usage;
  ul_domains : Usage;
  ul_autoActions_limit : Z;
  ul_autoActions_enabled : bool
}.

(** [checkUserLimits] of [database/models/user.js]; its three queries
    are the arguments: the user row and the two [COUNT( * )] answers.  On a
    throw the [catch] block logs and rethrows. *)
Definition checkUserLimits (user : result (option User))
    (alertCount domainCount : result Z) : result UserLimits :=
  match user with
  | Throw e => Throw e
  | Ok None => Throw (JsError "User not found")
  | Ok (Some u) =>
      match alertCount with
      | Throw e => Throw e
      | Ok ac =>
          match domainCount with
          | Throw e => Throw e
          | Ok dc =>
              let userLimits := limitsOf (subscriptionTier u) in
              Ok {| ul_tier := subscriptionTier u;
                    ul_alerts :=
                      {| current := ac;
                         limit := lim_alerts userLimits;
                         available := Z.max 0 (lim_alerts userLimits - ac) |};
                    ul_domains :=
                      {| current := dc;
                         limit := lim_domains userLimits;
                         available := Z.max 0 (lim_domains userLimits - dc) |};
                    ul_autoActions_limit := lim_autoActions userLimits;
                    ul_autoActions_enabled :=
                      String.eqb (subscriptionTier u) "premium" |}
          end
      end
  end.

End Tiers.

(** ** The [UPDATE] statements of the models ([updateAlert], [updateUser]) *)

Module Store.

(** [fields.join(sep)] *)
Fixpoint join (sep : string) (l : list string) : string :=
  match l with
  | [] => ""
  | x :: l' =>
      match l' with
      | [] => x
      | _ :: _ => x +:+ sep +:+ join sep l'
      end
  end.

(** The number of [?] placeholders of a statement. *)
Fixpoint placeholders (sql : string) : nat :=
  match sql with
  | EmptyString => 0
  | String c s => (if Ascii.eqb c "?" then 1 else 0) + placeholders s
  end.

Section Updates.
(** The values bound to a statement: [is_object v] is
    [typeof v === 'object'], [stringify] is [JSON.stringify], [of_id] the
    row id as a value. *)
Variable V : Type.
Variable is_object : V -> bool.
Variable stringify : V -> V.
Variable of_id : Z -> V.

(** What is handed to [database.run]. *)
Record Statement : Type := {
  sql : string;
  params : list V
}.

(** The loop over [Object.entries(updateData)]: the [fields] and
    [values] it has pushed, in order. *)
Fixpoint collect (allowedFields : list string) (json_key : string)
    (entries : list (string * V)) : list string * list V :=
  match entries with
  | [] => ([], [])
  | (key, value) :: rest =>
      let (fields, values) := collect allowedFields json_key rest in
      if bool_decide (key ∈ allowedFields) then
        ((key +:+ " = ?") :: fields,
         (if String.eqb key json_key && is_object value
          then stringify value else value) :: values)
      else (fields, values)
  end.

(** The part [updateAlert] and [updateUser] have in common, up to the
    table, the allowed columns and the column stored as JSON. *)
Definition update_statement (table : string) (allowedFields : list string)
    (json_key : string) (id : Z) (updateData : list (string * V))
    : result Statement :=
  let (fields, values) := collect allowedFields json_key updateData in
  if (length fields =? 0)%nat then Throw (JsError "No valid fields to update")
  else
    Ok {| sql := "UPDATE " +:+ table +:+ " SET "
                 +:+ join ", " (fields ++ ["updatedAt = CURRENT_TIMESTAMP"])
                 +:+ " WHERE id = ?";
          params := values ++ [of_id id] |}.

Definition alert_allowedFields : list string :=
  ["type"; "domain"; "domainPattern"; "conditions"; "platform"; "isActive"].

Definition user_allowedFields : list string :=
  ["username"; "email"; "subscriptionTier"; "subscriptionExpiry";
   "isActive"; "monthlySpendLimit"; "walletAddress"; "domaAccountId";
   "preferences"].

(** [updateAlert] and [updateUser]: [run] is [database.run] and [reread]
    the [getAlertById] / [getUserById] that follows it; the [catch] block
    logs and rethrows. *)
Definition updateAlert {A} (run : Statement -> result unit)
    (reread : Z -> result A) (id : Z) (updateData : list (string * V))
    : result A :=
  match update_statement "alerts" alert_allowedFields "conditions" id updateData with
  | Throw e => Throw e
  | Ok statement =>
      match run statement with
      | Throw e => Throw e
      | Ok _ => reread id
      end
  end.

Definition updateUser {A} (run : Statement -> result unit)
    (reread : Z -> result A) (id : Z) (updateData : list (string * V))
    : result A :=
  match update_statement "users" user_allowedFields "preferences" id updateData with
  | Throw e => Throw e
  | Ok statement =>
      match run statement with
      | Throw e => Throw e
      | Ok _ => reread id
      end
  end.
End Updates.

End Store.

(** ** The rule table of the auto-action engine
    ([createAutoAction], [updateAutoAction], [deleteAutoAction]) *)

Module ActionStore.
Import AutoActions.

(** A row of [auto_actions], with the columns the three methods write. *)
Record Row : Type := {
  row_id : Z;
  row_userId : Z;
  row_type : string;
  row_conditions : Conditions;
  row_maxAmount : jsnum;
  row_isActive : bool;
  row_executionCount : Z
}.

(** The table and the last id its [AUTOINCREMENT] key has handed out. *)
Record Table : Type := {
  rows : list Row;
  last_id : Z
}.

(** The argument of [createAutoAction]. *)
Record ActionData : Type := {
  new_type : string;
  new_conditions : Conditions;
  new_maxAmount : jsnum
}.

(** The argument of [updateAutoAction]; [None] is a member that is
    [undefined]. *)
Record UpdateData : Type := {
  upd_conditions : option Conditions;
  upd_maxAmount : option jsnum;
  upd_isActive : option bool
}.

(** The collaborators: the user lookup, and whether the database accepts
    the named statement at all. *)
Record Db : Type := {
  user_row : Z -> result (option User);
  run : string -> result unit
}.

(** [WHERE id = ? AND userId = ?] *)
Definition selected (actionId uid : Z) (r : Row) : Prop :=
  row_id r = actionId /\ row_userId r = uid.

#[global] Instance selected_dec actionId uid r : Decision (selected actionId uid r) :=
  and_dec _ _.

(** [CHECK(type IN ('renew', 'buy', 'bid'))] *)
Definition type_admitted (t : string) : bool :=
  bool_decide (t ∈ ["renew"; "buy"; "bid"]).

Section Methods.
Variable db : Db.

Local Open Scope eff_scope.

Definition createAutoAction (uid : Z) (actionData : ActionData) : Eff Table Z :=
  try_catch
    (user <- lift (user_row db uid);;
     if negb (is_premium user)
     then throw (JsError "Premium subscription required for auto-actions")
     else
       lift (run db "INSERT");;
       if negb (type_admitted (new_type actionData))
       then throw (External "SQLITE_CONSTRAINT: CHECK constraint failed: auto_actions")
       else
         lastID <- gets (fun t => (last_id t + 1)%Z);;
         modify (fun t =>
                   {| rows := rows t ++
                        [{| row_id := lastID;
                            row_userId := uid;
                            row_type := new_type actionData;
                            row_conditions := new_conditions actionData;
                            row_maxAmount := new_maxAmount actionData;
                            row_isActive := true;
                            row_executionCount := 0 |}];
                      last_id := lastID |});;
         ret lastID)
    (fun error => throw error).

(** The [SET] clause [updateAutoAction] assembles, applied to one row. *)
Definition apply_update (updateData : UpdateData) (r : Row) : Row :=
  {| row_id := row_id r;
     row_userId := row_userId r;
     row_type := row_type r;
     row_conditions := default (row_conditions r) (upd_conditions updateData);
     row_maxAmount := default (row_maxAmount r) (upd_maxAmount updateData);
     row_isActive := default (row_isActive r) (upd_isActive updateData);
     row_executionCount := row_executionCount r |}.

Definition updateAutoAction (actionId uid : Z) (updateData : UpdateData)
    : Eff Table unit :=
  try_catch
    (if bool_decide (upd_conditions updateData = None
                     /\ upd_maxAmount updateData = None
                     /\ upd_isActive updateData = None)
     then throw (JsError "No fields to update")
     else
       lift (run db "UPDATE");;
       modify (fun t =>
                 {| rows := (fun r => if decide (selected actionId uid r)
                                      then apply_update updateData r else r)
                            <$> rows t;
                    last_id := last_id t |}))
    (fun error => throw error).

Definition deleteAutoAction (actionId uid : Z) : Eff Table unit :=
  try_catch
    (lift (run db "DELETE");;
     changes <- gets (fun t => length (filter (selected actionId uid) (rows t)));;
     modify (fun t =>
               {| rows := filter (fun r => ~ selected actionId uid r) (rows t);
                  last_id := last_id t |});;
     if (changes =? 0)%nat then throw (JsError "Auto-action not found")
     else ret tt)
    (fun error => throw error).
End Methods.

End ActionStore.

(** ** What the engine has committed *)

Module Ledger.
Import AutoActions.

(** The records of money spent: the month ledger, the rows of
    [transaction_logs] and the execution counters. *)
Definition commitments (s : State)
    : gmap string jsnum * list TransactionLog * gmap Z nat :=
  (monthlySpending s, transaction_logs s, executionCount s).

Definition is_executed (ev : Emitted) : bool :=
  match ev with
  | autoActionExecuted _ _ _ _ _ => true
  | autoActionFailed _ _ _ _ => false
  end.

(** The [autoActionExecuted] events handed to the listeners so far. *)
Definition executions (s : State) : list Emitted :=
  filter (fun ev => is_executed ev = true) (emitted s).

End Ledger.

(** ** Buying a subscription ([SubscriptionService]) *)

Module Subscriptions.
Local Open Scope Z_scope.

(** [this.tierNames[n]], as the handlers of the contract's subscription
    events read it; [None] is [undefined]. *)
Definition tierName (n : Z) : option string :=
  if n =? 0 then Some "free"
  else if n =? 1 then Some "basic"
  else if n =? 2 then Some "premium"
  else None.

(** What [purchaseSubscription] asks of the contract. *)
Record PurchaseRequest : Type := {
  tierNumber : Z;
  durationSeconds : Z
}.

(** The head of [purchaseSubscription], up to its first call of the
    contract: [user] is the answer of [getUserById]. *)
Definition purchase_request (user : result (option User)) (tier : string)
    (duration : Z) : result PurchaseRequest :=
  match user with
  | Throw e => Throw e
  | Ok user =>
      if negb (match user with
               | Some u => opt_str_truthy (walletAddress u)
               | None => false
               end)
      then Throw (JsError "User not found or wallet address not set")
      else if negb (bool_decide (tier ∈ ["basic"; "premium"]))
      then Throw (JsError "Invalid subscription tier")
      else Ok {| tierNumber := if String.eqb tier "basic" then 1 else 2;
                 durationSeconds := duration * 24 * 60 * 60 |}
  end.

End Subscriptions.

(** ** Concrete rule tables *)

Module StoreScenario.

(** A rule table holding the two rules of user 7, and a database that
    answers; [tier] is the tier of every user. *)
Definition action_table : ActionStore.Table :=
  {| ActionStore.rows :=
       [{| ActionStore.row_id := 1; ActionStore.row_userId := 7;
           ActionStore.row_type := "buy";
           ActionStore.row_conditions := Scenario.buy_conditions;
           ActionStore.row_maxAmount := Num 50;
           ActionStore.row_isActive := true;
           ActionStore.row_executionCount := 0 |};
        {| ActionStore.row_id := 2; ActionStore.row_userId := 7;
           ActionStore.row_type := "renew";
           ActionStore.row_conditions := Scenario.renew_conditions;
           ActionStore.row_maxAmount := Num 20;
           ActionStore.row_isActive := true;
           ActionStore.row_executionCount := 0 |}];
     ActionStore.last_id := 2 |}.

Definition action_db (tier : string) : ActionStore.Db :=
  {| ActionStore.user_row := fun uid => Ok (Some (Scenario.user_of_tier uid tier));
     ActionStore.run := fun _ => Ok tt |}.

End StoreScenario.

(** ** Laws of the monad *)

Section EffLaws.
Context {S : Type}.

Lemma try_catch_total (m : Eff S unit) (h : exn -> Eff S unit) :
  (forall e, total (h e)) -> total (try_catch m h).
Proof.
  intros Hh s. unfold try_catch.
  destruct (m s) as [[[]|e] s']; [reflexivity | apply Hh].
Qed.

Lemma ret_total : total (ret tt : Eff S unit).
Proof. intros s. reflexivity. Qed.

Lemma for_of_total {A} (l : list A) (body : A -> Eff S unit) :
  (forall x, total (body x)) -> total (for_of l body).
Proof.
  intros Hb. induction l as [|x l IH]; intros s; simpl; [reflexivity|].
  unfold bind. specialize (Hb x s).
  destruct (body x s) as [[[]|e] s']; simpl in Hb; [apply IH | discriminate].
Qed.


Lemma for_of_cons {A} (x : A) (l : list A) (body : A -> Eff S unit) :
  (forall y, total (body y)) ->
  forall s, for_of (x :: l) body s = for_of l body (body x s).2.
Proof.
  intros Hb s. simpl. unfold bind. specialize (Hb x s).
  destruct (body x s) as [[[]|e] s']; simpl in Hb; [reflexivity | discriminate].
Qed.
End EffLaws.

(** ** Facts about numbers *)

Lemma pow2_pos (k : positive) : (0 < 2 ^ Zpos k)%Z.
Proof. apply Z.pow_pos_nonneg; lia. Qed.


Lemma num_le_NaN_l (b : jsnum) : num_le NaN b = false.
Proof. reflexivity. Qed.

Lemma num_lt_NaN_l (b : jsnum) : num_lt NaN b = false.
Proof. reflexivity. Qed.

Lemma num_lt_NaN_r (a : jsnum) : num_lt a NaN = false.
Proof. destruct a; reflexivity. Qed.

Lemma num_le_NaN_r (a : jsnum) : num_le a NaN = false.
Proof. destruct a; reflexivity. Qed.

Lemma num_add_NaN_r (a : jsnum) : num_add a NaN = NaN.
Proof. destruct a; reflexivity. Qed.

(** On every pair of [samples] the model computes what the machine
    computes. *)
Lemma operations_agree_with_the_machine :
  forallb Binary64Check.agrees Binary64Check.samples = true.
Proof. vm_compute. reflexivity. Qed.

(** The rounding is the machine's: [2^53 + 1] is [2^53] again, the sum
    of the doubles nearest to 0.1 and 0.2 is above the double nearest to
    0.3, and the largest double plus itself is [Infinity]. *)
Remark num_add_rounds :
  let tenth := Frac 3602879701896397 55 in
  let fifth := Frac 3602879701896397 54 in
  let three_tenths := Frac 5404319552844595 54 in
  let largest := Num ((2 ^ 53 - 1) * 2 ^ 971) in
  num_add (Num (2 ^ 53)) (Num 1) = Num (2 ^ 53)
  /\ num_add (Num (2 ^ 53)) (Num 3) = Num (2 ^ 53 + 4)
  /\ num_add tenth fifth = Frac 1351079888211149 52
  /\ num_le (num_add tenth fifth) three_tenths = false
  /\ num_add largest largest = Infinity false
  /\ num_mul three_tenths (Num 3) = Frac 2026619832316723 51.
Proof. vm_compute. repeat split; reflexivity. Qed.

Ltac eff_unfold :=
  unfold try_catch_finally, try_catch, bind, ret, throw, lift, gets, modify in *.

(** ** Properties of the auto-action engine *)

Module AutoActionsSpec.
Import AutoActions.
Local Open Scope Z_scope.

Lemma checkSpendingLimits_eq env uid amount s :
  checkSpendingLimits env uid amount s =
    (Ok match found (db_user env uid) with
        | Some u => num_le (num_add (currentSpending env uid s) amount) (monthlyLimit u)
        | None => false
        end, s).
Proof.
  unfold checkSpendingLimits, getUserById. eff_unfold.
  destruct (db_user env uid) as [[u|]|e]; reflexivity.
Qed.


Lemma trackSpending_total env uid amount : total (trackSpending env uid amount).
Proof. apply try_catch_total. intros e s. reflexivity. Qed.


Lemma acquire_held env k action event s h :
  activeActions s !! k = Some h ->
  acquire env k action event s = (Ok false, s).
Proof.
  intros H. unfold acquire. eff_unfold.
  rewrite H, bool_decide_true by eauto. reflexivity.
Qed.

Lemma acquire_free env k action event s :
  activeActions s !! k = None ->
  acquire env k action event s =
    (Ok true,
     set_activeActions
       (<[k := {| startTime := now env; aa_action := action; aa_event := event |}]>) s).
Proof.
  intros H. unfold acquire. eff_unfold.
  rewrite H, bool_decide_false by (intros [? ?]; discriminate). reflexivity.
Qed.

Lemma executeAutoPurchase_resume env action event s :
  executeAutoPurchase env action event s =
    match acquire env (purchaseKey action event) action event s with
    | (Ok took, s1) => purchase_resume env action event took s1
    | (Throw e, s1) => (Throw e, s1)
    end.
Proof.
  unfold executeAutoPurchase, purchase_resume.
  destruct (activeActions s !! purchaseKey action event) as [h|] eqn:E.
  - rewrite (acquire_held _ _ _ _ _ _ E). eff_unfold.
    rewrite (acquire_held _ _ _ _ _ _ E). reflexivity.
  - rewrite (acquire_free _ _ _ _ _ E). eff_unfold.
    rewrite (acquire_free _ _ _ _ _ E). reflexivity.
Qed.

Lemma executeAutoRenewal_resume env action event s :
  executeAutoRenewal env action event s =
    match acquire env (renewalKey action event) action event s with
    | (Ok took, s1) => renewal_resume env action event took s1
    | (Throw e, s1) => (Throw e, s1)
    end.
Proof.
  unfold executeAutoRenewal, renewal_resume.
  destruct (activeActions s !! renewalKey action event) as [h|] eqn:E.
  - rewrite (acquire_held _ _ _ _ _ _ E). eff_unfold.
    rewrite (acquire_held _ _ _ _ _ _ E). reflexivity.
  - rewrite (acquire_free _ _ _ _ _ E). eff_unfold.
    rewrite (acquire_free _ _ _ _ _ E). reflexivity.
Qed.

(** A call that finds the lock taken changes nothing; it completes with
    the exception of the [finally] block. *)
Lemma executeAutoPurchase_held env action event s h :
  activeActions s !! purchaseKey action event = Some h ->
  executeAutoPurchase env action event s =
    (Throw (ReferenceError "actionKey is not defined"), s).
Proof.
  intros H. rewrite executeAutoPurchase_resume, (acquire_held _ _ _ _ _ _ H).
  reflexivity.
Qed.

Lemma executeAutoRenewal_held env action event s h :
  activeActions s !! renewalKey action event = Some h ->
  executeAutoRenewal env action event s =
    (Throw (ReferenceError "actionKey is not defined"), s).
Proof.
  intros H. rewrite executeAutoRenewal_resume, (acquire_held _ _ _ _ _ _ H).
  reflexivity.
Qed.

Lemma purchase_rule_held env action event s h :
  activeActions s !! purchaseKey action event = Some h ->
  purchase_rule env event action s = (Ok tt, s).
Proof.
  intros H. unfold purchase_rule, getUserById.
  unfold try_catch at 1. unfold bind at 1. unfold lift at 1.
  destruct (db_user env (userId action)) as [user|e]; [|reflexivity].
  destruct (negb (is_premium user)); [reflexivity|].
  unfold bind, lift.
  destruct (shouldExecuteAutoPurchase action event) as [[]|e]; try reflexivity.
  rewrite (executeAutoPurchase_held _ _ _ _ _ H). reflexivity.
Qed.

Lemma renewal_rule_held env action event s h :
  activeActions s !! renewalKey action event = Some h ->
  renewal_rule env event action s = (Ok tt, s).
Proof.
  intros H. unfold renewal_rule, getUserById.
  unfold try_catch at 1. unfold bind at 1. unfold lift at 1.
  destruct (db_user env (userId action)) as [user|e]; [|reflexivity].
  destruct (negb (is_premium user)); [reflexivity|].
  destruct (negb (owns_domain user event)); [reflexivity|].
  destruct (shouldExecuteAutoRenewal (conditions action) event); [|reflexivity].
  rewrite (executeAutoRenewal_held _ _ _ _ _ H). reflexivity.
Qed.

(** Nothing that runs after the synchronous head touches the lock table:
    the awaited steps and the [catch] block write to the ledger, the
    logs and the emitted events only, and the [finally] block throws
    before it reaches [delete]. *)
Lemma purchase_resume_keeps_locks env action event took s :
  activeActions (purchase_resume env action event took s).2 = activeActions s.
Proof.
  unfold purchase_resume, release_in_finally, purchase_steps, purchase_failed,
    logAutoAction, emit, getUserSigner, getUserById.
  destruct took; eff_unfold.
  - rewrite checkSpendingLimits_eq.
    repeat (case_match; simplify_eq/=; try reflexivity).
  - reflexivity.
Qed.

Lemma renewal_resume_keeps_locks env action event took s :
  activeActions (renewal_resume env action event took s).2 = activeActions s.
Proof.
  unfold renewal_resume, release_in_finally, renewal_steps, renewal_failed,
    logAutoAction, emit, getUserSigner, getUserById.
  destruct took; eff_unfold.
  - rewrite checkSpendingLimits_eq.
    repeat (case_match; simplify_eq/=; try reflexivity).
  - reflexivity.
Qed.

(** Both [execute] methods leave their lock installed, on every path. *)
Lemma lock_outlives_purchase env action event s :
  activeActions s !! purchaseKey action event = None ->
  activeActions (executeAutoPurchase env action event s).2
    !! purchaseKey action event
  = Some {| startTime := now env; aa_action := action; aa_event := event |}.
Proof.
  intros H. rewrite executeAutoPurchase_resume, (acquire_free _ _ _ _ _ H).
  rewrite purchase_resume_keeps_locks. simpl. apply lookup_insert_eq.
Qed.

Lemma lock_outlives_renewal env action event s :
  activeActions s !! renewalKey action event = None ->
  activeActions (executeAutoRenewal env action event s).2
    !! renewalKey action event
  = Some {| startTime := now env; aa_action := action; aa_event := event |}.
Proof.
  intros H. rewrite executeAutoRenewal_resume, (acquire_free _ _ _ _ _ H).
  rewrite renewal_resume_keeps_locks. simpl. apply lookup_insert_eq.
Qed.

(** The monthly job empties the ledger: every owner starts the month at 0. *)
Lemma resetMonthlyLimits_clears env uid s :
  currentSpending env uid (resetMonthlyLimits s).2 = Num 0.
Proof. reflexivity. Qed.

(** Only the hourly sweep removes a lock, once it is over an hour old. *)
Lemma cleanupStaleActions_lookup env s k :
  activeActions (cleanupStaleActions env s).2 !! k =
    match activeActions s !! k with
    | Some h =>
        if bool_decide (now env - 60 * 60 * 1000 <= startTime h)%Z
        then Some h else None
    | None => None
    end.
Proof.
  unfold cleanupStaleActions, modify. simpl.
  destruct (activeActions s !! k) as [h|] eqn:E.
  - case_bool_decide as Hd.
    + apply map_lookup_filter_Some. split; [exact E | exact Hd].
    + apply map_lookup_filter_None. right. intros h' E'. simplify_eq. exact Hd.
  - apply map_lookup_filter_None. left. exact E.
Qed.

(** An attempt the check turns down stops with the spending-limit error
    before a signer is requested: nothing is submitted, nothing committed. *)
Lemma over_limit_is_rejected env action event s :
  (checkSpendingLimits env (userId action) (price event) s).1 = Ok false ->
  purchase_steps env action event s
    = (Throw (JsError "Monthly spending limit exceeded"), s).
Proof.
  rewrite checkSpendingLimits_eq. simpl. intros [= Hle].
  unfold purchase_steps. eff_unfold. rewrite checkSpendingLimits_eq, Hle. reflexivity.
Qed.

Lemma over_limit_renewal_is_rejected env action event s :
  (checkSpendingLimits env (userId action) (maxAmount action) s).1 = Ok false ->
  renewal_steps env action event s
    = (Throw (JsError "Monthly spending limit exceeded"), s).
Proof.
  rewrite checkSpendingLimits_eq. simpl. intros [= Hle].
  unfold renewal_steps. eff_unfold. rewrite checkSpendingLimits_eq, Hle. reflexivity.
Qed.

(** *** Fail-closed spending check *)

(** C10.  When the owner lookup of [checkSpendingLimits] does not produce
    a user row (the database throws or the row is missing), the check
    returns [false] without touching the state, whatever the amount, and
    both [execute] bodies stop right there with the spending-limit error:
    no signer is requested and nothing is submitted or committed. *)
Theorem checkSpendingLimits_fails_closed env uid amount s :
  found (db_user env uid) = None ->
  checkSpendingLimits env uid amount s = (Ok false, s)
  /\ (forall action event,
        userId action = uid ->
        purchase_steps env action event s
          = (Throw (JsError "Monthly spending limit exceeded"), s)
        /\ renewal_steps env action event s
          = (Throw (JsError "Monthly spending limit exceeded"), s)).
Proof.
  intros Hnone. split.
  - rewrite checkSpendingLimits_eq, Hnone. reflexivity.
  - intros action event <-. unfold purchase_steps, renewal_steps. eff_unfold.
    rewrite !checkSpendingLimits_eq, Hnone. split; reflexivity.
Qed.

Lemma checkSpendingLimits_fails_closed_witness :
  checkSpendingLimits Scenario.engine_env_db_down 7 (Num 40)
    (Scenario.engine_state (Some 150))
  = (Ok false, Scenario.engine_state (Some 150)).
Proof.
  apply (checkSpendingLimits_fails_closed Scenario.engine_env_db_down 7 (Num 40)
           (Scenario.engine_state (Some 150))).
  reflexivity.
Defined.

(** *** Lock exclusivity *)

(** *** The scenarios, run on the code *)

(** C3.  No path of [execute] releases the lock.  With rule 1 and a
    listing of [nft.ape] at 45: the call that fails at the signer, the
    call aborted by the spending limit (190 already committed), and a
    renewal of [web3.ape] all end with the [ReferenceError] of the
    [finally] block and leave their key in [activeActions]; a later
    listing of the same domain is then skipped without any record. *)
Lemma lock_not_released_by_execute :
  let env := Scenario.engine_env in
  let rule := Scenario.buy_rule 50 in
  let ev := Scenario.listing "nft.ape" 45 in
  let held := {| startTime := now env; aa_action := rule; aa_event := ev |} in
  let signer_failed := executeAutoPurchase env rule ev (Scenario.engine_state None) in
  let over_limit := executeAutoPurchase env rule ev (Scenario.engine_state (Some 190)) in
  let renewal :=
    executeAutoRenewal env Scenario.renew_rule (Scenario.expiring "web3.ape" 3 "high")
      (Scenario.engine_state None) in
  (signer_failed.1 = Throw (ReferenceError "actionKey is not defined")
   /\ auto_action_logs signer_failed.2
      = [failedLog rule ev
           (JsError "Wallet integration not implemented - requires user signature")]
   /\ activeActions signer_failed.2 !! "purchase_1_nft.ape" = Some held)
  /\ (over_limit.1 = Throw (ReferenceError "actionKey is not defined")
      /\ auto_action_logs over_limit.2
         = [failedLog rule ev (JsError "Monthly spending limit exceeded")]
      /\ activeActions over_limit.2 !! "purchase_1_nft.ape" = Some held)
  /\ (renewal.1 = Throw (ReferenceError "actionKey is not defined")
      /\ activeActions renewal.2 !! "renewal_2_web3.ape"
         = Some {| startTime := now env;
                   aa_action := Scenario.renew_rule;
                   aa_event := Scenario.expiring "web3.ape" 3 "high" |})
  /\ (checkAutoPurchase env (Scenario.listing "nft.ape" 44) signer_failed.2).2
     = signer_failed.2.
Proof. vm_compute. repeat split; reflexivity. Qed.

(** C4.  The end-to-end auto-buy scenario on the code: the rule matches
    the listing and the spending check passes, but [getUserSigner]
    throws, so the one execution is recorded as failed; the ledger gets
    no entry and [executionCount] stays at 0. *)
Lemma auto_buy_scenario_fails_at_signer :
  let env := Scenario.engine_env in
  let rule := Scenario.buy_rule 50 in
  let ev := Scenario.listing "nft.ape" 45 in
  let s0 := Scenario.engine_state None in
  let run := checkAutoPurchase env ev s0 in
  shouldExecuteAutoPurchase rule ev = Ok true
  /\ checkSpendingLimits env 7 (Num 45) s0 = (Ok true, s0)
  /\ run.1 = Ok tt
  /\ auto_action_logs run.2
     = [failedLog rule ev
          (JsError "Wallet integration not implemented - requires user signature")]
  /\ emitted run.2
     = [autoActionFailed "purchase" 7 "nft.ape"
          "Wallet integration not implemented - requires user signature"]
  /\ monthlySpending run.2 !! "7_2026-11" = None
  /\ transaction_logs run.2 = []
  /\ executionCount run.2 !! 1 = Some 0%nat.
Proof. vm_compute. repeat split; reflexivity. Qed.

(** C1.  The spending-cap scenario on the code, for an owner with limit
    200 and 150 committed: an auto-buy of 60 is rejected by the limit
    and commits nothing; an auto-buy of 40 passes the limit check but
    fails at [getUserSigner], so it is recorded as failed and the
    committed total stays at 150. *)
Lemma spending_cap_scenario :
  let env := Scenario.engine_env in
  let rule := Scenario.buy_rule 100 in
  let s := Scenario.engine_state (Some 150) in
  let buy60 := executeAutoPurchase env rule (Scenario.listing "nft.ape" 60) s in
  let buy40 := executeAutoPurchase env rule (Scenario.listing "nft.ape" 40) s in
  (checkSpendingLimits env 7 (Num 60) s = (Ok false, s)
   /\ auto_action_logs buy60.2
      = [failedLog rule (Scenario.listing "nft.ape" 60)
           (JsError "Monthly spending limit exceeded")]
   /\ monthlySpending buy60.2 !! "7_2026-11" = Some (Num 150))
  /\ (checkSpendingLimits env 7 (Num 40) s = (Ok true, s)
      /\ auto_action_logs buy40.2
         = [failedLog rule (Scenario.listing "nft.ape" 40)
              (JsError "Wallet integration not implemented - requires user signature")]
      /\ monthlySpending buy40.2 !! "7_2026-11" = Some (Num 150)
      /\ transaction_logs buy40.2 = []).
Proof. vm_compute. repeat split; reflexivity. Qed.

(** The ledger arithmetic behind the scenario: a commit of 40 on top of
    150 yields 190. *)
Lemma trackSpending_scenario :
  monthlySpending
    (trackSpending Scenario.engine_env 7 (Num 40) (Scenario.engine_state (Some 150))).2
    !! "7_2026-11" = Some (Num 190).
Proof. vm_compute. reflexivity. Qed.

End AutoActionsSpec.

(** ** Properties of the alert dispatcher *)

Module AlertsSpec.
Import Alerts.
Local Open Scope Z_scope.

Ltac crush_sendAlert :=
  unfold sendAlert, emit, logAlertToDb, getUserById, found;
  eff_unfold;
  repeat match goal with
    | |- context [db_user ?e ?u] => destruct (db_user e u) as [[?|]|?]
    | |- context [isActive ?u] => destruct (isActive u)
    | |- context [checkAlertFrequency ?u ?a] => destruct (checkAlertFrequency u a)
    | |- context [listeners ?e ?p] => destruct (listeners e p) as [[]|?]
    | |- context [db_insert_alert_log ?e ?r] =>
        destruct (db_insert_alert_log e r) as [[]|?]
    end;
  simpl; try reflexivity; try discriminate.

Lemma sendAlert_total env alertData : total (sendAlert env alertData).
Proof.
  apply try_catch_total. intros e. apply try_catch_total. intros e' s. reflexivity.
Qed.

(** [sendAlert] reports nothing to its caller: it returns [undefined] on
    every path. *)
Lemma sendAlert_returns env alertData s :
  sendAlert env alertData s = (Ok tt, (sendAlert env alertData s).2).
Proof.
  pose proof (sendAlert_total env alertData s) as H.
  destruct (sendAlert env alertData s) as [r s']. simpl in *. congruence.
Qed.

Lemma sendAlert_keeps_counts env alertData s :
  triggerCount (sendAlert env alertData s).2 = triggerCount s
  /\ processedEvents (sendAlert env alertData s).2 = processedEvents s.
Proof. split; crush_sendAlert. Qed.

(** The listeners are handed the alert exactly when the owner row is
    found, the owner is active and the frequency gate lets it through. *)
Lemma sendAlert_emitted env alertData s :
  emitted (sendAlert env alertData s).2 =
    match found (db_user env (ad_userId alertData)) with
    | Some u =>
        if isActive u && checkAlertFrequency u alertData
        then emitted s ++ [{| em_alert := alertData; em_user := u |}]
        else emitted s
    | None => emitted s
    end.
Proof. crush_sendAlert. Qed.

(** A delivery that is gated leaves the state as it was. *)
Lemma sendAlert_gated env alertData u s :
  found (db_user env (ad_userId alertData)) = Some u ->
  isActive u && checkAlertFrequency u alertData = false ->
  sendAlert env alertData s = (Ok tt, s).
Proof.
  intros Hu Hg. unfold found in Hu. unfold sendAlert, getUserById. eff_unfold.
  destruct (db_user env (ad_userId alertData)) as [[u'|]|e]; simplify_eq.
  destruct (isActive u); simpl in Hg; [rewrite Hg|]; reflexivity.
Qed.

(** The delivery log after a hand-off. *)
Lemma sendAlert_logs env alertData u s :
  found (db_user env (ad_userId alertData)) = Some u ->
  isActive u && checkAlertFrequency u alertData = true ->
  alert_logs (sendAlert env alertData s).2 =
    match listeners env {| em_alert := alertData; em_user := u |},
          db_insert_alert_log env (deliveryLog alertData "sent"),
          db_insert_alert_log env (deliveryLog alertData "failed") with
    | Ok _, Ok _, _ => alert_logs s ++ [deliveryLog alertData "sent"]
    | _, _, Ok _ => alert_logs s ++ [deliveryLog alertData "failed"]
    | _, _, Throw _ => alert_logs s
    end.
Proof.
  intros Hu Hg. unfold found in Hu.
  unfold sendAlert, emit, logAlertToDb, getUserById. eff_unfold.
  destruct (db_user env (ad_userId alertData)) as [[u'|]|e]; simplify_eq.
  apply andb_true_iff in Hg as [-> ->]. simpl.
  destruct (listeners env _) as [[]|e1];
    destruct (db_insert_alert_log env (deliveryLog alertData "sent")) as [[]|e2];
    destruct (db_insert_alert_log env (deliveryLog alertData "failed")) as [[]|e3];
    reflexivity.
Qed.

(** *** One rule of the loop *)

Lemma expiry_rule_eq env event alert s :
  expiry_rule env event alert s =
    (Ok tt,
     if shouldTriggerExpiryAlert alert event
     then after_trigger env (expiryAlertData alert event) (id alert) s
     else s).
Proof.
  unfold expiry_rule, after_trigger, incrementTriggerCount.
  destruct (shouldTriggerExpiryAlert alert event); [|reflexivity].
  unfold try_catch at 1. unfold bind at 1.
  rewrite sendAlert_returns. eff_unfold.
  destruct (db_update_trigger env (id alert)) as [[]|e]; reflexivity.
Qed.

Lemma sale_rule_eq env event alert s :
  sale_rule env event alert s =
    (Ok tt,
     match shouldTriggerSaleAlert alert event with
     | Ok true => after_trigger env (saleAlertData alert event) (id alert) s
     | _ => s
     end).
Proof.
  unfold sale_rule, after_trigger, incrementTriggerCount.
  unfold try_catch at 1. unfold bind at 1. unfold lift at 1.
  destruct (shouldTriggerSaleAlert alert event) as [[]|e]; try reflexivity.
  unfold bind at 1. rewrite sendAlert_returns. eff_unfold.
  destruct (db_update_trigger env (id alert)) as [[]|e]; reflexivity.
Qed.

Lemma expiry_rule_total env event alert : total (expiry_rule env event alert).
Proof. intros s. rewrite expiry_rule_eq. reflexivity. Qed.

Lemma sale_rule_total env event alert : total (sale_rule env event alert).
Proof. intros s. rewrite sale_rule_eq. reflexivity. Qed.

Lemma after_trigger_keeps_processed env alertData aid s :
  processedEvents (after_trigger env alertData aid s) = processedEvents s.
Proof.
  unfold after_trigger.
  destruct (db_update_trigger env aid); simpl; apply sendAlert_keeps_counts.
Qed.


Lemma expiry_loop_keeps_processed env event l s :
  processedEvents (for_of l (expiry_rule env event) s).2 = processedEvents s.
Proof.
  revert s. induction l as [|a l IH]; intros s; [reflexivity|].
  rewrite for_of_cons by apply expiry_rule_total. rewrite IH, expiry_rule_eq. simpl.
  destruct (shouldTriggerExpiryAlert a event);
    [apply after_trigger_keeps_processed | reflexivity].
Qed.

Lemma sale_loop_keeps_processed env event l s :
  processedEvents (for_of l (sale_rule env event) s).2 = processedEvents s.
Proof.
  revert s. induction l as [|a l IH]; intros s; [reflexivity|].
  rewrite for_of_cons by apply sale_rule_total. rewrite IH, sale_rule_eq. simpl.
  destruct (shouldTriggerSaleAlert a event) as [[]|e];
    [apply after_trigger_keeps_processed | reflexivity | reflexivity].
Qed.



(** *** The dedup window *)

(** The id just added is the newest entry, and eviction keeps the newest
    900. *)
Lemma added_survives_eviction eventId (l : list string) :
  eventId ∉ l -> eventId ∈ evict_old (add_processed eventId l).
Proof.
  intros Hnew. unfold add_processed. rewrite bool_decide_false by exact Hnew.
  unfold evict_old. rewrite length_app. simpl.
  destruct (1000 <? length l + 1)%nat.
  - rewrite drop_app_le by lia. apply elem_of_app. right. apply list_elem_of_singleton.
    reflexivity.
  - apply elem_of_app. right. apply list_elem_of_singleton. reflexivity.
Qed.

(** What one call does, for every event and every collaborator behaviour:
    the event is looked at only when it carries a transaction hash, is not
    in the window yet and both rule-store queries answer; otherwise the
    call leaves the state as it is. *)
Lemma processExpiryEvent_eq env event s :
  processExpiryEvent env event s =
    (Ok tt,
     match blockData event with
     | Some bd =>
         let eventId := transactionHash bd +:+ "-expiry" in
         if bool_decide (eventId ∈ processedEvents s) then s
         else
           match db_all env "getAlertsByDomain", db_all env "getAlertsByPattern" with
           | Ok _, Ok _ =>
               set_processedEvents evict_old
                 (set_processedEvents (add_processed eventId)
                    (for_of (allAlerts env (domain event) "expiry")
                       (expiry_rule env event) s).2)
           | _, _ => s
           end
     | None => s
     end).
Proof.
  unfold processExpiryEvent, transactionHashOf, getAlertsByDomain, getAlertsByPattern.
  destruct (blockData event) as [bd|]; [|reflexivity].
  eff_unfold. case_bool_decide; [reflexivity|].
  destruct (db_all env "getAlertsByDomain") as [[]|e1]; [|reflexivity].
  destruct (db_all env "getAlertsByPattern") as [[]|e2]; [|reflexivity].
  fold (allAlerts env (domain event) "expiry").
  pose proof (for_of_total (allAlerts env (domain event) "expiry") _
                (expiry_rule_total env event) s) as Ht.
  destruct (for_of _ _ s) as [[[]|e] s']; simpl in Ht; [reflexivity | discriminate].
Qed.

Lemma processSaleEvent_eq env event s :
  processSaleEvent env event s =
    (Ok tt,
     match blockData event with
     | Some bd =>
         let eventId := transactionHash bd +:+ "-sale-" +:+ ev_type event in
         if bool_decide (eventId ∈ processedEvents s) then s
         else
           match db_all env "getAlertsByDomain", db_all env "getAlertsByPattern" with
           | Ok _, Ok _ =>
               set_processedEvents (add_processed eventId)
                 (for_of (allAlerts env (domain event) "sale")
                    (sale_rule env event) s).2
           | _, _ => s
           end
     | None => s
     end).
Proof.
  unfold processSaleEvent, transactionHashOf, getAlertsByDomain, getAlertsByPattern.
  destruct (blockData event) as [bd|]; [|reflexivity].
  eff_unfold. case_bool_decide; [reflexivity|].
  destruct (db_all env "getAlertsByDomain") as [[]|e1]; [|reflexivity].
  destruct (db_all env "getAlertsByPattern") as [[]|e2]; [|reflexivity].
  fold (allAlerts env (domain event) "sale").
  pose proof (for_of_total (allAlerts env (domain event) "sale") _
                (sale_rule_total env event) s) as Ht.
  destruct (for_of _ _ s) as [[[]|e] s']; simpl in Ht; [reflexivity | discriminate].
Qed.














(** Remark: when the rule store is unreachable the event is dropped
    without being marked as processed. *)
Remark store_down_drops_event :
  let rule := Scenario.expiry_alert 1 7 (Some "web3.ape") None in
  let s0 := Scenario.dispatcher_state {[ 1 := 0%nat ]} in
  processExpiryEvent (Scenario.dispatcher_env_store_down [rule])
    (Scenario.expiring "web3.ape" 3 "high") s0 = (Ok tt, s0).
Proof. vm_compute. reflexivity. Qed.

(** *** Frequency gate *)

Lemma checkAlertFrequency_eq user alertData :
  checkAlertFrequency user alertData =
    negb (String.eqb (subscriptionTier user) "free")
    || bool_decide (ad_urgency alertData = Some "critical").
Proof.
  unfold checkAlertFrequency.
  destruct (String.eqb (subscriptionTier user) "free");
    destruct (bool_decide (ad_urgency alertData = Some "critical")); reflexivity.
Qed.

(** C7.  The gate, and what becomes of a gated alert.  For an active
    owner on the free tier, an alert whose urgency is not [critical] is
    not handed to the listeners: [sendAlert] returns with the state
    unchanged, so nothing keeps the alert for a later digest; and the
    daily digest job, run after it as from any state, returns without
    handing anything over (its list of free-tier users is empty and its
    summary has no content).  The gated alert is dropped, not deferred.
    A [critical] alert on the free tier, and every alert on another
    tier (basic, premium), is handed to the listeners at once. *)
Theorem gated_alert_is_dropped env alertData u payload s :
  found (db_user env (ad_userId alertData)) = Some u ->
  isActive u = true ->
  (subscriptionTier u = "free" -> ad_urgency alertData <> Some "critical" ->
     sendAlert env alertData s = (Ok tt, s)
     /\ bind (sendAlert env alertData)
             (fun _ => AlertJobs.sendDailySummaries env payload) s = (Ok tt, s))
  /\ (forall s0, AlertJobs.sendDailySummaries env payload s0 = (Ok tt, s0))
  /\ (subscriptionTier u = "free" -> ad_urgency alertData = Some "critical" ->
       emitted (sendAlert env alertData s).2
         = emitted s ++ [{| em_alert := alertData; em_user := u |}])
  /\ (subscriptionTier u <> "free" ->
       emitted (sendAlert env alertData s).2
         = emitted s ++ [{| em_alert := alertData; em_user := u |}]).
Proof.
  intros Hu Hact. split; [|split; [|split]].
  - intros Hfree Hlow.
    assert (Hgated : sendAlert env alertData s = (Ok tt, s)).
    { apply (sendAlert_gated env alertData u s Hu).
      rewrite Hact, checkAlertFrequency_eq, Hfree.
      rewrite bool_decide_false by exact Hlow. reflexivity. }
    split; [exact Hgated|]. unfold bind. rewrite Hgated. reflexivity.
  - intros s0. reflexivity.
  - intros Hfree Hcrit. rewrite sendAlert_emitted, Hu, Hact, checkAlertFrequency_eq.
    rewrite bool_decide_true by exact Hcrit. rewrite orb_true_r. reflexivity.
  - intros Hpaid. rewrite sendAlert_emitted, Hu, Hact, checkAlertFrequency_eq.
    apply String.eqb_neq in Hpaid. rewrite Hpaid. reflexivity.
Qed.

(** A free-tier owner: the [medium] alert followed by the digest job
    leaves no trace; the [critical] alert is handed over. *)
Lemma gated_alert_is_dropped_witness :
  let rule := Scenario.expiry_alert 1 7 (Some "web3.ape") None in
  let env := Scenario.dispatcher_env [rule] "free" in
  let s0 := Scenario.dispatcher_state {[ 1 := 0%nat ]} in
  let medium := expiryAlertData rule (Scenario.expiring "web3.ape" 3 "medium") in
  let critical := expiryAlertData rule (Scenario.expiring "web3.ape" 1 "critical") in
  let payload := fun (user : User) (_ : AlertJobs.DailySummary) =>
                   {| em_alert := medium; em_user := user |} in
  bind (sendAlert env medium) (fun _ => AlertJobs.sendDailySummaries env payload) s0
  = (Ok tt, s0)
  /\ emitted (sendAlert env critical s0).2
     = [{| em_alert := critical; em_user := Scenario.user_of_tier 7 "free" |}].
Proof.
  intros rule env s0 medium critical payload. split.
  - destruct (gated_alert_is_dropped env medium (Scenario.user_of_tier 7 "free")
                payload s0) as (Hgated & _); [reflexivity | reflexivity |].
    apply Hgated; [reflexivity | discriminate].
  - destruct (gated_alert_is_dropped env critical (Scenario.user_of_tier 7 "free")
                payload s0) as (_ & _ & Hsent & _); [reflexivity | reflexivity |].
    apply Hsent; reflexivity.
Defined.

(** *** Trigger counters *)

(** Against C8 as stated: for a free-tier owner and an expiry event of
    urgency [high], nothing is handed to the listeners and nothing is
    logged, yet the rule's [triggerCount] goes from 0 to 1; and when the
    bots throw on the hand-off, a [failed] entry is logged and the count
    is incremented all the same. *)
Lemma triggerCount_incremented_without_handoff :
  let rule := Scenario.expiry_alert 1 7 (Some "web3.ape") None in
  let ev := Scenario.expiring "web3.ape" 3 "high" in
  let s0 := Scenario.dispatcher_state {[ 1 := 0%nat ]} in
  let gated := (processExpiryEvent (Scenario.dispatcher_env [rule] "free") ev s0).2 in
  let failed :=
    (processExpiryEvent (Scenario.dispatcher_env_bots_down [rule] "basic") ev s0).2 in
  ~ (emitted gated = [] -> triggerCount gated !! 1 = triggerCount s0 !! 1)
  /\ ~ (alert_logs failed = [deliveryLog (expiryAlertData rule ev) "failed"] ->
        triggerCount failed !! 1 = triggerCount s0 !! 1).
Proof.
  split; intros H; vm_compute in H; specialize (H eq_refl); discriminate H.
Qed.

Lemma sendAlert_keeps_lastTriggered env alertData s :
  lastTriggered (sendAlert env alertData s).2 = lastTriggered s.
Proof. crush_sendAlert. Qed.

(** The two counter columns after a rule whose condition passed: they
    move when the store accepts the update, whatever [sendAlert] did. *)
Lemma after_trigger_counters env alertData aid s :
  triggerCount (after_trigger env alertData aid s)
  = (if succeeded (db_update_trigger env aid)
     then alter S aid (triggerCount s) else triggerCount s)
  /\ lastTriggered (after_trigger env alertData aid s)
     = (if succeeded (db_update_trigger env aid)
        then alter (fun _ => Some (current_timestamp env)) aid (lastTriggered s)
        else lastTriggered s).
Proof.
  unfold after_trigger.
  pose proof (sendAlert_keeps_counts env alertData s) as [Hc _].
  pose proof (sendAlert_keeps_lastTriggered env alertData s) as Ht.
  destruct (db_update_trigger env aid) as [[]|e]; simpl; rewrite Hc, Ht;
    split; reflexivity.
Qed.

(** The counters after a loop whose body is [if fires then { sendAlert;
    incrementTriggerCount }] inside its own [try]/[catch]. *)
Lemma loop_counters env (body : Alert -> Eff State unit) (fires : Alert -> bool)
    (data : Alert -> AlertData) aid l :
  (forall a s, body a s
               = (Ok tt, if fires a then after_trigger env (data a) (id a) s else s)) ->
  forall s,
    triggerCount (for_of l body s).2 !! aid
    = (fun c => (c + counted env fires aid l)%nat) <$> (triggerCount s !! aid)
    /\ lastTriggered (for_of l body s).2 !! aid
       = (if decide (counted env fires aid l = 0%nat) then lastTriggered s !! aid
          else (fun _ => Some (current_timestamp env)) <$> (lastTriggered s !! aid)).
Proof.
  intros Hbody.
  assert (Htot : forall a, total (body a)) by (intros a s; rewrite Hbody; reflexivity).
  induction l as [|a l IH]; intros s.
  - change (counted env fires aid []) with 0%nat. simpl. split; [|reflexivity].
    destruct (triggerCount s !! aid) as [c|]; simpl; [f_equal; lia | reflexivity].
  - rewrite (for_of_cons a l body Htot s).
    destruct (IH (body a s).2) as [IHc IHt]. rewrite IHc, IHt. clear IHc IHt IH.
    rewrite Hbody. simpl.
    assert (Hcons : counted env fires aid (a :: l)
                    = ((if decide (id a = aid /\ fires a = true
                                   /\ succeeded (db_update_trigger env (id a)) = true)
                        then 1 else 0) + counted env fires aid l)%nat).
    { unfold counted. rewrite filter_cons. destruct (decide _); reflexivity. }
    rewrite Hcons. clear Hcons.
    destruct (after_trigger_counters env (data a) (id a) s) as [Hc Ht].
    destruct (fires a) eqn:Ef.
    + rewrite Hc, Ht. destruct (succeeded (db_update_trigger env (id a))) eqn:Eu.
      * destruct (decide (id a = aid)) as [Heq|Hne].
        -- rewrite decide_True by (split; [exact Heq | split; reflexivity]).
           rewrite Heq, !lookup_alter_eq. simpl. split.
           ++ destruct (triggerCount s !! aid) as [c|]; simpl; [f_equal; lia | reflexivity].
           ++ destruct (decide (counted env fires aid l = 0%nat));
                destruct (lastTriggered s !! aid); reflexivity.
        -- rewrite decide_False by (intros [H _]; contradiction).
           rewrite !lookup_alter_ne by exact Hne. split; reflexivity.
      * rewrite decide_False by (intros (_ & _ & H); discriminate H).
        split; reflexivity.
    + rewrite decide_False by (intros (_ & H & _); discriminate H).
      split; reflexivity.
Qed.

(** C8, amended.  [sendAlert] returns normally on every path and touches
    neither counter; the loop updates them right after it.  So for an
    event that is processed - it carries a transaction hash that is not
    in the dedup window, and both lookups answer - [triggerCount] of a
    rule goes up by the number of entries of the rule list (the rows of
    the domain lookup followed by those of the pattern lookup) that are
    rows of the rule, pass the condition and have their [UPDATE]
    accepted, and [lastTriggered] becomes the store's time when that
    number is not zero - whether the alerts were handed over, gated or
    failed.  After a hand-off attempt the delivery log gets a [sent]
    entry when hand-off and log write succeed, and a [failed] entry when
    one of them throws and the second log write succeeds.  Stated for
    expiry events. *)
Theorem triggerCount_counts_passed_conditions env event bd s :
  blockData event = Some bd ->
  db_all env "getAlertsByDomain" = Ok tt ->
  db_all env "getAlertsByPattern" = Ok tt ->
  (forall alertData s0,
     sendAlert env alertData s0 = (Ok tt, (sendAlert env alertData s0).2)
     /\ triggerCount (sendAlert env alertData s0).2 = triggerCount s0
     /\ lastTriggered (sendAlert env alertData s0).2 = lastTriggered s0)
  /\ (transactionHash bd +:+ "-expiry" ∉ processedEvents s ->
      forall aid,
        let n := counted env (fun a => shouldTriggerExpiryAlert a event) aid
                   (allAlerts env (domain event) "expiry") in
        let s' := (processExpiryEvent env event s).2 in
        triggerCount s' !! aid = (fun c => (c + n)%nat) <$> (triggerCount s !! aid)
        /\ lastTriggered s' !! aid
           = (if decide (n = 0%nat) then lastTriggered s !! aid
              else (fun _ => Some (current_timestamp env)) <$> (lastTriggered s !! aid)))
  /\ (forall alertData u s0,
       found (db_user env (ad_userId alertData)) = Some u ->
       isActive u && checkAlertFrequency u alertData = true ->
       alert_logs (sendAlert env alertData s0).2 =
         match listeners env {| em_alert := alertData; em_user := u |},
               db_insert_alert_log env (deliveryLog alertData "sent"),
               db_insert_alert_log env (deliveryLog alertData "failed") with
         | Ok _, Ok _, _ => alert_logs s0 ++ [deliveryLog alertData "sent"]
         | _, _, Ok _ => alert_logs s0 ++ [deliveryLog alertData "failed"]
         | _, _, Throw _ => alert_logs s0
         end).
Proof.
  intros Hbd Hd Hp. split; [|split].
  - intros alertData s0. split; [apply sendAlert_returns|].
    split; [apply sendAlert_keeps_counts | apply sendAlert_keeps_lastTriggered].
  - intros Hnew aid n s'. subst s'.
    rewrite processExpiryEvent_eq, Hbd, Hd, Hp. simpl.
    rewrite bool_decide_false by exact Hnew. simpl.
    apply (loop_counters env (expiry_rule env event)
             (fun a => shouldTriggerExpiryAlert a event)
             (fun a => expiryAlertData a event)).
    intros a s0. apply expiry_rule_eq.
  - intros alertData u s0 Hu Hg. apply (sendAlert_logs env alertData u s0 Hu Hg).
Qed.

(** One expiry event for [web3.ape], a free-tier owner, and a rule whose
    [domainPattern] holds the domain: nothing is handed over, the
    rule is listed by both lookups and its counter goes from 0 to 2. *)
Lemma triggerCount_counts_passed_conditions_witness :
  let rule := Scenario.expiry_alert 1 7 None (Some "web3.ape") in
  let env := Scenario.dispatcher_env [rule] "free" in
  let ev := Scenario.expiring "web3.ape" 3 "high" in
  let s0 := Scenario.dispatcher_state {[ 1 := 0%nat ]} in
  let s1 := (processExpiryEvent env ev s0).2 in
  emitted s1 = []
  /\ triggerCount s1 !! 1 = Some 2%nat
  /\ lastTriggered s1 !! 1 = Some (Some 1700000000).
Proof.
  intros rule env ev s0 s1.
  destruct (triggerCount_counts_passed_conditions env ev
              {| blockNumber := 200; transactionHash := "0xbeef" |} s0)
    as (_ & H & _); [reflexivity | reflexivity | reflexivity |].
  split; [reflexivity|].
  assert (Hnew : "0xbeef" +:+ "-expiry" ∉ processedEvents s0)
    by (intros Hin; inversion Hin).
  destruct (H Hnew 1) as [Hc Ht]. split; [exact Hc | exact Ht].
Defined.

(** *** Wildcard patterns *)

(** C6.  The two pattern matchers of the code, run on the patterns of the
    specification.
    - [getAlertsByPattern] reads a rule's [domainPattern] as an SQL [LIKE]
      pattern: it anchors the expression and ignores case, but it does not
      translate [*]; the source it builds for [*.ape] does not compile, so
      the rule matches nothing, and [a*c.ape] does not match [abc.ape].
    - The test applied to [conditions.domainPatterns] translates [*] and
      ignores case, and decides the five examples as specified, but it is
      not anchored: [*.ape] also matches [web3.apex.com]. *)
Lemma wildcard_matchers_on_the_examples beyond :
  let star_ape := Scenario.expiry_alert 1 7 None (Some "*.ape") in
  let a_star_c := Scenario.expiry_alert 2 7 None (Some "a*c.ape") in
  let like_ape := Scenario.expiry_alert 3 7 None (Some "%.ape") in
  (Regex.RegExp "^*.ape$"
     = Throw (SyntaxError "Invalid regular expression: Nothing to repeat")
   /\ pattern_filter beyond "web3.ape" star_ape = false
   /\ pattern_filter beyond "x.ape" star_ape = false
   /\ pattern_filter beyond "abc.ape" a_star_c = false
   /\ pattern_filter beyond "ac.ape" a_star_c = true
   /\ pattern_filter beyond "WEB3.ape" like_ape = true
   /\ pattern_filter beyond "web3.apex.com" like_ape = false)
  /\
  (domainPattern_test "web3.ape" "*.ape" = Ok true
   /\ domainPattern_test "x.ape" "*.ape" = Ok true
   /\ domainPattern_test "web3.xyz" "*.ape" = Ok false
   /\ domainPattern_test "abc.ape" "a*c.ape" = Ok true
   /\ domainPattern_test "ac.ape" "a*c.ape" = Ok true
   /\ domainPattern_test "WEB3.APE" "*.ape" = Ok true
   /\ domainPattern_test "web3.apex.com" "*.ape" = Ok true).
Proof. vm_compute. repeat split; reflexivity. Qed.

End AlertsSpec.

(** ** Isolation of events and rules *)

Module IsolationSpec.





(** Remark: rule 1 belongs to user 8, whose lookup throws; rule 2, next in
    the list, is still dispatched. *)
Remark failing_rule_does_not_stop_the_next :
  let rule1 := Scenario.expiry_alert 1 8 (Some "web3.ape") None in
  let rule2 := Scenario.expiry_alert 2 7 (Some "web3.ape") None in
  let env :=
    {| Alerts.alerts_table := [rule1; rule2];
       Alerts.regexp_beyond := fun _ _ => false;
       Alerts.db_all := fun _ => Ok tt;
       Alerts.db_user :=
         fun uid => if (uid =? 8)%Z then Throw (External "SQLITE_BUSY")
                    else Ok (Some (Scenario.user_of_tier uid "premium"));
       Alerts.db_insert_alert_log := fun _ => Throw (External "SQLITE_BUSY");
       Alerts.db_update_trigger := fun _ => Throw (External "SQLITE_BUSY");
       Alerts.current_timestamp := 1700000000;
       Alerts.listeners := fun _ => Ok tt |} in
  let run :=
    Alerts.processExpiryEvent env (Scenario.expiring "web3.ape" 3 "high")
      (Scenario.dispatcher_state ∅) in
  run.1 = Ok tt
  /\ Alerts.dispatched 1 run.2 = 0%nat
  /\ Alerts.dispatched 2 run.2 = 1%nat.
Proof. vm_compute. repeat split; reflexivity. Qed.

End IsolationSpec.

(** ** Further properties of the auto-action engine *)

Module EngineProps.
Import AutoActions Ledger.
Local Open Scope Z_scope.

Lemma lower_idem (c : ascii) : Regex.lower (Regex.lower c) = Regex.lower c.
Proof.
  destruct c as [[] [] [] [] [] [] [] []]; vm_compute; reflexivity.
Qed.

Lemma toLowerCase_idem (a : string) : toLowerCase (toLowerCase a) = toLowerCase a.
Proof.
  unfold toLowerCase. rewrite list_ascii_of_string_of_list_ascii.
  f_equal. rewrite map_map. apply map_ext. intros c. apply lower_idem.
Qed.


Lemma acquire_commitments env k action event s :
  commitments (acquire env k action event s).2 = commitments s
  /\ emitted (acquire env k action event s).2 = emitted s.
Proof.
  destruct (activeActions s !! k) as [h|] eqn:E.
  - rewrite (AutoActionsSpec.acquire_held _ _ _ _ _ _ E). split; reflexivity.
  - rewrite (AutoActionsSpec.acquire_free _ _ _ _ _ E). split; reflexivity.
Qed.

Lemma filter_snoc_failed (l : list Emitted) kind uid dom error :
  filter (fun ev => is_executed ev = true) (l ++ [autoActionFailed kind uid dom error])
  = filter (fun ev => is_executed ev = true) l.
Proof.
  rewrite filter_app, filter_cons, filter_nil.
  destruct (decide _) as [H|_]; [discriminate H|]. apply app_nil_r.
Qed.

(** The awaited steps of a purchase never get past the signer: whatever
    the collaborators do, nothing is committed and no execution is
    announced. *)
Lemma purchase_resume_commitments env action event took s :
  commitments (purchase_resume env action event took s).2 = commitments s
  /\ executions (purchase_resume env action event took s).2 = executions s.
Proof.
  unfold purchase_resume, release_in_finally, purchase_steps, purchase_failed,
    logAutoAction, emit, getUserSigner, getUserById.
  destruct took; eff_unfold.
  - rewrite AutoActionsSpec.checkSpendingLimits_eq.
    repeat (case_match; simplify_eq/=; try (split; [reflexivity|]));
      try reflexivity;
      try (unfold executions; simpl; apply filter_snoc_failed).
  - split; reflexivity.
Qed.

Lemma renewal_resume_commitments env action event took s :
  commitments (renewal_resume env action event took s).2 = commitments s
  /\ executions (renewal_resume env action event took s).2 = executions s.
Proof.
  unfold renewal_resume, release_in_finally, renewal_steps, renewal_failed,
    logAutoAction, emit, getUserSigner, getUserById.
  destruct took; eff_unfold.
  - rewrite AutoActionsSpec.checkSpendingLimits_eq.
    repeat (case_match; simplify_eq/=; try (split; [reflexivity|]));
      try reflexivity;
      try (unfold executions; simpl; apply filter_snoc_failed).
  - split; reflexivity.
Qed.

Lemma executeAutoPurchase_commitments env action event s :
  commitments (executeAutoPurchase env action event s).2 = commitments s
  /\ executions (executeAutoPurchase env action event s).2 = executions s.
Proof.
  rewrite AutoActionsSpec.executeAutoPurchase_resume.
  pose proof (acquire_commitments env (purchaseKey action event) action event s)
    as [Hc He].
  destruct (acquire env (purchaseKey action event) action event s)
    as [[took|e] s1]; simpl in *.
  - destruct (purchase_resume_commitments env action event took s1) as [H1 H2].
    split; [congruence|]. rewrite H2. unfold executions. rewrite He. reflexivity.
  - split; [exact Hc | unfold executions; rewrite He; reflexivity].
Qed.

Lemma executeAutoRenewal_commitments env action event s :
  commitments (executeAutoRenewal env action event s).2 = commitments s
  /\ executions (executeAutoRenewal env action event s).2 = executions s.
Proof.
  rewrite AutoActionsSpec.executeAutoRenewal_resume.
  pose proof (acquire_commitments env (renewalKey action event) action event s)
    as [Hc He].
  destruct (acquire env (renewalKey action event) action event s)
    as [[took|e] s1]; simpl in *.
  - destruct (renewal_resume_commitments env action event took s1) as [H1 H2].
    split; [congruence|]. rewrite H2. unfold executions. rewrite He. reflexivity.
  - split; [exact Hc | unfold executions; rewrite He; reflexivity].
Qed.

Lemma purchase_rule_commitments env event action s :
  commitments (purchase_rule env event action s).2 = commitments s
  /\ executions (purchase_rule env event action s).2 = executions s.
Proof.
  destruct (purchase_rule env event action s) as [r s'] eqn:E. simpl. revert E.
  unfold purchase_rule, getUserById.
  unfold try_catch at 1. unfold bind at 1. unfold lift at 1.
  destruct (db_user env (userId action)) as [user|e];
    [|intros [= <- <-]; split; reflexivity].
  destruct (negb (is_premium user)); [intros [= <- <-]; split; reflexivity|].
  unfold bind, lift.
  destruct (shouldExecuteAutoPurchase action event) as [[]|e];
    try (intros [= <- <-]; split; reflexivity).
  pose proof (executeAutoPurchase_commitments env action event s) as H.
  destruct (executeAutoPurchase env action event s) as [[[]|e] s''];
    intros [= <- <-]; exact H.
Qed.

Lemma renewal_rule_commitments env event action s :
  commitments (renewal_rule env event action s).2 = commitments s
  /\ executions (renewal_rule env event action s).2 = executions s.
Proof.
  destruct (renewal_rule env event action s) as [r s'] eqn:E. simpl. revert E.
  unfold renewal_rule, getUserById.
  unfold try_catch at 1. unfold bind at 1. unfold lift at 1.
  destruct (db_user env (userId action)) as [user|e];
    [|intros [= <- <-]; split; reflexivity].
  destruct (negb (is_premium user)); [intros [= <- <-]; split; reflexivity|].
  destruct (negb (owns_domain user event)); [intros [= <- <-]; split; reflexivity|].
  destruct (shouldExecuteAutoRenewal (conditions action) event);
    [|intros [= <- <-]; split; reflexivity].
  pose proof (executeAutoRenewal_commitments env action event s) as H.
  destruct (executeAutoRenewal env action event s) as [[[]|e] s''];
    intros [= <- <-]; exact H.
Qed.

(** An observation every iteration preserves is preserved by the loop,
    whether or not an iteration throws. *)
Lemma for_of_preserves {S A B} (f : S -> B) (l : list A) (body : A -> Eff S unit) :
  (forall x s, f (body x s).2 = f s) ->
  forall s, f (for_of l body s).2 = f s.
Proof.
  intros Hb. induction l as [|x l IH]; intros s; [reflexivity|].
  simpl. unfold bind. specialize (Hb x s).
  destruct (body x s) as [[[]|e] s']; simpl in Hb; [rewrite IH|]; exact Hb.
Qed.

Lemma bid_rule_unchanged env event action s :
  bid_rule env event action s = (Ok tt, s).
Proof.
  unfold bid_rule, getUserById, shouldExecuteAutoBid. eff_unfold.
  destruct (db_user env (userId action)) as [user|e]; [|reflexivity].
  destruct (negb (is_premium user)); reflexivity.
Qed.

Lemma for_of_unchanged {S A} (l : list A) (body : A -> Eff S unit) :
  (forall x s, body x s = (Ok tt, s)) ->
  forall s, for_of l body s = (Ok tt, s).
Proof.
  intros Hb. induction l as [|x l IH]; intros s; [reflexivity|].
  simpl. unfold bind. rewrite Hb. apply IH.
Qed.

(** *** Locks and the hourly sweep *)

(** X1.  A purchase attempt leaves its lock behind, and only the hourly
    sweep removes it: a sweep that runs at most one hour after the attempt
    began keeps the lock, so the rule is still skipped for that domain
    without any change of state; a sweep that runs more than one hour
    after it removes the lock, and the next attempt takes it afresh. *)
Theorem lock_blocks_until_swept env env' action event s :
  activeActions s !! purchaseKey action event = None ->
  let s1 := (executeAutoPurchase env action event s).2 in
  let s2 := (cleanupStaleActions env' s1).2 in
  (now env' - 3600000 <= now env ->
     purchase_rule env' event action s2 = (Ok tt, s2))
  /\ (now env < now env' - 3600000 ->
        acquire env' (purchaseKey action event) action event s2
        = (Ok true,
           set_activeActions
             (<[purchaseKey action event :=
                  {| startTime := now env'; aa_action := action; aa_event := event |}]>)
             s2)).
Proof.
  intros Hfree. cbv zeta.
  pose proof (AutoActionsSpec.cleanupStaleActions_lookup env'
                (executeAutoPurchase env action event s).2
                (purchaseKey action event)) as Hc.
  rewrite (AutoActionsSpec.lock_outlives_purchase env action event s Hfree) in Hc.
  simpl in Hc. split.
  - intros Hle. rewrite bool_decide_true in Hc by lia.
    eapply AutoActionsSpec.purchase_rule_held. exact Hc.
  - intros Hlt. rewrite bool_decide_false in Hc by lia.
    apply AutoActionsSpec.acquire_free. exact Hc.
Qed.

Lemma lock_blocks_until_swept_witness :
  let s1 := (executeAutoPurchase (Scenario.engine_env_at 1000 "premium")
               (Scenario.buy_rule 50) (Scenario.listing "web3.ape" 45)
               (Scenario.engine_state None)).2 in
  let s2 := (cleanupStaleActions (Scenario.engine_env_at 3601000 "premium") s1).2 in
  let s3 := (cleanupStaleActions (Scenario.engine_env_at 3601001 "premium") s1).2 in
  purchase_rule (Scenario.engine_env_at 3601000 "premium")
    (Scenario.listing "web3.ape" 45) (Scenario.buy_rule 50) s2 = (Ok tt, s2)
  /\ (acquire (Scenario.engine_env_at 3601001 "premium")
        (purchaseKey (Scenario.buy_rule 50) (Scenario.listing "web3.ape" 45))
        (Scenario.buy_rule 50) (Scenario.listing "web3.ape" 45) s3).1 = Ok true.
Proof.
  cbv zeta. split.
  - apply (lock_blocks_until_swept (Scenario.engine_env_at 1000 "premium")
             (Scenario.engine_env_at 3601000 "premium")
             (Scenario.buy_rule 50) (Scenario.listing "web3.ape" 45)
             (Scenario.engine_state None)); [reflexivity | simpl; lia].
  - destruct (lock_blocks_until_swept (Scenario.engine_env_at 1000 "premium")
                (Scenario.engine_env_at 3601001 "premium")
                (Scenario.buy_rule 50) (Scenario.listing "web3.ape" 45)
                (Scenario.engine_state None)) as [_ H]; [reflexivity|].
    rewrite H by (simpl; lia). reflexivity.
Defined.

(** *** The ledger *)



(** X3.  A listing whose price does not parse ([NaN]) passes every price
    test of the matcher - a rule without pattern, target or seller
    conditions matches it whatever its bounds - but it never spends: the
    spending check turns it down for every owner and every ledger, and the
    purchase stops with the limit error before a signer is requested. *)
Theorem unparsable_price_never_spends env action event s :
  price event = NaN ->
  (domainPatterns (conditions action) = None ->
   targetDomains (conditions action) = None ->
   excludeSellers (conditions action) = None ->
   shouldExecuteAutoPurchase action event = Ok true)
  /\ checkSpendingLimits env (userId action) (price event) s = (Ok false, s)
  /\ purchase_steps env action event s
     = (Throw (JsError "Monthly spending limit exceeded"), s).
Proof.
  intros Hp.
  assert (Hc : checkSpendingLimits env (userId action) (price event) s = (Ok false, s)).
  { rewrite AutoActionsSpec.checkSpendingLimits_eq, Hp.
    destruct (found (db_user env (userId action))) as [u|]; [|reflexivity].
    destruct (currentSpending env (userId action) s); reflexivity. }
  split; [|split; [exact Hc|]].
  - intros H1 H2 H3. unfold shouldExecuteAutoPurchase. rewrite Hp, H1, H2, H3.
    unfold num_gt, num_lt. simpl.
    destruct (maxAmount action); simpl;
      destruct (maxPrice (conditions action)) as [[]|]; simpl;
      rewrite ?andb_false_r;
      destruct (minPrice (conditions action)) as [[]|]; simpl;
      rewrite ?andb_false_r; reflexivity.
  - apply AutoActionsSpec.over_limit_is_rejected. rewrite Hc. reflexivity.
Qed.

Lemma unparsable_price_never_spends_witness :
  purchase_steps Scenario.engine_env (Scenario.buy_rule 50)
    (Scenario.unpriced_listing "web3.ape") (Scenario.engine_state None)
  = (Throw (JsError "Monthly spending limit exceeded"), Scenario.engine_state None).
Proof.
  apply (unparsable_price_never_spends Scenario.engine_env (Scenario.buy_rule 50)
           (Scenario.unpriced_listing "web3.ape") (Scenario.engine_state None)).
  reflexivity.
Defined.

(** *** The purchase matcher *)



(** X5.  [excludeSellers] is compared with the seller's address in
    lower case: an entry excludes a seller exactly when it equals the
    lower-cased address, so a list whose entries all contain an upper-case
    letter (a checksummed address, say) excludes nobody. *)
Theorem exclusion_list_is_lower_case_only sellers event :
  (forall x, x ∈ sellers -> toLowerCase x <> x) ->
  seller_excluded sellers event = false.
Proof.
  intros Hall. unfold seller_excluded. destruct (seller event) as [a|]; [|reflexivity].
  apply bool_decide_eq_false. intros Hin.
  apply (Hall _ Hin). apply toLowerCase_idem.
Qed.

Lemma exclusion_list_is_lower_case_only_witness :
  seller_excluded ["0xSeller"] (Scenario.listing_by "0xSeller" "web3.ape" 45) = false.
Proof.
  apply (exclusion_list_is_lower_case_only ["0xSeller"]
           (Scenario.listing_by "0xSeller" "web3.ape" 45)).
  intros x Hx. apply list_elem_of_singleton in Hx. subst x. vm_compute. discriminate.
Defined.

(** *** What the handlers never do *)

(** X6.  Auto-bidding does nothing: [checkAutoBid] returns normally and
    leaves the whole state as it was, for every event, every rule table
    and every behaviour of the database - the two methods a bid rule
    would call do not exist, and the [TypeError] is swallowed per rule. *)
Theorem auto_bid_never_acts env event s :
  checkAutoBid env event s = (Ok tt, s).
Proof.
  unfold checkAutoBid, getAutoActions. eff_unfold.
  destruct (db_auto_actions env "bid" None) as [l|e].
  - rewrite (for_of_unchanged l (bid_rule env event) (bid_rule_unchanged env event)).
    reflexivity.
  - reflexivity.
Qed.

Lemma rule_loop_commitments (body : Action -> Eff State unit) l s :
  (forall action s0,
     commitments (body action s0).2 = commitments s0
     /\ executions (body action s0).2 = executions s0) ->
  commitments (for_of l body s).2 = commitments s
  /\ executions (for_of l body s).2 = executions s.
Proof.
  intros Hb.
  pose proof (for_of_preserves (fun s0 => (commitments s0, executions s0)) l body) as H.
  simpl in H. assert (H' := H (fun x s0 =>
    match Hb x s0 with conj Hc He => f_equal2 pair Hc He end) s).
  split; [exact (f_equal fst H') | exact (f_equal snd H')].
Qed.

(** X7.  No event handler ever commits a spend: after [checkAutoRenewal]
    and after [checkAutoPurchase] the month ledger, the rows of
    [transaction_logs] and the execution counters are what they were, and
    no [autoActionExecuted] event has been emitted - for every event, rule
    table, state and behaviour of the collaborators.  (Every attempt stops
    at [getUserSigner] or earlier.) *)
Theorem events_never_commit env event s :
  (commitments (checkAutoRenewal env event s).2 = commitments s
   /\ executions (checkAutoRenewal env event s).2 = executions s)
  /\ (commitments (checkAutoPurchase env event s).2 = commitments s
      /\ executions (checkAutoPurchase env event s).2 = executions s).
Proof.
  split.
  - destruct (checkAutoRenewal env event s) as [r s'] eqn:E. simpl. revert E.
    unfold checkAutoRenewal, getAutoActions. eff_unfold.
    destruct (db_auto_actions env "renew" (Some (domain event))) as [l|e].
    + pose proof (rule_loop_commitments (renewal_rule env event) l s
                    (renewal_rule_commitments env event)) as H.
      destruct (for_of l (renewal_rule env event) s) as [[[]|e] s''];
        intros [= <- <-]; exact H.
    + simpl. intros [= <- <-]. split; reflexivity.
  - destruct (checkAutoPurchase env event s) as [r s'] eqn:E. simpl. revert E.
    unfold checkAutoPurchase, getAutoActions. eff_unfold.
    destruct (negb (ev_type event =? "listing")%string);
      [intros [= <- <-]; split; reflexivity|].
    destruct (db_auto_actions env "buy" None) as [l|e].
    + pose proof (rule_loop_commitments (purchase_rule env event) l s
                    (purchase_rule_commitments env event)) as H.
      destruct (for_of l (purchase_rule env event) s) as [[[]|e] s''];
        intros [= <- <-]; exact H.
    + simpl. intros [= <- <-]. split; reflexivity.
Qed.

(** X8.  The entitlement is checked again at execution time: when the
    owner of a rule is not on the premium tier at that moment (or the
    owner row is gone, or the lookup fails), the renewal, purchase and bid
    handlers skip the rule and leave the whole state as it was - no lock,
    no log entry, no event. *)
Theorem entitlement_checked_at_execution env event action s :
  (forall u, db_user env (userId action) = Ok (Some u) ->
             subscriptionTier u <> "premium") ->
  renewal_rule env event action s = (Ok tt, s)
  /\ purchase_rule env event action s = (Ok tt, s)
  /\ bid_rule env event action s = (Ok tt, s).
Proof.
  intros Hu.
  assert (Hp : forall user, db_user env (userId action) = Ok user ->
                            is_premium user = false).
  { intros [u|] E; [|reflexivity]. simpl. apply String.eqb_neq. apply Hu, E. }
  unfold renewal_rule, purchase_rule, bid_rule, getUserById. eff_unfold.
  destruct (db_user env (userId action)) as [user|e]; [|repeat split].
  rewrite (Hp user eq_refl). repeat split.
Qed.

Lemma entitlement_checked_at_execution_witness :
  purchase_rule (Scenario.engine_env_at 1000 "basic") (Scenario.listing "web3.ape" 45)
    (Scenario.buy_rule 50) (Scenario.engine_state None)
  = (Ok tt, Scenario.engine_state None).
Proof.
  apply (entitlement_checked_at_execution (Scenario.engine_env_at 1000 "basic")
           (Scenario.listing "web3.ape" 45) (Scenario.buy_rule 50)
           (Scenario.engine_state None)).
  intros u [= <-]. simpl. discriminate.
Defined.

(** X9.  A renewal rule is only ever considered for the domain's owner:
    when the wallet address of the rule's owner and the [owner] of the
    expiry event differ (compared in lower case; a missing address equals
    only a missing address), the handler skips the rule and leaves the
    state as it was. *)
Theorem renewal_requires_ownership env event action u s :
  db_user env (userId action) = Ok (Some u) ->
  toLowerCase <$> walletAddress u <> toLowerCase <$> owner event ->
  renewal_rule env event action s = (Ok tt, s).
Proof.
  intros Hu Hne. unfold renewal_rule, getUserById. eff_unfold. rewrite Hu.
  destruct (negb (is_premium (Some u))); [reflexivity|].
  unfold owns_domain. simpl. rewrite bool_decide_false by exact Hne. reflexivity.
Qed.

Lemma renewal_requires_ownership_witness :
  renewal_rule Scenario.engine_env
    (Monitor.handleDomainExpiring "0xSomeoneElse" "web3.ape" 86400 0
       {| blockNumber := 1; transactionHash := "0xabc" |})
    Scenario.renew_rule (Scenario.engine_state None)
  = (Ok tt, Scenario.engine_state None).
Proof.
  apply (renewal_requires_ownership Scenario.engine_env _ Scenario.renew_rule
           (Scenario.user_of_tier 7 "premium")); [reflexivity|].
  vm_compute. discriminate.
Defined.

End EngineProps.

(** ** Two attempts for one rule and one domain *)

Module LockSpec.
Import AutoActions Ledger.
Local Open Scope Z_scope.

(** The awaited steps end in a throw from every state, which they leave
    as it was: at the spending check, at the owner lookup, or at the
    signer. *)
Lemma purchase_steps_throw env action event s :
  exists error, purchase_steps env action event s = (Throw error, s).
Proof.
  unfold purchase_steps, getUserSigner, getUserById. eff_unfold.
  rewrite AutoActionsSpec.checkSpendingLimits_eq.
  repeat (case_match; simplify_eq/=); eauto.
Qed.

Lemma renewal_steps_throw env action event s :
  exists error, renewal_steps env action event s = (Throw error, s).
Proof.
  unfold renewal_steps, getUserSigner, getUserById. eff_unfold.
  rewrite AutoActionsSpec.checkSpendingLimits_eq.
  repeat (case_match; simplify_eq/=); eauto.
Qed.

(** Whatever the [try] and [catch] blocks did, the call completes with
    the exception of the [finally] block. *)
Lemma purchase_resume_throws env action event took s :
  (purchase_resume env action event took s).1
  = Throw (ReferenceError "actionKey is not defined").
Proof.
  unfold purchase_resume, try_catch_finally, release_in_finally, throw.
  destruct (try_catch _ _ s) as [r s']. reflexivity.
Qed.

Lemma renewal_resume_throws env action event took s :
  (renewal_resume env action event took s).1
  = Throw (ReferenceError "actionKey is not defined").
Proof.
  unfold renewal_resume, try_catch_finally, release_in_finally, throw.
  destruct (try_catch _ _ s) as [r s']. reflexivity.
Qed.

(** C2.  The lock is exclusive, and no attempt completes.
    [this.activeActions] holds at most one entry per key, and the
    synchronous head of [execute] installs one, stamped [Date.now()],
    only when the key is free; when it is taken the head answers
    [false] and leaves the holder in place.  But:
    - the awaited steps throw from every state and leave it as it was
      (the signer throws on every call);
    - every call of [execute] ends with the [ReferenceError] of its
      [finally] block, and commits and announces nothing;
    - the attempt that finds the lock taken is no exception: its early
      [return] is replaced by that error, the state unchanged;
    - after any first attempt the key is held, so a second attempt for
      the same rule and domain ends with the same error.
    Of two attempts none completes.  Stated for the purchase path and
    for the renewal path. *)
Theorem no_attempt_completes env action event s :
  let holder := {| startTime := now env; aa_action := action; aa_event := event |} in
  let error : result unit := Throw (ReferenceError "actionKey is not defined") in
  (let k := purchaseKey action event in
   let first := executeAutoPurchase env action event s in
   acquire env k action event s
   = (if bool_decide (is_Some (activeActions s !! k)) then (Ok false, s)
      else (Ok true, set_activeActions (<[k := holder]>) s))
   /\ (exists failure, purchase_steps env action event s = (Throw failure, s))
   /\ first.1 = error
   /\ commitments first.2 = commitments s
   /\ executions first.2 = executions s
   /\ (is_Some (activeActions s !! k) -> first = (error, s))
   /\ is_Some (activeActions first.2 !! k)
   /\ forall e2, domain e2 = domain event ->
        executeAutoPurchase env action e2 first.2 = (error, first.2))
  /\
  (let k := renewalKey action event in
   let first := executeAutoRenewal env action event s in
   acquire env k action event s
   = (if bool_decide (is_Some (activeActions s !! k)) then (Ok false, s)
      else (Ok true, set_activeActions (<[k := holder]>) s))
   /\ (exists failure, renewal_steps env action event s = (Throw failure, s))
   /\ first.1 = error
   /\ commitments first.2 = commitments s
   /\ executions first.2 = executions s
   /\ (is_Some (activeActions s !! k) -> first = (error, s))
   /\ is_Some (activeActions first.2 !! k)
   /\ forall e2, domain e2 = domain event ->
        executeAutoRenewal env action e2 first.2 = (error, first.2)).
Proof.
  intros holder error. split.
  - intros k first.
    assert (Hheld : is_Some (activeActions first.2 !! k)).
    { subst first k. destruct (activeActions s !! purchaseKey action event) as [h|] eqn:E.
      - rewrite (AutoActionsSpec.executeAutoPurchase_held _ _ _ _ _ E). simpl.
        rewrite E. eauto.
      - rewrite (AutoActionsSpec.lock_outlives_purchase _ _ _ _ E). eauto. }
    split.
    { destruct (activeActions s !! k) as [h|] eqn:E.
      - rewrite bool_decide_true by eauto. exact (AutoActionsSpec.acquire_held _ _ _ _ _ _ E).
      - rewrite bool_decide_false by (intros [? ?]; discriminate).
        exact (AutoActionsSpec.acquire_free _ _ _ _ _ E). }
    split; [apply purchase_steps_throw|].
    split.
    { subst first. rewrite AutoActionsSpec.executeAutoPurchase_resume.
      destruct (activeActions s !! k) as [h|] eqn:E.
      - subst k. rewrite (AutoActionsSpec.acquire_held _ _ _ _ _ _ E).
        apply purchase_resume_throws.
      - subst k. rewrite (AutoActionsSpec.acquire_free _ _ _ _ _ E).
        apply purchase_resume_throws. }
    destruct (EngineProps.executeAutoPurchase_commitments env action event s) as [Hc He].
    split; [exact Hc|]. split; [exact He|].
    split.
    { intros [h E]. subst first k.
      exact (AutoActionsSpec.executeAutoPurchase_held _ _ _ _ _ E). }
    split; [exact Hheld|].
    intros e2 Hd. destruct Hheld as [h Hh].
    apply (AutoActionsSpec.executeAutoPurchase_held _ _ _ _ h).
    unfold purchaseKey. rewrite Hd. exact Hh.
  - intros k first.
    assert (Hheld : is_Some (activeActions first.2 !! k)).
    { subst first k. destruct (activeActions s !! renewalKey action event) as [h|] eqn:E.
      - rewrite (AutoActionsSpec.executeAutoRenewal_held _ _ _ _ _ E). simpl.
        rewrite E. eauto.
      - rewrite (AutoActionsSpec.lock_outlives_renewal _ _ _ _ E). eauto. }
    split.
    { destruct (activeActions s !! k) as [h|] eqn:E.
      - rewrite bool_decide_true by eauto. exact (AutoActionsSpec.acquire_held _ _ _ _ _ _ E).
      - rewrite bool_decide_false by (intros [? ?]; discriminate).
        exact (AutoActionsSpec.acquire_free _ _ _ _ _ E). }
    split; [apply renewal_steps_throw|].
    split.
    { subst first. rewrite AutoActionsSpec.executeAutoRenewal_resume.
      destruct (activeActions s !! k) as [h|] eqn:E.
      - subst k. rewrite (AutoActionsSpec.acquire_held _ _ _ _ _ _ E).
        apply renewal_resume_throws.
      - subst k. rewrite (AutoActionsSpec.acquire_free _ _ _ _ _ E).
        apply renewal_resume_throws. }
    destruct (EngineProps.executeAutoRenewal_commitments env action event s) as [Hc He].
    split; [exact Hc|]. split; [exact He|].
    split.
    { intros [h E]. subst first k.
      exact (AutoActionsSpec.executeAutoRenewal_held _ _ _ _ _ E). }
    split; [exact Hheld|].
    intros e2 Hd. destruct Hheld as [h Hh].
    apply (AutoActionsSpec.executeAutoRenewal_held _ _ _ _ h).
    unfold renewalKey. rewrite Hd. exact Hh.
Qed.

(** Two listings of [nft.ape] for rule 1, a premium owner with nothing
    spent: the first attempt takes the lock, fails at the signer and
    ends with the [ReferenceError]; the second finds the lock and ends
    with the same error.  No execution is announced. *)
Lemma two_listings_no_execution :
  let env := Scenario.engine_env in
  let rule := Scenario.buy_rule 50 in
  let first := executeAutoPurchase env rule (Scenario.listing "nft.ape" 45)
                 (Scenario.engine_state None) in
  let second := executeAutoPurchase env rule (Scenario.listing "nft.ape" 44) first.2 in
  first.1 = Throw (ReferenceError "actionKey is not defined")
  /\ second = (Throw (ReferenceError "actionKey is not defined"), first.2)
  /\ executions second.2 = [].
Proof. vm_compute. repeat split; reflexivity. Qed.

End LockSpec.

(** ** Further properties of the alert dispatcher *)

Module DispatcherProps.
Import Alerts.
Local Open Scope Z_scope.

Lemma evict_old_bound (l : list string) : (length (evict_old l) <= 1000)%nat.
Proof.
  unfold evict_old. destruct (Nat.ltb_spec 1000 (length l)); [|lia].
  rewrite length_drop. lia.
Qed.

Lemma evict_old_NoDup (l : list string) : NoDup l -> NoDup (evict_old l).
Proof.
  intros H. unfold evict_old. destruct (1000 <? length l)%nat; [|exact H].
  eapply sublist_NoDup; [exact H | apply sublist_drop].
Qed.

Lemma add_processed_NoDup x (l : list string) : NoDup l -> NoDup (add_processed x l).
Proof.
  intros H. unfold add_processed. case_bool_decide as Hin; [exact H|].
  apply NoDup_app. split; [exact H|]. split; [|apply NoDup_singleton].
  intros y Hy Hy'. apply list_elem_of_singleton in Hy'. subst y. contradiction.
Qed.

(** The window after one call: untouched, or the event id appended and
    the eviction applied. *)
Lemma processExpiryEvent_window env event s :
  processedEvents (processExpiryEvent env event s).2 = processedEvents s
  \/ exists eventId,
       processedEvents (processExpiryEvent env event s).2
       = evict_old (add_processed eventId (processedEvents s)).
Proof.
  rewrite AlertsSpec.processExpiryEvent_eq. simpl.
  destruct (blockData event) as [bd|]; [|left; reflexivity].
  simpl. case_bool_decide; [left; reflexivity|].
  destruct (db_all env "getAlertsByDomain") as [[]|e1]; [|left; reflexivity].
  destruct (db_all env "getAlertsByPattern") as [[]|e2]; [|left; reflexivity].
  right. eexists. simpl. rewrite AlertsSpec.expiry_loop_keeps_processed. reflexivity.
Qed.

Lemma processSaleEvent_window env event s :
  processedEvents (processSaleEvent env event s).2 = processedEvents s
  \/ exists eventId,
       processedEvents (processSaleEvent env event s).2
       = add_processed eventId (processedEvents s).
Proof.
  rewrite AlertsSpec.processSaleEvent_eq. simpl.
  destruct (blockData event) as [bd|]; [|left; reflexivity].
  simpl. case_bool_decide; [left; reflexivity|].
  destruct (db_all env "getAlertsByDomain") as [[]|e1]; [|left; reflexivity].
  destruct (db_all env "getAlertsByPattern") as [[]|e2]; [|left; reflexivity].
  right. eexists. simpl. rewrite AlertsSpec.sale_loop_keeps_processed. reflexivity.
Qed.

(** *** The dedup window *)

(** X10.  The dedup window of expiry events is bounded: a call never
    leaves it longer than the larger of its previous length and 1000, and
    never introduces a duplicate id.  The window of sale events is never
    evicted: a call keeps every id and appends at most one. *)
Theorem window_stays_bounded env event s :
  ((length (processedEvents (processExpiryEvent env event s).2)
    <= Nat.max (length (processedEvents s)) 1000)%nat
   /\ (NoDup (processedEvents s) ->
       NoDup (processedEvents (processExpiryEvent env event s).2)))
  /\ (exists tail,
        processedEvents (processSaleEvent env event s).2 = processedEvents s ++ tail
        /\ (length tail <= 1)%nat
        /\ (NoDup (processedEvents s) ->
            NoDup (processedEvents (processSaleEvent env event s).2))).
Proof.
  split.
  - destruct (processExpiryEvent_window env event s) as [-> | [eventId ->]].
    + split; [lia | tauto].
    + split.
      * pose proof (evict_old_bound (add_processed eventId (processedEvents s))). lia.
      * intros H. apply evict_old_NoDup, add_processed_NoDup, H.
  - destruct (processSaleEvent_window env event s) as [E | [eventId E]]; rewrite E.
    + exists []. rewrite app_nil_r. split; [reflexivity|]. split; [simpl; lia | tauto].
    + unfold add_processed. case_bool_decide as Hin.
      * exists []. rewrite app_nil_r. split; [reflexivity|]. split; [simpl; lia | tauto].
      * exists [eventId]. split; [reflexivity|]. split; [simpl; lia|].
        intros H. pose proof (add_processed_NoDup eventId _ H) as H'.
        unfold add_processed in H'. rewrite bool_decide_false in H' by exact Hin.
        exact H'.
Qed.

(** X11.  Deduplication reaches back 900 to 1000 events only.  When the
    window holds 1000 distinct ids and a new expiry event is processed,
    the window is cut to its newest 900 ids: the new id is among them and
    the oldest id is not, so a repetition of the oldest event is no longer
    recognised. *)
Theorem eviction_forgets_the_oldest env event bd x l s :
  blockData event = Some bd ->
  db_all env "getAlertsByDomain" = Ok tt ->
  db_all env "getAlertsByPattern" = Ok tt ->
  processedEvents s = x :: l ->
  length l = 999%nat ->
  NoDup (x :: l) ->
  transactionHash bd +:+ "-expiry" ∉ x :: l ->
  let w' := processedEvents (processExpiryEvent env event s).2 in
  (x ∉ w') /\ length w' = 900%nat /\ (transactionHash bd +:+ "-expiry" ∈ w').
Proof.
  intros Hbd H1 H2 Hw Hlen Hnd Hnew. cbv zeta.
  rewrite AlertsSpec.processExpiryEvent_eq, Hbd. simpl.
  rewrite Hw, bool_decide_false by exact Hnew. rewrite H1, H2. simpl.
  rewrite AlertsSpec.expiry_loop_keeps_processed, Hw.
  split; [|split].
  - unfold add_processed. rewrite bool_decide_false by exact Hnew.
    unfold evict_old. rewrite length_app. simpl. rewrite Hlen. simpl.
    intros Hin. apply NoDup_cons in Hnd as [Hx _].
    assert (Hsub : x ∈ l ++ [transactionHash bd +:+ "-expiry"]).
    { eapply elem_of_sublist; [exact Hin | apply sublist_drop]. }
    apply elem_of_app in Hsub as [Hl | Hl]; [contradiction|].
    apply list_elem_of_singleton in Hl. subst x. apply Hnew. left.
  - unfold add_processed. rewrite bool_decide_false by exact Hnew.
    unfold evict_old. rewrite length_app. simpl. rewrite Hlen. simpl.
    rewrite length_drop, length_app. simpl. lia.
  - apply AlertsSpec.added_survives_eviction. exact Hnew.
Qed.

Lemma eviction_forgets_the_oldest_witness :
  let s := Scenario.dispatcher_state_seen (Scenario.earlier_ids 0 1000) in
  let w' := processedEvents
              (processExpiryEvent (Scenario.dispatcher_env [] "basic")
                 (Scenario.expiring "web3.ape" 3 "high") s).2 in
  (pretty 0%nat ∉ w') /\ length w' = 900%nat /\ ("0xbeef-expiry" ∈ w').
Proof.
  apply (eviction_forgets_the_oldest (Scenario.dispatcher_env [] "basic")
           (Scenario.expiring "web3.ape" 3 "high")
           {| blockNumber := 200; transactionHash := "0xbeef" |}
           (pretty 0%nat) (Scenario.earlier_ids 1 999)
           (Scenario.dispatcher_state_seen (Scenario.earlier_ids 0 1000)));
    try reflexivity.
  - change (NoDup (Scenario.earlier_ids 0 1000)).
    apply (NoDup_fmap_2 _), NoDup_seq.
  - apply (bool_decide_unpack _). vm_compute. exact I.
Defined.

(** *** Who is handed an alert *)

(** An observation the iterations over the members of [l] preserve is
    preserved by the loop. *)
Lemma for_of_preserves_in {S A B} (f : S -> B) (l : list A) (body : A -> Eff S unit) :
  (forall x s, x ∈ l -> f (body x s).2 = f s) ->
  forall s, f (for_of l body s).2 = f s.
Proof.
  induction l as [|x l IH]; intros Hb s; [reflexivity|].
  simpl. unfold bind. pose proof (Hb x s ltac:(left)) as Hx.
  destruct (body x s) as [[[]|e] s']; simpl in Hx; [|exact Hx].
  rewrite IH; [exact Hx|]. intros y s0 Hy. apply Hb. right. exact Hy.
Qed.

Lemma allAlerts_listed env dom type_ a :
  a ∈ allAlerts env dom type_ ->
  a ∈ alerts_table env
  /\ alert_isActive a = true
  /\ type a = type_
  /\ (alert_domain a = Some dom \/ domainPattern a = Some dom
      \/ pattern_filter (regexp_beyond env) dom a = true).
Proof.
  unfold allAlerts, rows_by_domain, rows_by_pattern. intros H.
  apply elem_of_app in H as [H|H].
  - apply list_elem_of_filter in H as [(Ha & Hd & Ht) Hin].
    repeat split; try assumption. destruct Hd; auto.
  - apply list_elem_of_filter in H as [Hp H].
    apply list_elem_of_filter in H as [(Ha & _ & Ht) Hin].
    repeat split; try assumption. auto.
Qed.

Lemma after_trigger_emitted env alertData aid s :
  emitted (after_trigger env alertData aid s) = emitted (sendAlert env alertData s).2.
Proof. unfold after_trigger. destruct (db_update_trigger env aid); reflexivity. Qed.

(** X12.  A free-tier owner is never handed a sale alert: whatever the
    sale event and the matching rules, when every rule owner the user
    lookup returns is on the free tier, [processSaleEvent] hands nothing
    to the listeners (sale alerts carry no urgency, so the frequency gate
    holds every one of them back). *)
Theorem free_tier_gets_no_sale_alerts env event s :
  (forall a u, a ∈ alerts_table env ->
               db_user env (userId a) = Ok (Some u) -> subscriptionTier u = "free") ->
  emitted (processSaleEvent env event s).2 = emitted s.
Proof.
  intros Hfree. rewrite AlertsSpec.processSaleEvent_eq. simpl.
  destruct (blockData event) as [bd|]; [|reflexivity]. simpl.
  case_bool_decide; [reflexivity|].
  destruct (db_all env "getAlertsByDomain") as [[]|e1]; [|reflexivity].
  destruct (db_all env "getAlertsByPattern") as [[]|e2]; [|reflexivity].
  simpl. apply for_of_preserves_in. intros a s0 Ha.
  apply allAlerts_listed in Ha as (Hin & _).
  rewrite AlertsSpec.sale_rule_eq. simpl.
  destruct (shouldTriggerSaleAlert a event) as [[]|e]; try reflexivity.
  rewrite after_trigger_emitted, AlertsSpec.sendAlert_emitted. simpl.
  destruct (db_user env (userId a)) as [[u|]|e] eqn:Eu; try reflexivity. simpl.
  unfold checkAlertFrequency. rewrite (Hfree a u Hin Eu). simpl.
  rewrite andb_false_r. reflexivity.
Qed.

Lemma free_tier_gets_no_sale_alerts_witness :
  emitted (processSaleEvent
             (Scenario.dispatcher_env
                [{| id := 1; userId := 7; type := "sale";
                    alert_domain := Some "web3.ape"; domainPattern := None;
                    conditions := {| daysThreshold := None; minUrgency := None;
                                     maxPrice := None; minPrice := None;
                                     saleTypes := None; domainPatterns := None |};
                    platform := "telegram"; alert_isActive := true |}] "free")
             (Scenario.listing "web3.ape" 45)
             (Scenario.dispatcher_state ∅)).2 = [].
Proof.
  apply (free_tier_gets_no_sale_alerts (Scenario.dispatcher_env _ "free")
           (Scenario.listing "web3.ape" 45) (Scenario.dispatcher_state ∅)).
  intros a u _ [= <-]. reflexivity.
Defined.

Lemma after_trigger_other_rule env alertData aid aid' s :
  ad_alertId alertData <> aid ->
  dispatched aid (after_trigger env alertData aid' s) = dispatched aid s.
Proof.
  intros Hne. unfold dispatched.
  rewrite after_trigger_emitted, AlertsSpec.sendAlert_emitted.
  destruct (found (db_user env (ad_userId alertData))) as [u|]; [|reflexivity].
  destruct (isActive u && checkAlertFrequency u alertData); [|reflexivity].
  rewrite filter_app, filter_cons, filter_nil. simpl.
  rewrite decide_False by exact Hne. rewrite app_nil_r. reflexivity.
Qed.

(** X13.  Only an active rule of the event's kind whose domain or pattern
    matches and whose conditions hold is ever dispatched: if every row
    with id [aid] is inactive, or of another type, or matches the event's
    domain neither by its [domain] column, nor by its [domainPattern]
    column taken literally, nor by the pattern filter, or has conditions
    the event does not meet, then processing an expiry event hands no
    alert of rule [aid] to the listeners. *)
Theorem only_matching_rules_are_dispatched env event aid s :
  (forall a, a ∈ alerts_table env -> id a = aid ->
     alert_isActive a = false
     \/ type a <> "expiry"
     \/ (alert_domain a <> Some (domain event)
         /\ domainPattern a <> Some (domain event)
         /\ pattern_filter (regexp_beyond env) (domain event) a = false)
     \/ shouldTriggerExpiryAlert a event = false) ->
  dispatched aid (processExpiryEvent env event s).2 = dispatched aid s.
Proof.
  intros Hrows. rewrite AlertsSpec.processExpiryEvent_eq. simpl.
  destruct (blockData event) as [bd|]; [|reflexivity]. simpl.
  case_bool_decide; [reflexivity|].
  destruct (db_all env "getAlertsByDomain") as [[]|e1]; [|reflexivity].
  destruct (db_all env "getAlertsByPattern") as [[]|e2]; [|reflexivity].
  unfold dispatched at 1. simpl. fold (dispatched aid
    (for_of (allAlerts env (domain event) "expiry") (expiry_rule env event) s).2).
  apply (for_of_preserves_in (dispatched aid)). intros a s0 Ha.
  apply allAlerts_listed in Ha as (Hin & Hact & Hty & Hdom).
  rewrite AlertsSpec.expiry_rule_eq. simpl.
  destruct (shouldTriggerExpiryAlert a event) eqn:Etr; [|reflexivity].
  destruct (decide (id a = aid)) as [Heq|Hne].
  - exfalso. destruct (Hrows a Hin Heq) as [H1|[H1|[(H1 & H2 & H3)|H1]]];
      [congruence | congruence | | congruence].
    destruct Hdom as [Hd|[Hd|Hd]]; congruence.
  - apply after_trigger_other_rule. exact Hne.
Qed.

Lemma only_matching_rules_are_dispatched_witness :
  dispatched 1
    (processExpiryEvent
       (Scenario.dispatcher_env
          [Scenario.expiry_alert 1 7 (Some "other.ape") None] "basic")
       (Scenario.expiring "web3.ape" 3 "high")
       (Scenario.dispatcher_state ∅)).2 = 0%nat.
Proof.
  apply (only_matching_rules_are_dispatched
           (Scenario.dispatcher_env
              [Scenario.expiry_alert 1 7 (Some "other.ape") None] "basic")
           (Scenario.expiring "web3.ape" 3 "high") 1 (Scenario.dispatcher_state ∅)).
  intros a Ha _. apply list_elem_of_singleton in Ha. subst a.
  right. right. left. repeat split; discriminate.
Defined.

(** *** The scheduled jobs *)

Lemma sweep_rule_unchanged env alert s :
  AlertJobs.sweep_rule env alert s = (Ok tt, s).
Proof.
  unfold AlertJobs.sweep_rule, AlertJobs.checkDomainExpiry. eff_unfold.
  destruct (alert_domain alert) as [dom|]; [|reflexivity].
  destruct (String.eqb dom ""); reflexivity.
Qed.

(** X14.  The two scheduled jobs of the dispatcher deliver nothing: the
    expiry sweep, whatever rules [getActiveAlerts] returns (or if it
    fails), and the daily summary for free-tier users both return normally
    and leave the state as it was - no alert is handed to the listeners
    and nothing is logged or counted.  (Their helpers return [null], [[]]
    and an empty summary.) *)
Theorem scheduled_jobs_deliver_nothing env active_alerts payload s :
  AlertJobs.checkExpiringDomains env active_alerts s = (Ok tt, s)
  /\ AlertJobs.sendDailySummaries env payload s = (Ok tt, s).
Proof.
  split; [|reflexivity].
  unfold AlertJobs.checkExpiringDomains. eff_unfold.
  destruct active_alerts as [l|e]; [|reflexivity].
  rewrite (EngineProps.for_of_unchanged l (AlertJobs.sweep_rule env)
             (sweep_rule_unchanged env)).
  reflexivity.
Qed.

End DispatcherProps.

(** ** The monitor's events, as the two services read them *)

Module MonitorProps.
Import Monitor.
Local Open Scope Z_scope.

Lemma daysLeft_bounds expiryTime now :
  86400 * (daysLeft expiryTime now - 1) < expiryTime - now
  <= 86400 * daysLeft expiryTime now.
Proof.
  unfold daysLeft, ceil_div.
  pose proof (Z.div_mod (- (expiryTime - now)) 86400 ltac:(lia)) as Hdm.
  pose proof (Z.mod_pos_bound (- (expiryTime - now)) 86400 ltac:(lia)) as Hb.
  lia.
Qed.

Lemma daysLeft_antitone expiryTime now now' :
  now <= now' -> daysLeft expiryTime now' <= daysLeft expiryTime now.
Proof.
  intros H. pose proof (daysLeft_bounds expiryTime now).
  pose proof (daysLeft_bounds expiryTime now'). lia.
Qed.

Lemma urgencyLevel_urgencyOf d :
  urgencyLevel (Some (urgencyOf d))
  = Level (if d <=? 1 then 3 else if d <=? 3 then 2 else 1).
Proof. unfold urgencyOf. destruct (d <=? 1), (d <=? 3); reflexivity. Qed.

(** X15.  The urgency the monitor attaches to an expiry notice is a
    function of the seconds left: ['critical'] up to one day (and for a
    domain already expired), ['high'] above one and up to three days,
    ['medium'] beyond; [daysUntilExpiry] is the number of days left
    rounded up.  ['low'] is never produced. *)
Theorem urgency_follows_time_left own dom expiryTime now bd :
  let event := handleDomainExpiring own dom expiryTime now bd in
  (urgency event = Some "critical" <-> expiryTime - now <= 86400)
  /\ (urgency event = Some "high" <-> 86400 < expiryTime - now <= 259200)
  /\ (urgency event = Some "medium" <-> 259200 < expiryTime - now)
  /\ urgency event <> Some "low"
  /\ (exists d, daysUntilExpiry event = Num d
                /\ 86400 * (d - 1) < expiryTime - now <= 86400 * d).
Proof.
  cbv zeta. simpl. pose proof (daysLeft_bounds expiryTime now) as Hb.
  unfold urgencyOf.
  destruct (Z.leb_spec (daysLeft expiryTime now) 1) as [H1|H1];
    [|destruct (Z.leb_spec (daysLeft expiryTime now) 3) as [H3|H3]].
  all: repeat split; try (intros; discriminate); try (intros; lia);
    try (intros; exfalso; lia); try (intros; reflexivity).
  all: try (eexists; split; [reflexivity | lia]).
Qed.

(** X16.  On the free tier an expiry alert is handed over in real time
    exactly in the last day before expiry (or after it): for an expiry
    notice built by the monitor, the frequency gate lets a free-tier
    owner's alert through if and only if at most 86400 seconds are left. *)
Theorem free_tier_expiry_alert_only_in_last_day user alert own dom expiryTime now bd :
  subscriptionTier user = "free" ->
  Alerts.checkAlertFrequency user
    (Alerts.expiryAlertData alert (handleDomainExpiring own dom expiryTime now bd)) = true
  <-> expiryTime - now <= 86400.
Proof.
  intros Hfree. unfold Alerts.checkAlertFrequency. rewrite Hfree. simpl.
  pose proof (daysLeft_bounds expiryTime now) as Hb. unfold urgencyOf.
  destruct (Z.leb_spec (daysLeft expiryTime now) 1) as [H1|H1];
    [|destruct (Z.leb_spec (daysLeft expiryTime now) 3) as [H3|H3]].
  - rewrite bool_decide_true by reflexivity. simpl. split; [lia | reflexivity].
  - rewrite bool_decide_false by discriminate. simpl. split; [discriminate | lia].
  - rewrite bool_decide_false by discriminate. simpl. split; [discriminate | lia].
Qed.

Lemma free_tier_expiry_alert_only_in_last_day_witness :
  Alerts.checkAlertFrequency (Scenario.user_of_tier 7 "free")
    (Alerts.expiryAlertData (Scenario.expiry_alert 1 7 (Some "web3.ape") None)
       (handleDomainExpiring "0xOwner" "web3.ape" 1700086401 1700000000
          {| blockNumber := 1; transactionHash := "0xabc" |})) = true
  <-> 1700086401 - 1700000000 <= 86400.
Proof.
  apply (free_tier_expiry_alert_only_in_last_day (Scenario.user_of_tier 7 "free")).
  reflexivity.
Defined.

Lemma num_lt_Num_antitone (b : jsnum) d d' :
  d' <= d -> num_lt b (Num d) = false -> num_lt b (Num d') = false.
Proof.
  intros Hd. destruct b as [t|n k|t|]; simpl; trivial.
  - intros H. apply Z.ltb_ge in H. apply Z.ltb_ge. lia.
  - intros H. apply Z.ltb_ge in H. apply Z.ltb_ge.
    pose proof (pow2_pos k). nia.
Qed.

(** The test both expiry matchers apply is monotone in the days left
    and in the urgency. *)
Lemma expiry_gate_monotone (bound : option jsnum) (m u u' : option string) d d' :
  d' <= d ->
  (forall required, level_lt (urgencyLevel u) required = false ->
                    level_lt (urgencyLevel u') required = false) ->
  (if bound_and bound (num_gt (Num d)) then false
   else if opt_str_truthy m && level_lt (urgencyLevel u) (urgencyLevel m) then false
   else true) = true ->
  (if bound_and bound (num_gt (Num d')) then false
   else if opt_str_truthy m && level_lt (urgencyLevel u') (urgencyLevel m) then false
   else true) = true.
Proof.
  intros Hd Hu.
  destruct (bound_and bound (num_gt (Num d))) eqn:E1; [discriminate|].
  destruct (opt_str_truthy m && level_lt (urgencyLevel u) (urgencyLevel m)) eqn:E2;
    [discriminate|].
  intros _.
  assert (E1' : bound_and bound (num_gt (Num d')) = false).
  { destruct bound as [b|]; simpl in *; [|reflexivity].
    destruct (num_truthy b); simpl in *; [|reflexivity].
    unfold num_gt in *. exact (num_lt_Num_antitone b d d' Hd E1). }
  assert (E2' : opt_str_truthy m && level_lt (urgencyLevel u') (urgencyLevel m) = false).
  { destruct (opt_str_truthy m); simpl in *; [|reflexivity]. apply Hu, E2. }
  rewrite E1', E2'. reflexivity.
Qed.

(** X17.  Expiry conditions keep holding as the expiry comes closer: when
    an alert rule or an auto-renewal rule accepts the monitor's notice for
    a domain at some time, it accepts the notice for the same expiry at
    every later time (the days left only shrink and the urgency only
    rises). *)
Theorem expiry_conditions_keep_holding alert conditions own dom expiryTime now now' bd bd' :
  now <= now' ->
  (Alerts.shouldTriggerExpiryAlert alert
     (handleDomainExpiring own dom expiryTime now bd) = true ->
   Alerts.shouldTriggerExpiryAlert alert
     (handleDomainExpiring own dom expiryTime now' bd') = true)
  /\ (AutoActions.shouldExecuteAutoRenewal conditions
        (handleDomainExpiring own dom expiryTime now bd) = true ->
      AutoActions.shouldExecuteAutoRenewal conditions
        (handleDomainExpiring own dom expiryTime now' bd') = true).
Proof.
  intros Hle. pose proof (daysLeft_antitone expiryTime now now' Hle) as Hd.
  assert (Hu : forall required,
            level_lt (urgencyLevel (Some (urgencyOf (daysLeft expiryTime now))))
              required = false ->
            level_lt (urgencyLevel (Some (urgencyOf (daysLeft expiryTime now'))))
              required = false).
  { intros required. rewrite !urgencyLevel_urgencyOf.
    destruct required as [r|text]; simpl; [|trivial].
    intros H. apply Z.ltb_ge in H. apply Z.ltb_ge.
    destruct (Z.leb_spec (daysLeft expiryTime now) 1),
             (Z.leb_spec (daysLeft expiryTime now) 3),
             (Z.leb_spec (daysLeft expiryTime now') 1),
             (Z.leb_spec (daysLeft expiryTime now') 3); lia. }
  split.
  - exact (expiry_gate_monotone (Alerts.daysThreshold (Alerts.conditions alert))
             (Alerts.minUrgency (Alerts.conditions alert)) _ _ _ _ Hd Hu).
  - exact (expiry_gate_monotone (AutoActions.daysBeforeExpiry conditions)
             (AutoActions.minUrgency conditions) _ _ _ _ Hd Hu).
Qed.

Lemma expiry_conditions_keep_holding_witness :
  Alerts.shouldTriggerExpiryAlert (Scenario.expiry_alert 1 7 (Some "web3.ape") None)
    (handleDomainExpiring "0xOwner" "web3.ape" 1700500000 1700400000
       {| blockNumber := 2; transactionHash := "0xdef" |}) = true.
Proof.
  apply (expiry_conditions_keep_holding
           (Scenario.expiry_alert 1 7 (Some "web3.ape") None)
           Scenario.renew_conditions "0xOwner" "web3.ape" 1700500000
           1700000000 1700400000
           {| blockNumber := 1; transactionHash := "0xabc" |}
           {| blockNumber := 2; transactionHash := "0xdef" |});
    [lia | vm_compute; reflexivity].
Defined.

(** X18.  A price-change event carries no [price] member, so the price
    bounds of a sale rule have no effect on it: two rules that agree on
    [saleTypes] and [domainPatterns] give the same answer on every
    price-change event, whatever their [maxPrice] and [minPrice]. *)
Theorem price_change_ignores_price_bounds alert alert' sel dom bd :
  Alerts.saleTypes (Alerts.conditions alert) = Alerts.saleTypes (Alerts.conditions alert') ->
  Alerts.domainPatterns (Alerts.conditions alert)
  = Alerts.domainPatterns (Alerts.conditions alert') ->
  Alerts.shouldTriggerSaleAlert alert (handleDomainPriceChanged sel dom bd)
  = Alerts.shouldTriggerSaleAlert alert' (handleDomainPriceChanged sel dom bd).
Proof.
  intros Ht Hp. unfold Alerts.shouldTriggerSaleAlert. simpl. rewrite Ht, Hp.
  assert (Hmax : forall b, bound_and b (num_gt NaN) = false).
  { intros [[]|]; simpl; rewrite ?andb_false_r; reflexivity. }
  assert (Hmin : forall b, bound_and b (num_lt NaN) = false).
  { intros [[]|]; simpl; rewrite ?andb_false_r; reflexivity. }
  rewrite !Hmax, !Hmin. reflexivity.
Qed.

Lemma price_change_ignores_price_bounds_witness :
  Alerts.shouldTriggerSaleAlert (Scenario.sale_alert 1 7 "web3.ape" (Some (Num 50)))
    (handleDomainPriceChanged "0xSeller" "web3.ape"
       {| blockNumber := 1; transactionHash := "0xabc" |})
  = Alerts.shouldTriggerSaleAlert (Scenario.sale_alert 1 7 "web3.ape" None)
      (handleDomainPriceChanged "0xSeller" "web3.ape"
         {| blockNumber := 1; transactionHash := "0xabc" |}).
Proof.
  apply (price_change_ignores_price_bounds
           (Scenario.sale_alert 1 7 "web3.ape" (Some (Num 50)))
           (Scenario.sale_alert 1 7 "web3.ape" None)); reflexivity.
Defined.

End MonitorProps.

(** ** Subscription tiers *)

Module TierProps.
Import Tiers.
Local Open Scope Z_scope.

(** X19.  For the three tiers the [users] table admits, the usage
    report of [checkUserLimits] agrees with what the subscription service
    advertises and with what the engine enforces: the alert limit is the
    tier's advertised number of alerts, auto-actions are reported as
    enabled exactly when the tier's benefits include them and exactly when
    the engine takes the owner for premium (and only then is the
    auto-action limit positive); the number of alerts still available is
    never negative and is positive exactly when the current count is below
    the limit. *)
Theorem limits_agree_with_benefits u ac dc :
  subscriptionTier u ∈ tierNames ->
  exists r,
    checkUserLimits (Ok (Some u)) (Ok ac) (Ok dc) = Ok r
    /\ limit (ul_alerts r) = alerts (getTierBenefits (subscriptionTier u))
    /\ ul_autoActions_enabled r = autoActions (getTierBenefits (subscriptionTier u))
    /\ ul_autoActions_enabled r = AutoActions.is_premium (Some u)
    /\ (0 < ul_autoActions_limit r <-> ul_autoActions_enabled r = true)
    /\ 0 <= available (ul_alerts r)
    /\ (0 < available (ul_alerts r) <-> ac < limit (ul_alerts r))
    /\ (0 < available (ul_domains r) <-> dc < limit (ul_domains r)).
Proof.
  intros Hin. eexists. split; [reflexivity|]. simpl.
  unfold limitsOf, getTierBenefits.
  unfold tierNames in Hin. rewrite !elem_of_cons in Hin.
  destruct Hin as [E|[E|[E|E]]]; [| | |inversion E]; rewrite E; simpl;
    repeat split; try lia; try discriminate; try reflexivity.
Qed.

Lemma limits_agree_with_benefits_witness :
  exists r,
    checkUserLimits (Ok (Some (Scenario.user_of_tier 7 "free"))) (Ok 5) (Ok 2) = Ok r
    /\ available (ul_alerts r) = 0
    /\ available (ul_domains r) = 3
    /\ ul_autoActions_enabled r = false.
Proof.
  destruct (limits_agree_with_benefits (Scenario.user_of_tier 7 "free") 5 2)
    as (r & Hr & _); [unfold tierNames; simpl; left|].
  exists r. simpl in Hr. injection Hr as <-. repeat split.
Defined.

(** X20.  For the three tiers the [users] table admits, the advertised
    alert frequency is what the dispatcher's gate enforces: the tier's
    benefits say ['realtime'] exactly when the gate lets every alert of
    such an owner through, whatever its urgency. *)
Theorem advertised_frequency_is_enforced u :
  subscriptionTier u ∈ tierNames ->
  frequency (getTierBenefits (subscriptionTier u)) = "realtime"
  <-> (forall alertData, Alerts.checkAlertFrequency u alertData = true).
Proof.
  intros Hin. unfold Alerts.checkAlertFrequency, getTierBenefits.
  unfold tierNames in Hin. rewrite !elem_of_cons in Hin.
  destruct Hin as [E|[E|[E|E]]]; [| | |inversion E]; rewrite E; simpl.
  - split; [discriminate|]. intros H.
    specialize (H (Alerts.saleAlertData (Scenario.sale_alert 1 7 "web3.ape" None)
                     (Scenario.listing "web3.ape" 45))).
    simpl in H. discriminate.
  - split; reflexivity.
  - split; reflexivity.
Qed.

Lemma advertised_frequency_is_enforced_witness :
  frequency (getTierBenefits "basic") = "realtime"
  <-> (forall alertData,
         Alerts.checkAlertFrequency (Scenario.user_of_tier 7 "basic") alertData = true).
Proof.
  apply (advertised_frequency_is_enforced (Scenario.user_of_tier 7 "basic")).
  unfold tierNames. simpl. rewrite !elem_of_cons. right. left. reflexivity.
Defined.

(** X29.  The tier a user buys comes back under the same name: when
    [purchaseSubscription] gets as far as the contract, the user has a
    wallet address, the tier is ['basic'] or ['premium'] (the free tier
    cannot be bought), the duration is passed in seconds, and the tier
    number sent to the contract is one the event handlers translate back
    into the tier that was asked for. *)
Theorem purchased_tier_round_trip user tier duration request :
  Subscriptions.purchase_request user tier duration = Ok request ->
  Subscriptions.tierName (Subscriptions.tierNumber request) = Some tier
  /\ tier ∈ tierNames
  /\ tier <> "free"
  /\ Subscriptions.durationSeconds request = 86400 * duration
  /\ (exists u w, user = Ok (Some u) /\ walletAddress u = Some w /\ w <> "").
Proof.
  unfold Subscriptions.purchase_request.
  destruct user as [[u|]|e]; simpl; try discriminate.
  destruct (walletAddress u) as [w|] eqn:Ew; simpl; [|discriminate].
  destruct (String.eqb_spec w "") as [->|Hw]; simpl; [discriminate|].
  case_bool_decide as Hin; simpl; [|discriminate].
  intros [= <-]. simpl. rewrite !elem_of_cons in Hin.
  destruct Hin as [->|[->|Hin]]; [| |inversion Hin]; simpl.
  - repeat split; try lia; try discriminate.
    + unfold tierNames. rewrite !elem_of_cons. auto.
    + exists u, w. repeat split; assumption.
  - repeat split; try lia; try discriminate.
    + unfold tierNames. rewrite !elem_of_cons. auto.
    + exists u, w. repeat split; assumption.
Qed.

Lemma purchased_tier_round_trip_witness :
  Subscriptions.tierName 2 = Some "premium".
Proof.
  apply (purchased_tier_round_trip (Ok (Some (Scenario.user_of_tier 7 "free")))
           "premium" 30 {| Subscriptions.tierNumber := 2;
                           Subscriptions.durationSeconds := 2592000 |}).
  reflexivity.
Defined.

End TierProps.

(** ** Transfer rules *)

Module TransferProps.
Import Transfers.

(** X21.  The transfer conditions compare addresses with the wallet of
    [alert.user].  For a rule row that carries no user with a wallet
    address, [onlyUserInvolved] has no effect and a rule restricted to
    ['incoming'] or ['outgoing'] transfers never fires; every other rule
    fires on every transfer. *)
Theorem transfer_conditions_need_a_wallet conditions user event :
  user ≫= walletAddress = None ->
  shouldTriggerTransferAlert conditions user event
  = negb (bool_decide (direction conditions = Some "incoming")
          || bool_decide (direction conditions = Some "outgoing")).
Proof.
  intros Hw. unfold shouldTriggerTransferAlert. rewrite Hw. simpl.
  rewrite andb_false_r.
  destruct (direction conditions) as [d|]; simpl; [|reflexivity].
  destruct (String.eqb_spec d "") as [->|Hne]; simpl; [reflexivity|].
  repeat case_bool_decide; simplify_eq; reflexivity.
Qed.

Lemma transfer_conditions_need_a_wallet_witness :
  shouldTriggerTransferAlert
    {| onlyUserInvolved := true; direction := Some "incoming" |} None
    {| tr_from := "0xSeller"; tr_to := "0xOwner" |} = false.
Proof.
  apply (transfer_conditions_need_a_wallet
           {| onlyUserInvolved := true; direction := Some "incoming" |} None
           {| tr_from := "0xSeller"; tr_to := "0xOwner" |}).
  reflexivity.
Defined.

End TransferProps.

(** ** The [UPDATE] statements of the models *)

Module StoreProps.
Import Store.

Lemma placeholders_app (a b : string) :
  placeholders (a +:+ b) = placeholders a + placeholders b.
Proof.
  induction a as [|c a IH]; [reflexivity|]. simpl. rewrite IH. lia.
Qed.

Lemma placeholders_join (l : list string) :
  placeholders (join ", " l) = sum_list (placeholders <$> l).
Proof.
  induction l as [|x l IH]; [reflexivity|].
  destruct l as [|y l]; [simpl; lia|].
  change (join ", " (x :: y :: l)) with (x +:+ ", " +:+ join ", " (y :: l)).
  rewrite !placeholders_app, IH. simpl. lia.
Qed.

Section Updates.
Context {V : Type} (is_object : V -> bool) (stringify : V -> V) (of_id : Z -> V).

(** The loop pushes one value per field, and every field assigns an
    allowed column. *)
Lemma collect_fields allowedFields json_key (entries : list (string * V)) :
  let fv := collect V is_object stringify allowedFields json_key entries in
  length fv.1 = length fv.2
  /\ Forall (fun f => exists key, key ∈ allowedFields /\ f = key +:+ " = ?") fv.1.
Proof.
  induction entries as [|[key value] rest IH]; simpl; [split; [reflexivity | constructor]|].
  destruct (collect V is_object stringify allowedFields json_key rest)
    as [fields values]. simpl in *. destruct IH as [IHl IHf].
  case_bool_decide as Hin; simpl.
  - split; [lia|]. constructor; [exists key; split; [exact Hin | reflexivity] | exact IHf].
  - split; assumption.
Qed.

(** Entries whose key is not allowed have no effect. *)
Lemma collect_filter allowedFields json_key (entries : list (string * V)) :
  collect V is_object stringify allowedFields json_key entries
  = collect V is_object stringify allowedFields json_key
      (filter (fun kv : string * V => kv.1 ∈ allowedFields) entries).
Proof.
  induction entries as [|[key value] rest IH]; [reflexivity|].
  rewrite filter_cons. simpl. destruct (decide (key ∈ allowedFields)) as [Hin|Hin].
  - simpl. rewrite <- IH. reflexivity.
  - rewrite <- IH. rewrite bool_decide_false by exact Hin.
    destruct (collect V is_object stringify allowedFields json_key rest). reflexivity.
Qed.

Lemma update_statement_placeholders table allowedFields json_key id
    (updateData : list (string * V)) statement :
  placeholders table = 0 ->
  Forall (fun key => placeholders key = 0) allowedFields ->
  update_statement V is_object stringify of_id table allowedFields json_key id updateData
  = Ok statement ->
  placeholders (sql V statement) = length (params V statement).
Proof.
  intros Ht Hallowed. unfold update_statement.
  pose proof (collect_fields allowedFields json_key updateData) as Hc.
  destruct (collect V is_object stringify allowedFields json_key updateData)
    as [fields values]. simpl in Hc. destruct Hc as [Hlen Hf].
  destruct (length fields =? 0)%nat; [discriminate|]. intros [= <-]. simpl.
  rewrite !placeholders_app, placeholders_join, Ht, length_app.
  simpl. rewrite <- Hlen.
  assert (Hs : sum_list (placeholders <$> fields ++ ["updatedAt = CURRENT_TIMESTAMP"])
               = length fields).
  { clear Hlen. induction Hf as [|f fields (key & Hin & ->) _ IH]; [reflexivity|].
    change (placeholders (key +:+ " = ?")
            + sum_list (placeholders <$> fields ++ ["updatedAt = CURRENT_TIMESTAMP"])
            = S (length fields)).
    rewrite IH, placeholders_app.
    rewrite (proj1 (Forall_forall _ _) Hallowed key Hin). reflexivity. }
  rewrite Hs. lia.
Qed.

Lemma update_statement_filter table allowedFields json_key id
    (updateData : list (string * V)) :
  update_statement V is_object stringify of_id table allowedFields json_key id updateData
  = update_statement V is_object stringify of_id table allowedFields json_key id
      (filter (fun kv : string * V => kv.1 ∈ allowedFields) updateData).
Proof. unfold update_statement. rewrite <- collect_filter. reflexivity. Qed.

(** X22.  Every statement [updateAlert] and [updateUser] hand to the
    database binds exactly as many values as it has [?] placeholders,
    whatever the update object holds. *)
Theorem update_binds_every_placeholder id (updateData : list (string * V)) statement :
  (update_statement V is_object stringify of_id "alerts" alert_allowedFields
     "conditions" id updateData = Ok statement ->
   placeholders (sql V statement) = length (params V statement))
  /\ (update_statement V is_object stringify of_id "users" user_allowedFields
        "preferences" id updateData = Ok statement ->
      placeholders (sql V statement) = length (params V statement)).
Proof.
  split; apply update_statement_placeholders; try reflexivity;
    repeat constructor.
Qed.

(** X23.  [updateAlert] and [updateUser] write allowed columns only: the
    members of the update object whose key is not in the allowed list have
    no effect on the outcome, and when no key is allowed the call throws
    ['No valid fields to update'] without consulting the database. *)
Theorem only_allowed_columns_are_written {A} (run : Statement V -> result unit)
    (reread : Z -> result A) id (updateData : list (string * V)) :
  let for_alerts := filter (fun kv : string * V => kv.1 ∈ alert_allowedFields) updateData in
  let for_users := filter (fun kv : string * V => kv.1 ∈ user_allowedFields) updateData in
  updateAlert V is_object stringify of_id run reread id updateData
  = updateAlert V is_object stringify of_id run reread id for_alerts
  /\ updateUser V is_object stringify of_id run reread id updateData
     = updateUser V is_object stringify of_id run reread id for_users
  /\ (for_alerts = [] ->
      updateAlert V is_object stringify of_id run reread id updateData
      = Throw (JsError "No valid fields to update"))
  /\ (for_users = [] ->
      updateUser V is_object stringify of_id run reread id updateData
      = Throw (JsError "No valid fields to update")).
Proof.
  cbv zeta. unfold updateAlert, updateUser.
  rewrite (update_statement_filter "alerts" alert_allowedFields "conditions" id updateData).
  rewrite (update_statement_filter "users" user_allowedFields "preferences" id updateData).
  repeat split.
  - intros ->. reflexivity.
  - intros ->. reflexivity.
Qed.
End Updates.

End StoreProps.

(** ** The rule table of the auto-action engine *)

Module ActionStoreProps.
Import ActionStore.
Local Open Scope Z_scope.

Lemma filter_none_selected actionId uid (l : list Row) :
  (forall r, r ∈ l -> ~ selected actionId uid r) ->
  filter (selected actionId uid) l = []
  /\ filter (fun r => ~ selected actionId uid r) l = l.
Proof.
  induction l as [|r l IH]; intros H; [split; reflexivity|].
  destruct IH as (IH1 & IH2); [intros r' Hr'; apply H; right; exact Hr'|].
  pose proof (H r ltac:(left)) as Hr.
  rewrite !filter_cons.
  rewrite (decide_False (P := selected actionId uid r)) by exact Hr.
  rewrite (decide_True (P := ~ selected actionId uid r)) by exact Hr.
  rewrite IH1, IH2. split; reflexivity.
Qed.

Lemma update_none_selected actionId uid updateData (l : list Row) :
  (forall r, r ∈ l -> ~ selected actionId uid r) ->
  (fun r => if decide (selected actionId uid r)
            then apply_update updateData r else r) <$> l = l.
Proof.
  induction l as [|r l IH]; intros H; [reflexivity|].
  rewrite fmap_cons.
  rewrite (decide_False (P := selected actionId uid r)) by (apply H; left).
  rewrite IH; [reflexivity|]. intros r' Hr'. apply H. right. exact Hr'.
Qed.

(** X24.  Changes to a rule are scoped to its owner.  When no row has
    both the given id and the given user id - the rule belongs to someone
    else, or does not exist - [deleteAutoAction] throws and
    [updateAutoAction] changes nothing: the table is left exactly as it
    was.  The deletion reports ['Auto-action not found'] when the database
    accepted the statement; the update reports nothing. *)
Theorem rule_changes_are_owner_scoped db actionId uid updateData t :
  (forall r, r ∈ rows t -> row_id r = actionId -> row_userId r <> uid) ->
  rows (deleteAutoAction db actionId uid t).2 = rows t
  /\ (exists e, (deleteAutoAction db actionId uid t).1 = Throw e)
  /\ (run db "DELETE" = Ok tt ->
      (deleteAutoAction db actionId uid t).1 = Throw (JsError "Auto-action not found"))
  /\ rows (updateAutoAction db actionId uid updateData t).2 = rows t.
Proof.
  intros Hforeign.
  assert (Hnone : forall r, r ∈ rows t -> ~ selected actionId uid r).
  { intros r Hr [Hid Hu]. exact (Hforeign r Hr Hid Hu). }
  destruct (filter_none_selected actionId uid (rows t) Hnone) as (F1 & F2).
  pose proof (update_none_selected actionId uid updateData (rows t) Hnone) as F3.
  assert (Hupd : rows (updateAutoAction db actionId uid updateData t).2 = rows t).
  { unfold updateAutoAction. eff_unfold.
    case_bool_decide; simpl; [reflexivity|].
    destruct (run db "UPDATE") as [[]|e]; simpl; [exact F3 | reflexivity]. }
  unfold deleteAutoAction. eff_unfold.
  destruct (run db "DELETE") as [[]|e]; simpl; rewrite ?F1, ?F2; simpl.
  - split; [reflexivity|]. split; [eauto|]. split; [reflexivity | exact Hupd].
  - split; [reflexivity|]. split; [eauto|]. split; [discriminate | exact Hupd].
Qed.

Lemma rule_changes_are_owner_scoped_witness :
  rows (deleteAutoAction (StoreScenario.action_db "premium") 1 8 StoreScenario.action_table).2
  = rows StoreScenario.action_table
  /\ (deleteAutoAction (StoreScenario.action_db "premium") 1 8 StoreScenario.action_table).1
     = Throw (JsError "Auto-action not found").
Proof.
  destruct (rule_changes_are_owner_scoped (StoreScenario.action_db "premium") 1 8
              {| upd_conditions := None; upd_maxAmount := None;
                 upd_isActive := Some false |}
              StoreScenario.action_table) as (H1 & _ & H2 & _).
  - intros r Hr _. simpl in Hr. rewrite !elem_of_cons in Hr.
    destruct Hr as [->|[->|Hr]]; [discriminate | discriminate | inversion Hr].
  - split; [exact H1 | apply H2; reflexivity].
Defined.

(** X25.  A rule can only be created by a premium user and with an
    admitted type: when [createAutoAction] returns an id, the owner row
    was found on the premium tier, the type is one of ['renew'], ['buy'],
    ['bid'], and the table has grown by exactly one active row with that
    id, owner and type; when the owner is not premium the call throws and
    the table is left as it was. *)
Theorem rule_creation_requires_premium db uid actionData t :
  (forall newId t',
     createAutoAction db uid actionData t = (Ok newId, t') ->
     AutoActions.is_premium (found (user_row db uid)) = true
     /\ type_admitted (new_type actionData) = true
     /\ newId = last_id t + 1
     /\ last_id t' = newId
     /\ rows t' = rows t ++
          [{| row_id := newId; row_userId := uid;
              row_type := new_type actionData;
              row_conditions := new_conditions actionData;
              row_maxAmount := new_maxAmount actionData;
              row_isActive := true;
              row_executionCount := 0 |}])
  /\ (AutoActions.is_premium (found (user_row db uid)) = false ->
      exists e, createAutoAction db uid actionData t = (Throw e, t)).
Proof.
  unfold createAutoAction. eff_unfold. split.
  - intros newId t'.
    destruct (user_row db uid) as [[u|]|e]; simpl; try discriminate.
    destruct (String.eqb (subscriptionTier u) "premium"); simpl; [|discriminate].
    destruct (run db "INSERT") as [[]|e]; simpl; [|discriminate].
    destruct (type_admitted (new_type actionData)); simpl; [|discriminate].
    intros [= <- <-]. repeat split.
  - destruct (user_row db uid) as [[u|]|e]; simpl; eauto.
    intros ->. simpl. eauto.
Qed.

End ActionStoreProps.

(** ** Domain patterns *)

Module PatternProps.
Import Regex Patterns.

Lemma list_ascii_of_string_app (a b : string) :
  list_ascii_of_string (a +:+ b) = list_ascii_of_string a ++ list_ascii_of_string b.
Proof. induction a as [|c a IH]; [reflexivity|]. simpl. rewrite IH. reflexivity. Qed.

Lemma parse_plain_char c acc cs :
  is_plain c = true ->
  parse acc (c :: cs) = parse (One (atom_of c) :: acc) cs.
Proof.
  destruct c as [[] [] [] [] [] [] [] []]; intros H;
    first [discriminate H | reflexivity].
Qed.

Lemma parse_plain cs acc rest :
  forallb is_plain cs = true ->
  parse acc (cs ++ rest) = parse (rev (map (fun c => One (atom_of c)) cs) ++ acc) rest.
Proof.
  revert acc. induction cs as [|c cs IH]; intros acc H; [reflexivity|].
  simpl in H. apply andb_true_iff in H as [Hc Hcs].
  change ((c :: cs) ++ rest) with (c :: (cs ++ rest)).
  rewrite (parse_plain_char c acc _ Hc), (IH _ Hcs). simpl.
  rewrite <- app_assoc. reflexivity.
Qed.

Lemma atom_of_matches c : is_plain c = true -> atom_matches (atom_of c) c = true.
Proof.
  intros _. unfold atom_of. destruct (Ascii.eqb_spec c ".") as [->|Hne];
    [reflexivity | simpl; apply Ascii.eqb_refl].
Qed.

Lemma match_here_plain cs r pos s :
  forallb is_plain cs = true ->
  match_here (map (fun c => One (atom_of c)) cs ++ r) pos (cs ++ s)
  = match_here r (pos + length cs) s.
Proof.
  revert pos. induction cs as [|c cs IH]; intros pos H.
  - simpl. rewrite Nat.add_0_r. reflexivity.
  - simpl in H. apply andb_true_iff in H as [Hc Hcs]. simpl.
    rewrite (atom_of_matches c Hc), (IH _ Hcs). simpl.
    f_equal. lia.
Qed.

Lemma search_skip r pos a s :
  match_here r (pos + length a) s = true -> search r pos (a ++ s) = true.
Proof.
  revert pos. induction a as [|c a IH]; intros pos H.
  - simpl in H. rewrite Nat.add_0_r in H. destruct s; simpl; rewrite H; reflexivity.
  - simpl. apply orb_true_iff. right. apply IH.
    rewrite <- H. f_equal. simpl. lia.
Qed.


Lemma replace_all_chars_absent c by_ (l : list ascii) :
  forallb (fun d => negb (Ascii.eqb d c)) l = true ->
  replace_all_chars c by_ l = l.
Proof.
  induction l as [|d l IH]; intros H; [reflexivity|].
  simpl in H. apply andb_true_iff in H as [Hd Hl]. simpl.
  apply negb_true_iff in Hd. rewrite Hd, (IH Hl). reflexivity.
Qed.

Lemma plain_absent (c : ascii) (l : list ascii) :
  is_plain c = false ->
  forallb is_plain l = true ->
  forallb (fun d => negb (Ascii.eqb d c)) l = true.
Proof.
  intros Hc. induction l as [|d l IH]; intros H; [reflexivity|].
  simpl in H. apply andb_true_iff in H as [Hd Hl]. simpl. rewrite (IH Hl), andb_true_r.
  apply negb_true_iff. destruct (Ascii.eqb_spec d c) as [->|]; [congruence | reflexivity].
Qed.

Lemma replace_all_plain c by_ (p : string) :
  is_plain c = false -> plain p = true -> replace_all c by_ p = p.
Proof.
  intros Hc Hp. unfold replace_all.
  rewrite replace_all_chars_absent by (apply plain_absent; assumption).
  apply string_of_list_ascii_of_string.
Qed.


Lemma RegExp_plain (p : string) :
  plain p = true ->
  RegExp p = Ok (map (fun c => One (atom_of c)) (list_ascii_of_string p)).
Proof.
  intros Hp. unfold RegExp.
  rewrite <- (app_nil_r (list_ascii_of_string p)) at 1.
  rewrite (parse_plain _ [] [] Hp). simpl. rewrite app_nil_r, rev_involutive.
  reflexivity.
Qed.

(** X26.  Patterns of [conditions.domainPatterns] are not anchored: a
    pattern without wildcard or metacharacter matches every domain that
    contains it, at any position. *)
Theorem literal_pattern_matches_every_superstring before p after :
  plain p = true ->
  domainPattern_test (before +:+ p +:+ after) p = Ok true.
Proof.
  intros Hp. unfold domainPattern_test.
  rewrite (replace_all_plain "*" ".*" p eq_refl Hp), (RegExp_plain p Hp).
  f_equal. unfold test. rewrite !list_ascii_of_string_app.
  apply search_skip.
  rewrite <- (app_nil_r (map _ (list_ascii_of_string p))).
  rewrite (match_here_plain _ [] _ _ Hp). reflexivity.
Qed.

Lemma literal_pattern_matches_every_superstring_witness :
  domainPattern_test ("gr" +:+ "ape" +:+ "s.io") "ape" = Ok true.
Proof.
  apply (literal_pattern_matches_every_superstring "gr" "ape" "s.io"). reflexivity.
Defined.



Lemma listed_member (a : Alerts.Alert) (l : list Alerts.Alert) :
  a ∈ l -> 1 <= Alerts.listed (Alerts.id a) l.
Proof.
  unfold Alerts.listed. induction l as [|b l IH]; intros H; [inversion H|].
  rewrite filter_cons. apply elem_of_cons in H as [<-|H].
  - rewrite decide_True by reflexivity. simpl. lia.
  - specialize (IH H). destruct (decide _); simpl; lia.
Qed.

Lemma pattern_filter_plain beyond (a : Alerts.Alert) d :
  Alerts.domainPattern a = Some d -> plain d = true -> d <> "" ->
  Alerts.pattern_filter beyond d a = true.
Proof.
  intros Hpat Hp Hne. unfold Alerts.pattern_filter. rewrite Hpat.
  destruct (String.eqb_spec d "") as [E|_]; [contradiction|].
  rewrite (replace_all_plain "%" ".*" d eq_refl Hp),
          (replace_all_plain "_" "." d eq_refl Hp).
  destruct (negb _); [rewrite Hp, String.eqb_refl; reflexivity|].
  unfold RegExp. rewrite !list_ascii_of_string_app.
  change (parse [] (list_ascii_of_string "^" ++ list_ascii_of_string d
                    ++ list_ascii_of_string "$"))
    with (parse [Bol] (list_ascii_of_string d ++ ["$"%char])).
  rewrite (parse_plain _ _ _ Hp).
  change (parse (rev (map (fun c => One (atom_of c)) (list_ascii_of_string d)) ++ [Bol])
            ["$"%char])
    with (Ok (rev (Eol :: rev (map (fun c => One (atom_of c)) (list_ascii_of_string d))
                   ++ [Bol])) : result regex).
  set (atoms := map (fun c => One (atom_of c)) (list_ascii_of_string d)).
  assert (Hr : rev (Eol :: rev atoms ++ [Bol]) = Bol :: atoms ++ [Eol]).
  { change (rev (Eol :: rev atoms ++ [Bol])) with (rev (rev atoms ++ [Bol]) ++ [Eol]).
    rewrite rev_app_distr, rev_involutive. reflexivity. }
  rewrite Hr. subst atoms. unfold test.
  assert (Hm : match_here
                 (Bol :: map (fun c => One (atom_of c)) (list_ascii_of_string d) ++ [Eol])
                 0 (list_ascii_of_string d) = true).
  { simpl. pose proof (match_here_plain (list_ascii_of_string d) [Eol] 0 [] Hp) as Hmh.
    rewrite (app_nil_r (list_ascii_of_string d)) in Hmh. rewrite Hmh. reflexivity. }
  apply (search_skip _ 0 [] _). exact Hm.
Qed.

(** X28.  A rule whose [domainPattern] is a plain domain name is found by
    both lookups of an event for that domain - [getAlertsByDomain]
    compares the column literally and [getAlertsByPattern] matches it as a
    pattern - so it is listed at least twice among the rules the event is
    dispatched to. *)
Theorem literal_pattern_rule_is_listed_twice env a d type_ :
  a ∈ Alerts.alerts_table env ->
  Alerts.alert_isActive a = true ->
  Alerts.type a = type_ ->
  Alerts.domainPattern a = Some d ->
  plain d = true ->
  d <> "" ->
  2 <= Alerts.listed (Alerts.id a) (Alerts.allAlerts env d type_).
Proof.
  intros Hin Hact Hty Hpat Hp Hne.
  unfold Alerts.allAlerts, Alerts.listed. rewrite filter_app, length_app.
  assert (H1 : a ∈ Alerts.rows_by_domain env d type_).
  { unfold Alerts.rows_by_domain. apply list_elem_of_filter. split; [|exact Hin].
    split; [exact Hact|]. split; [right; exact Hpat | exact Hty]. }
  assert (H2 : a ∈ Alerts.rows_by_pattern env d type_).
  { unfold Alerts.rows_by_pattern. apply list_elem_of_filter.
    split; [apply pattern_filter_plain; assumption|].
    apply list_elem_of_filter. split; [|exact Hin].
    split; [exact Hact|]. split; [rewrite Hpat; eauto | exact Hty]. }
  pose proof (listed_member a _ H1) as L1. pose proof (listed_member a _ H2) as L2.
  unfold Alerts.listed in L1, L2. lia.
Qed.

Lemma literal_pattern_rule_is_listed_twice_witness :
  2 <= Alerts.listed 1
         (Alerts.allAlerts
            (Scenario.dispatcher_env
               [Scenario.expiry_alert 1 7 None (Some "web3.ape")] "basic")
            "web3.ape" "expiry").
Proof.
  apply (literal_pattern_rule_is_listed_twice
           (Scenario.dispatcher_env
              [Scenario.expiry_alert 1 7 None (Some "web3.ape")] "basic")
           (Scenario.expiry_alert 1 7 None (Some "web3.ape")) "web3.ape" "expiry");
    try reflexivity; [left | discriminate].
Defined.

End PatternProps.
